(** * User Rating App (app.py): the store and the analytics over it

    app.py is a Streamlit script: a form appends one rating to
    [user_ratings.csv] through pandas, and a dashboard reads the file back,
    sorts it by date, filters it by user and shows a chart, a table and two
    aggregates.  The functions of app.py that touch the data ([load_data],
    [save_data], [input_page], [analytics_page]) are embedded below under
    their own names; each takes what its widgets hold and the file as
    arguments and returns what it shows and the file it leaves.  The
    navigation between the two pages (the session state, [create_navigation]
    and [main]) is embedded after them, with the reruns that [st.rerun()]
    asks for.

    The pandas calls they make are embedded in [Module pd], one definition per
    call, with the defaults app.py relies on.  Four conventions:

    - a CSV file is the header and the lines of fields that the csv tokenizer
      hands to pandas; the quoting of commas, quotes and line breaks inside a
      field is below this model and taken to give back the field it was
      given;
    - a cell whose Python value the model does not determine (a float, a
      boolean, an unsigned integer, or text that merely looks like one) is
      [VUnknown], and the text printed for such a cell is [FUnknown]; nothing
      is proved about their content;
    - a call whose result the model does not determine at all returns
      [Unmodelled]; an exception the model does follow is [Raises];
    - the argsort behind [sort_values] is a parameter of the dashboard, known
      only to sort. *)

From Stdlib Require Import String Ascii Bool Arith ZArith NArith QArith.
From Stdlib Require Import Lia DecimalString DecimalPos DecimalZ.
From Stdlib Require Import List Permutation Sorted.
Import ListNotations.

Local Close Scope Q_scope.
Local Open Scope nat_scope.
Local Open Scope string_scope.
Local Open Scope list_scope.

(** ** Outcomes of a call *)

Inductive exn : Type :=
| KeyError (key : string).

Inductive outcome (A : Type) : Type :=
| Ok (a : A)
| Raises (e : exn)
| Unmodelled.

Arguments Ok {A} a.
Arguments Raises {A} e.
Arguments Unmodelled {A}.

Definition bind {A B : Type} (m : outcome A) (k : A -> outcome B) : outcome B :=
  match m with
  | Ok a => k a
  | Raises e => Raises e
  | Unmodelled => Unmodelled
  end.

Notation "x <- m ;; k" := (bind m (fun x => k))
  (at level 61, m at next level, right associativity).

(** ** Matrices of cells, read by column

    pandas decides per column how a cell is read or printed; the file is
    written per line.  [map_with_column f m] maps every cell of the matrix
    [m], giving [f] the whole column the cell stands in. *)

Definition column_at {A : Type} (d : A) (j : nat) (m : list (list A)) : list A :=
  map (fun r => nth j r d) m.

Fixpoint mapi_from {A B : Type} (k : nat) (g : nat -> A -> B) (l : list A) : list B :=
  match l with
  | [] => []
  | x :: l' => g k x :: mapi_from (S k) g l'
  end.

Definition map_with_column {A B : Type} (d : A) (f : list A -> A -> B)
    (m : list (list A)) : list (list B) :=
  map (mapi_from 0 (fun j x => f (column_at d j m) x)) m.

Definition rectangular {A : Type} (n : nat) (m : list (list A)) : Prop :=
  Forall (fun r => length r = n) m.

(** ** Text of a field, as the parser classifies it *)

Module Text.

Definition code (c : ascii) : nat := nat_of_ascii c.

Definition is_digit (c : ascii) : bool := ((48 <=? code c) && (code c <=? 57))%nat.

(* isspace: space, \t, \n, \v, \f, \r *)
Definition is_space (c : ascii) : bool :=
  ((code c =? 32) || ((9 <=? code c) && (code c <=? 13)))%nat.

Definition is_sign (c : ascii) : bool := ((code c =? 43) || (code c =? 45))%nat.

Definition is_point (c : ascii) : bool := (code c =? 46)%nat.

Definition is_exp (c : ascii) : bool := ((code c =? 101) || (code c =? 69))%nat.

Definition lower (c : ascii) : ascii :=
  if ((65 <=? code c) && (code c <=? 90))%nat then ascii_of_nat (code c + 32) else c.

Fixpoint skip (p : ascii -> bool) (s : string) : string :=
  match s with
  | String c s' => if p c then skip p s' else s
  | EmptyString => EmptyString
  end.

Definition skip_one (p : ascii -> bool) (s : string) : string :=
  match s with
  | String c s' => if p c then s' else s
  | EmptyString => EmptyString
  end.

Definition skip_exponent (s : string) : string :=
  match s with
  | String c s' => if is_exp c then skip is_digit (skip_one is_sign s') else s
  | EmptyString => EmptyString
  end.

Definition is_empty (s : string) : bool :=
  match s with
  | EmptyString => true
  | String _ _ => false
  end.

(** Every spelling the float and integer converters may accept has this
    shape: spaces, an optional sign, digits, an optional point and digits, an
    optional exponent (e or E, an optional sign, digits), spaces.  The shape
    is deliberately generous. *)
Definition number_shaped (s : string) : bool :=
  let s1 := skip is_digit (skip_one is_sign (skip is_space s)) in
  let s2 := skip is_digit (skip_one is_point s1) in
  is_empty (skip is_space (skip_exponent s2)).

Fixpoint map_ascii (f : ascii -> ascii) (s : string) : string :=
  match s with
  | String c s' => String (f c) (map_ascii f s')
  | EmptyString => EmptyString
  end.

(* [word] followed by spaces only *)
Fixpoint is_word (word s : string) : bool :=
  match word, s with
  | EmptyString, _ => is_empty (skip is_space s)
  | String w word', String c s' => Ascii.eqb w c && is_word word' s'
  | String _ _, EmptyString => false
  end.

(** inf, infinity and nan in any letter case, with an optional sign. *)
Definition special_float (s : string) : bool :=
  let t := map_ascii lower (skip_one is_sign (skip is_space s)) in
  existsb (fun w => is_word w t) ["inf"; "infinity"; "nan"].

Definition bool_like (s : string) : bool :=
  existsb (String.eqb s) ["True"; "TRUE"; "true"; "False"; "FALSE"; "false"].

(** The default missing-value spellings of [read_csv] (STR_NA_VALUES). *)
Definition STR_NA_VALUES : list string :=
  [ EmptyString; "#N/A"; "#N/A N/A"; "#NA"; "-1.#IND"; "-1.#QNAN"; "-NaN";
    "-nan"; "1.#IND"; "1.#QNAN"; "<NA>"; "N/A"; "NA"; "NULL"; "NaN"; "None";
    "n/a"; "nan"; "null" ].

Definition is_na (s : string) : bool := existsb (String.eqb s) STR_NA_VALUES.

(** A field that no converter but the string one takes: not a missing value,
    not shaped like a number, not a boolean word. *)
Definition is_text (s : string) : bool :=
  negb (is_na s) && negb (number_shaped s) && negb (special_float s)
  && negb (bool_like s).

Definition INT64_MIN : Z := (-9223372036854775808)%Z.
Definition INT64_MAX : Z := 9223372036854775807%Z.

Definition in_int64 (z : Z) : bool := ((INT64_MIN <=? z) && (z <=? INT64_MAX))%Z.

(** An int64 literal: an optional minus and at least one digit. *)
Definition int_of_str (s : string) : option Z :=
  match NilZero.int_of_string s with
  | Some d => if in_int64 (Z.of_int d) then Some (Z.of_int d) else None
  | None => None
  end.

(** str(int) *)
Definition str_of_int (z : Z) : string := NilZero.string_of_int (Z.to_int z).

Definition DIGITS : list ascii :=
  ["0"; "1"; "2"; "3"; "4"; "5"; "6"; "7"; "8"; "9"]%char.

End Text.

(** ** Calendar dates *)

Record date : Type := mkDate { year : N; month : N; day : N }.

Module Date.

Definition digit (n : N) : ascii := ascii_of_N (48 + n mod 10).

Definition two_digits (n : N) : string :=
  String (digit (n / 10)) (String (digit n) EmptyString).

Definition four_digits (n : N) : string :=
  String (digit (n / 1000)) (String (digit (n / 100))
    (String (digit (n / 10)) (String (digit n) EmptyString))).

(** [strftime("%Y-%m-%d")] of a [datetime.date], and the text pandas prints
    for a timestamp at midnight.  The year takes four digits, which is what
    both print for every year from 1000 to 9999. *)
Definition isoformat (d : date) : string :=
  four_digits (year d) ++ "-" ++ two_digits (month d) ++ "-" ++ two_digits (day d).

Definition is_leap (y : N) : bool :=
  (((y mod 4 =? 0) && negb (y mod 100 =? 0)) || (y mod 400 =? 0))%N.

Definition days_in_month (y m : N) : N :=
  match m with
  | 2 => if is_leap y then 29 else 28
  | 4 | 6 | 9 | 11 => 30
  | _ => 31
  end%N.

(** The dates a [Timestamp] can hold whole years of: 1678 to 2261. *)
Definition valid (d : date) : bool :=
  ((1678 <=? year d) && (year d <=? 2261)
   && (1 <=? month d) && (month d <=? 12)
   && (1 <=? day d) && (day d <=? days_in_month (year d) (month d)))%N.

Definition digit_val (c : ascii) : N := N_of_ascii c - 48.

Definition hyphen : ascii := ascii_of_nat 45.

(** The one date format the model reads: YYYY-MM-DD. *)
Definition parse_iso (s : string) : option date :=
  match s with
  | String y1 (String y2 (String y3 (String y4 (String h1
      (String m1 (String m2 (String h2 (String d1 (String d2 EmptyString))))))))) =>
      if forallb Text.is_digit [y1; y2; y3; y4; m1; m2; d1; d2]
         && Ascii.eqb h1 hyphen && Ascii.eqb h2 hyphen
      then
        let d := mkDate
          (1000 * digit_val y1 + 100 * digit_val y2 + 10 * digit_val y3 + digit_val y4)
          (10 * digit_val m1 + digit_val m2)
          (10 * digit_val d1 + digit_val d2) in
        if valid d then Some d else None
      else None
  | _ => None
  end%N.

Definition leb (a b : date) : bool :=
  ((year a <? year b)
   || ((year a =? year b)
       && ((month a <? month b)
           || ((month a =? month b) && (day a <=? day b)))))%N.

End Date.

(** ** Cells, frames and files *)

Inductive value : Type :=
| VStr (s : string)        (* a Python str *)
| VInt (z : Z)             (* a Python int or an int64 *)
| VNaN                     (* the missing value of a float or object column *)
| VTimestamp (d : date)    (* a Timestamp at midnight of [d] *)
| VNaT                     (* the missing value of a datetime column *)
| VUnknown.                (* a cell the model does not determine *)

Inductive field : Type :=
| FText (s : string)
| FUnknown.                (* the text printed for a [VUnknown] cell *)

Definition Series : Type := list value.

(** A frame is its column labels and its rows in order.  The row labels (the
    index) are not kept: app.py never reads them, every [to_csv] is called
    with [index=False]. *)
Record DataFrame : Type := mkDataFrame {
  columns : list string;
  rows : list (list value)
}.

Record csv_file : Type := mkCsv {
  header : list string;
  lines : list (list field)
}.

Definition value_eqb (u v : value) : bool :=
  match u, v with
  | VStr a, VStr b => String.eqb a b
  | VInt a, VInt b => Z.eqb a b
  | VNaN, VNaN => true
  | VTimestamp a, VTimestamp b =>
      (N.eqb (year a) (year b) && N.eqb (month a) (month b) && N.eqb (day a) (day b))
  | VNaT, VNaT => true
  | VUnknown, VUnknown => true
  | _, _ => false
  end.

Fixpoint index_of (name : string) (names : list string) : option nat :=
  match names with
  | [] => None
  | n :: names' =>
      if String.eqb n name then Some 0
      else option_map S (index_of name names')
  end.

Fixpoint list_eqb {A : Type} (eqb : A -> A -> bool) (l1 l2 : list A) : bool :=
  match l1, l2 with
  | [], [] => true
  | x :: l1', y :: l2' => eqb x y && list_eqb eqb l1' l2'
  | _, _ => false
  end.

Fixpoint distinct (names : list string) : bool :=
  match names with
  | [] => true
  | n :: names' => negb (existsb (String.eqb n) names') && distinct names'
  end.

(** ** The pandas calls of app.py *)

Module pd.

(** *** read_csv(path) with every default *)

Inductive dtype : Type := int64 | object | undetermined.

Definition is_int_field (f : field) : bool :=
  match f with
  | FText s => match Text.int_of_str s with Some _ => true | None => false end
  | FUnknown => false
  end.

Definition is_text_field (f : field) : bool :=
  match f with
  | FText s => Text.is_text s
  | FUnknown => false
  end.

(** The converters are tried per column: int64 takes the column when every
    field is an int64 literal; a column holding one field that only the
    string converter takes is an object column of str; what happens to any
    other column (float64, bool, uint64, or object after all) is left open. *)
Definition infer_dtype (col : list field) : dtype :=
  if forallb is_int_field col then int64
  else if existsb is_text_field col then object
  else undetermined.

(** A missing-value spelling is NaN under every dtype. *)
Definition convert (dt : dtype) (f : field) : value :=
  match f with
  | FUnknown => VUnknown
  | FText s =>
      if Text.is_na s then VNaN
      else match dt with
           | int64 => match Text.int_of_str s with
                      | Some z => VInt z
                      | None => VUnknown
                      end
           | object => VStr s
           | undetermined => VUnknown
           end
  end.

Definition read_cell (col : list field) (f : field) : value :=
  convert (infer_dtype col) f.

(** Labels are taken from the header as they are when they are distinct and
    not empty (otherwise pandas renames them), and every line must have one
    field per label (otherwise pandas pads, shifts the index or raises). *)
Definition header_ok (h : list string) : bool :=
  negb (Nat.eqb (length h) 0) && distinct h
  && forallb (fun n => negb (Text.is_empty n)) h.

Definition read_csv (file : csv_file) : outcome DataFrame :=
  if header_ok (header file)
     && forallb (fun l => Nat.eqb (length l) (length (header file))) (lines file)
  then Ok (mkDataFrame (header file)
             (map_with_column (FText EmptyString) read_cell (lines file)))
  else Unmodelled.

(** *** df.to_csv(index=False) with every other default *)

Definition print_cell (v : value) : field :=
  match v with
  | VStr s => FText s
  | VInt z => FText (Text.str_of_int z)
  | VNaN => FText EmptyString          (* na_rep='' *)
  | VTimestamp d => FText (Date.isoformat d)
  | VNaT => FText EmptyString
  | VUnknown => FUnknown
  end.

Definition to_csv (df : DataFrame) : csv_file :=
  mkCsv (columns df) (map (map print_cell) (rows df)).

(** *** pd.DataFrame(columns=[...]) and pd.DataFrame({label: [cells], ...}) *)

Definition DataFrame_columns (labels : list string) : DataFrame :=
  mkDataFrame labels [].

Definition DataFrame_dict (data : list (string * list value)) : DataFrame :=
  let n := match data with
           | [] => 0
           | kv :: _ => length (snd kv)
           end in
  mkDataFrame (map fst data)
    (map (fun i => map (fun kv => nth i (snd kv) VNaN) data) (seq 0 n)).

(** *** pd.concat([df1, df2], ignore_index=True)

    Modelled for two frames with the same labels in the same order: the rows
    of the first, then the rows of the second.  An integer that lands in a
    column with a missing or undetermined cell may be turned into a float
    (int64 joined with float64), so it is undetermined afterwards. *)

Definition is_open (v : value) : bool :=
  match v with
  | VNaN | VNaT | VUnknown => true
  | _ => false
  end.

Definition upcast (col : list value) (v : value) : value :=
  match v with
  | VInt z => if existsb is_open col then VUnknown else VInt z
  | _ => v
  end.

Definition concat (df1 df2 : DataFrame) : outcome DataFrame :=
  if list_eqb String.eqb (columns df1) (columns df2)
  then Ok (mkDataFrame (columns df1)
             (map_with_column VNaN upcast (rows df1 ++ rows df2)))
  else Unmodelled.

(** *** df[label], df[label] = series, df[[labels]], df[mask] *)

Definition getitem (df : DataFrame) (label : string) : outcome Series :=
  match index_of label (columns df) with
  | Some j => Ok (column_at VNaN j (rows df))
  | None => Raises (KeyError label)
  end.

Fixpoint replace_nth {A : Type} (j : nat) (l : list A) (x : A) : list A :=
  match l, j with
  | [], _ => []
  | _ :: l', 0 => x :: l'
  | y :: l', S j' => y :: replace_nth j' l' x
  end.

(** Assignment to a label the frame has, of a series of the frame's length
    (a new label would add a column: app.py never does that). *)
Definition set_column (j : nat) (m : list (list value)) (s : Series)
    : list (list value) :=
  map (fun rv => replace_nth j (fst rv) (snd rv)) (combine m s).

Definition setitem (df : DataFrame) (label : string) (s : Series)
    : outcome DataFrame :=
  match index_of label (columns df) with
  | Some j =>
      if Nat.eqb (length s) (length (rows df))
      then Ok (mkDataFrame (columns df) (set_column j (rows df) s))
      else Unmodelled
  | None => Unmodelled
  end.

Fixpoint indices_of (labels names : list string) : outcome (list nat) :=
  match labels with
  | [] => Ok []
  | l :: labels' =>
      match index_of l names with
      | Some j => js <- indices_of labels' names ;; Ok (j :: js)
      | None => Raises (KeyError l)
      end
  end.

Definition getitem_labels (df : DataFrame) (labels : list string)
    : outcome DataFrame :=
  js <- indices_of labels (columns df) ;;
  Ok (mkDataFrame labels
        (map (fun r => map (fun j => nth j r VNaN) js) (rows df))).

Definition select {A : Type} (l : list A) (mask : list bool) : list A :=
  map fst (filter snd (combine l mask)).

Definition getitem_mask (df : DataFrame) (mask : list bool) : DataFrame :=
  mkDataFrame (columns df) (select (rows df) mask).

(** *** series.unique(), series.isin(values), series == scalar

    Left open on a series with an undetermined cell. *)

Definition determined (v : value) : bool :=
  match v with
  | VUnknown => false
  | _ => true
  end.

(* first occurrences, in order; NaN counts as one value *)
Fixpoint distinct_values (s : Series) : list value :=
  match s with
  | [] => []
  | v :: s' => v :: filter (fun u => negb (value_eqb v u)) (distinct_values s')
  end.

Definition unique (s : Series) : outcome (list value) :=
  if forallb determined s then Ok (distinct_values s) else Unmodelled.

(* isin matches NaN with NaN *)
Definition isin (s : Series) (values : list value) : outcome (list bool) :=
  if forallb determined s && forallb determined values
  then Ok (map (fun v => existsb (value_eqb v) values) s)
  else Unmodelled.

(* NaN == x is False for every x *)
Definition eq_scalar (u v : value) : bool :=
  match u, v with
  | VNaN, _ | _, VNaN | VNaT, _ | _, VNaT => false
  | _, _ => value_eqb u v
  end.

Definition eq (s : Series) (v : value) : outcome (list bool) :=
  if forallb determined s && determined v
  then Ok (map (fun u => eq_scalar u v) s)
  else Unmodelled.

(** *** pd.to_datetime(series)

    Modelled for a series of YYYY-MM-DD strings and missing values. *)

Definition to_datetime_cell (v : value) : outcome value :=
  match v with
  | VStr s => match Date.parse_iso s with
              | Some d => Ok (VTimestamp d)
              | None => Unmodelled
              end
  | VNaN | VNaT => Ok VNaT
  | VTimestamp d => Ok (VTimestamp d)
  | VInt _ | VUnknown => Unmodelled
  end.

Fixpoint traverse {A B : Type} (f : A -> outcome B) (l : list A) : outcome (list B) :=
  match l with
  | [] => Ok []
  | x :: l' => y <- f x ;; ys <- traverse f l' ;; Ok (y :: ys)
  end.

Definition to_datetime (s : Series) : outcome Series := traverse to_datetime_cell s.

(** *** df.sort_values(label) on a datetime column

    [sort_values] asks numpy for an argsort of the column, by default with
    [kind='quicksort'], and takes the rows in that order; missing dates go
    last.  numpy's quicksort is an introsort and is not stable, and which
    routine runs depends on the numpy build.  The argsort is therefore a
    parameter, [argsort], of everything below that sorts, and what is known
    of it is [argsort_contract]: it returns a permutation of the positions
    under which the keys ascend. *)

Definition key_le (u v : value) : bool :=
  match u, v with
  | VTimestamp a, VTimestamp b => Date.leb a b
  | VTimestamp _, _ => true
  | _, VTimestamp _ => false
  | _, _ => true
  end.

Definition key_order (u v : value) : Prop := key_le u v = true.

Definition take {A : Type} (d : A) (idx : list nat) (l : list A) : list A :=
  map (fun i => nth i l d) idx.

Definition is_argsort (keys : Series) (idx : list nat) : Prop :=
  Permutation idx (seq 0 (length keys))
  /\ Sorted key_order (take VNaT idx keys).

Definition argsort_contract (argsort : Series -> list nat) : Prop :=
  forall keys, is_argsort keys (argsort keys).

Definition sort_values (argsort : Series -> list nat) (df : DataFrame)
    (label : string) : outcome DataFrame :=
  keys <- getitem df label ;;
  Ok (mkDataFrame (columns df) (take [] (argsort keys) (rows df))).

(** *** df.groupby(by)[label].mean() and .max(), then reset_index()

    One line per group, the groups in ascending order of their key, rows
    with a missing key dropped.  Modelled for keys that are all str (or
    missing) or all int, and for an int64 column of values.  The mean is the
    exact quotient; pandas returns the float64 nearest to it. *)

Definition value_le (u v : value) : bool :=
  match u, v with
  | VStr a, VStr b => String.leb a b
  | VInt a, VInt b => Z.leb a b
  | _, _ => true
  end.

Fixpoint insert_by {A : Type} (le : A -> A -> bool) (x : A) (l : list A) : list A :=
  match l with
  | [] => [x]
  | y :: l' => if le x y then x :: l else y :: insert_by le x l'
  end.

Definition sort_by {A : Type} (le : A -> A -> bool) (l : list A) : list A :=
  fold_right (insert_by le) [] l.

Definition is_str_or_nan (v : value) : bool :=
  match v with
  | VStr _ | VNaN => true
  | _ => false
  end.

Definition is_int (v : value) : bool :=
  match v with
  | VInt _ => true
  | _ => false
  end.

Definition int_of (v : value) : Z :=
  match v with
  | VInt z => z
  | _ => 0%Z
  end.

Definition group_keys (keys : Series) : list value :=
  sort_by value_le (distinct_values (filter (fun k => negb (is_open k)) keys)).

Definition group_of (k : value) (keys vals : Series) : list Z :=
  map (fun kv => int_of (snd kv))
      (filter (fun kv => value_eqb k (fst kv)) (combine keys vals)).

Definition groupby_agg {A : Type} (agg : list Z -> A) (df : DataFrame)
    (by_ label : string) : outcome (list (value * A)) :=
  keys <- getitem df by_ ;;
  vals <- getitem df label ;;
  if (forallb is_str_or_nan keys || forallb is_int keys) && forallb is_int vals
  then Ok (map (fun k => (k, agg (group_of k keys vals))) (group_keys keys))
  else Unmodelled.

Definition sum (zs : list Z) : Z := fold_right Z.add 0%Z zs.

Definition mean (zs : list Z) : Q :=
  Qred (Qmake (sum zs) (Pos.of_nat (length zs))).

Definition max (zs : list Z) : Z :=
  match zs with
  | [] => 0%Z
  | z :: zs' => fold_left Z.max zs' z
  end.

Definition groupby_mean := groupby_agg mean.
Definition groupby_max := groupby_agg max.

(** *** df.empty *)

Definition empty (df : DataFrame) : bool :=
  Nat.eqb (length (rows df)) 0 || Nat.eqb (length (columns df)) 0.

End pd.

(** ** The store of app.py *)

(** The one file app.py touches, [user_ratings.csv]: absent, or its content. *)
Definition filesystem : Type := option csv_file.

Definition COLUMNS : list string := ["Name"; "Date"; "Scale"; "Note"].

Definition load_data (fs : filesystem) : outcome DataFrame :=
  match fs with
  | Some file => pd.read_csv file                 (* os.path.exists(file_path) *)
  | None => Ok (pd.DataFrame_columns COLUMNS)
  end.

Definition save_data (df : DataFrame) (fs : filesystem) : filesystem :=
  Some (pd.to_csv df).

(** ** The input page *)

(** What the widgets of the form hold when the script runs. *)
Record form : Type := mkForm {
  user_name : string;        (* st.text_input("Name") *)
  rating_date : date;        (* st.date_input("Date") *)
  rating_scale : Z;          (* st.slider(..., min_value=1, max_value=10) *)
  notes : string;            (* st.text_area("Notes (Optional)") *)
  submit_button : bool       (* st.form_submit_button *)
}.

(** The slider hands back a value between its bounds. *)
Definition slider_ok (f : form) : Prop := (1 <= rating_scale f <= 10)%Z.

Inductive message : Type :=
| st_error (text : string)
| st_success (text : string)
| st_warning (text : string).

Definition new_entry (f : form) : DataFrame :=
  pd.DataFrame_dict
    [ ("Name", [VStr (user_name f)]);
      ("Date", [VStr (Date.isoformat (rating_date f))]);
      ("Scale", [VInt (rating_scale f)]);
      ("Note", [VStr (notes f)]) ].

Definition input_page (f : form) (fs : filesystem)
    : outcome (filesystem * list message) :=
  if submit_button f then
    if Text.is_empty (user_name f) then
      Ok (fs, [st_error "Please enter your name."])
    else
      df <- load_data fs ;;
      df <- pd.concat df (new_entry f) ;;
      Ok (save_data df fs,
          [st_success "Your rating has been recorded successfully!"])
  else Ok (fs, []).


(** ** The analytics page *)

Inductive view_option : Type :=
| AllUsers
| SelectUser (choice : nat).   (* the position picked in st.sidebar.selectbox *)

(** What the widgets of the sidebar hold when the script runs. *)
Record sidebar : Type := mkSidebar {
  view : view_option;          (* st.sidebar.radio("View", ...) *)
  download_clicked : bool      (* st.sidebar.button("Download Data CSV") *)
}.

(** What the page hands to the browser. *)
Record dashboard : Type := mkDashboard {
  selected_users : list value;
  download : option csv_file;                    (* the download button's data *)
  chart : list (value * list (value * value));   (* per user, the points of ax.plot *)
  data_table : DataFrame;                        (* st.dataframe(filtered_df[[...]]) *)
  avg_rating : option (outcome (list (value * Q)));
  max_rating : option (outcome (list (value * Z)))
}.

Inductive page : Type :=
| Notice (m : message)
| Dashboard (d : dashboard).

Section Analytics.

Variable argsort : Series -> list nat.

(** Lines 136-138: the points plotted for one user. *)
Definition chart_series (filtered_df : DataFrame) (user : value)
    : outcome (value * list (value * value)) :=
  names <- pd.getitem filtered_df "Name" ;;
  mask <- pd.eq names user ;;
  let user_data := pd.getitem_mask filtered_df mask in
  dates <- pd.getitem user_data "Date" ;;
  scales <- pd.getitem user_data "Scale" ;;
  Ok (user, combine dates scales).

(** Lines 94-96: the loaded table with its dates parsed, in date order. *)
Definition sorted_by_date (df : DataFrame) : outcome DataFrame :=
  dates <- pd.getitem df "Date" ;;
  dates <- pd.to_datetime dates ;;
  df <- pd.setitem df "Date" dates ;;
  pd.sort_values argsort df "Date".

Definition analytics_page (ui : sidebar) (fs : filesystem) : outcome page :=
  df <- load_data fs ;;
  if pd.empty df then
    Ok (Notice (st_warning "No data available. Please add ratings on the input page."))
  else
    df <- sorted_by_date df ;;
    names <- pd.getitem df "Name" ;;
    user_names <- pd.unique names ;;
    selected_users <-
      match view ui with
      | AllUsers => Ok user_names
      | SelectUser choice =>
          match nth_error user_names choice with
          | Some selected_user => Ok [selected_user]
          | None => Unmodelled
          end
      end ;;
    mask <- pd.isin names selected_users ;;
    let filtered_df := pd.getitem_mask df mask in
    let download :=
      if download_clicked ui then Some (pd.to_csv df) else None in
    chart <- pd.traverse (chart_series filtered_df) selected_users ;;
    data_table <- pd.getitem_labels filtered_df COLUMNS ;;
    let stats :=
      if negb (pd.empty filtered_df)
      then (Some (pd.groupby_mean filtered_df "Name" "Scale"),
            Some (pd.groupby_max filtered_df "Name" "Scale"))
      else (None, None) in
    Ok (Dashboard
          (mkDashboard selected_users download chart data_table
             (fst stats) (snd stats))).

End Analytics.

(** ** Two argsorts within the contract *)

Fixpoint insert_index (keys : Series) (i : nat) (idx : list nat) : list nat :=
  match idx with
  | [] => [i]
  | j :: idx' =>
      if pd.key_le (nth i keys VNaT) (nth j keys VNaT)
      then i :: idx
      else j :: insert_index keys i idx'
  end.

(* the key at position [i] is no later than the key at position [j] *)
Definition position_order (keys : Series) (i j : nat) : Prop :=
  pd.key_order (nth i keys VNaT) (nth j keys VNaT).

(** Insertion sort of the positions [start], from the last one down; a
    position is put before the first one whose key is not smaller, so
    positions with equal keys keep the order they have in [start]. *)
Definition insertion_argsort (start : list nat) (keys : Series) : list nat :=
  fold_right (insert_index keys) [] start.

(** A stable argsort (what [kind='stable'] would give). *)
Definition stable_argsort (keys : Series) : list nat :=
  insertion_argsort (seq 0 (length keys)) keys.

(** What one partition pass of an introsort leaves of more than 17 positions
    whose keys all equal the pivot: the scan from both ends swaps them
    pairwise, so the first position and the last two stay and the ones in
    between are mirrored. *)
Definition mirrored (l : list nat) : list nat :=
  match l with
  | first :: rest =>
      if (17 <=? length rest)%nat
      then first :: rev (firstn (length rest - 2) rest) ++ skipn (length rest - 2) rest
      else l
  | [] => []
  end.

(** An argsort that partitions once and finishes by insertion. *)
Definition partitioning_argsort (keys : Series) : list nat :=
  insertion_argsort (mirrored (seq 0 (length keys))) keys.


(** ** What a round trip through the file keeps *)

Definition is_int64 (v : value) : bool :=
  match v with
  | VInt z => Text.in_int64 z
  | _ => false
  end.

(* a str that is not a missing-value spelling, or the missing value *)
Definition kept_str (v : value) : bool :=
  match v with
  | VStr s => negb (Text.is_na s)
  | VNaN => true
  | _ => false
  end.

Definition is_text_value (v : value) : bool :=
  match v with
  | VStr s => Text.is_text s
  | _ => false
  end.

Definition is_nan (v : value) : bool :=
  match v with
  | VNaN => true
  | _ => false
  end.

(** A column that [to_csv] then [read_csv] give back as it is: int64
    integers only; or str and missing values with at least one str that only
    the string converter takes; or missing values only. *)
Definition stable_column (col : Series) : bool :=
  forallb is_int64 col
  || (forallb kept_str col && existsb is_text_value col)
  || forallb is_nan col.

Definition well_formed (df : DataFrame) : Prop :=
  pd.header_ok (columns df) = true
  /\ rectangular (length (columns df)) (rows df).

(** ** Tables of ratings *)

(** A row of a loaded table of ratings: text or a missing value under Name,
    Date and Note, an int64 under Scale. *)
Definition rating_row (r : list value) : bool :=
  match r with
  | [n; d; s; c] => kept_str n && kept_str d && is_int64 s && kept_str c
  | _ => false
  end.

(* a row whose Name, Date and Note only the string converter takes *)
Definition text_row (r : list value) : bool :=
  match r with
  | [n; d; _; c] => is_text_value n && is_text_value d && is_text_value c
  | _ => false
  end.

(** The row that a submitted form adds. *)
Definition record (f : form) : list value :=
  [ VStr (user_name f); VStr (Date.isoformat (rating_date f));
    VInt (rating_scale f); VStr (notes f) ].

(** The forms submitted one after the other. *)
Fixpoint submissions (fs : filesystem) (forms : list form) : outcome filesystem :=
  match forms with
  | [] => Ok fs
  | f :: forms' => x <- input_page f fs ;; submissions (fst x) forms'
  end.

(** The example of the specification: A on day 1 with 5, A on day 2 with 9,
    B on day 1 with 3, as a file and as the table loaded from it. *)
Definition example_file : csv_file := mkCsv COLUMNS
  [ [FText "A"; FText "2024-01-01"; FText "5"; FText "first"];
    [FText "A"; FText "2024-01-02"; FText "9"; FText "second"];
    [FText "B"; FText "2024-01-01"; FText "3"; FText "third"] ].

Definition example_table : DataFrame := mkDataFrame COLUMNS
  [ [VStr "A"; VStr "2024-01-01"; VInt 5; VStr "first"];
    [VStr "A"; VStr "2024-01-02"; VInt 9; VStr "second"];
    [VStr "B"; VStr "2024-01-01"; VInt 3; VStr "third"] ].

(** A file holding one rating, and the table loaded from it. *)
Definition one_rating_file : csv_file := mkCsv COLUMNS
  [ [FText "Bo"; FText "2024-01-03"; FText "7"; FText "fine"] ].

Definition one_rating_table : DataFrame := mkDataFrame COLUMNS
  [ [VStr "Bo"; VStr "2024-01-03"; VInt 7; VStr "fine"] ].

(** A Scale between 1 and 10, as a cell and as a field of the file. *)
Definition scale_cell (v : value) : Prop :=
  exists z, v = VInt z /\ (1 <= z <= 10)%Z.

Definition scale_field (f : field) : Prop :=
  exists z, f = FText (Text.str_of_int z) /\ (1 <= z <= 10)%Z.

(** What [input_page] keeps true of the file: no file yet, or the four
    labels and on every line four fields, the third a Scale. *)
Definition ratings_file (fs : filesystem) : Prop :=
  match fs with
  | None => True
  | Some file =>
      header file = COLUMNS
      /\ Forall (fun l => length l = 4
                          /\ scale_field (nth 2 l (FText EmptyString)))
                (lines file)
  end.

(** ** Date order *)

(** Every date of the series is no later than every date after it, the
    missing dates last. *)
Definition ascending (dates : Series) : Prop :=
  StronglySorted pd.key_order dates.

(** Eighteen ratings of one user on one day, the Scale running 1 to 10 and
    again 1 to 8. *)
Definition same_day_file : csv_file := mkCsv COLUMNS
  (map (fun i => [ FText "A"; FText "2024-01-01";
                   FText (Text.str_of_int (Z.of_nat (i mod 10) + 1));
                   FText "ok" ])
       (seq 0 18)).

(** Three ratings entered out of date order. *)
Definition unordered_file : csv_file := mkCsv COLUMNS
  [ [FText "A"; FText "2024-03-01"; FText "5"; FText "late"];
    [FText "B"; FText "2024-01-01"; FText "3"; FText "early"];
    [FText "A"; FText "2024-02-01"; FText "9"; FText "between"] ].

(** The dashboard of the example, all users shown. *)
Definition example_dashboard : dashboard :=
  mkDashboard
    [VStr "A"; VStr "B"] None
    [ (VStr "A", [ (VTimestamp (mkDate 2024 1 1), VInt 5);
                   (VTimestamp (mkDate 2024 1 2), VInt 9) ]);
      (VStr "B", [ (VTimestamp (mkDate 2024 1 1), VInt 3) ]) ]
    (mkDataFrame COLUMNS
       [ [VStr "A"; VTimestamp (mkDate 2024 1 1); VInt 5; VStr "first"];
         [VStr "B"; VTimestamp (mkDate 2024 1 1); VInt 3; VStr "third"];
         [VStr "A"; VTimestamp (mkDate 2024 1 2); VInt 9; VStr "second"] ])
    (Some (Ok [(VStr "A", 7%Q); (VStr "B", 3%Q)]))
    (Some (Ok [(VStr "A", 9%Z); (VStr "B", 3%Z)])).

(** ** The export, read back *)

(** What [read_csv] makes of a printed date: its text; of a missing date:
    NaN. *)
Definition date_text (v : value) : value :=
  match v with
  | VTimestamp d => VStr (Date.isoformat d)
  | VNaT => VNaN
  | _ => v
  end.

Definition dates_as_text (df : DataFrame) : DataFrame :=
  mkDataFrame (columns df) (map (map date_text) (rows df)).

(* a cell as [read_csv] can make it: no timestamp *)
Definition loaded (v : value) : bool :=
  match v with
  | VTimestamp _ | VNaT => false
  | _ => true
  end.

Definition determined_table (t : DataFrame) : Prop :=
  Forall (Forall (fun v => pd.determined v = true)) (rows t).

(** ** Filtering, in the words of the specification *)

(** The record's identity (its cell in column [j]) is in the set. *)
Definition identity_in (identities : list value) (j : nat) (r : list value) : bool :=
  existsb (value_eqb (nth j r VNaN)) identities.

(** [l] is [l'] with some elements left out. *)
Inductive subsequence {A : Type} : list A -> list A -> Prop :=
| sub_nil : subsequence [] []
| sub_keep (x : A) (l l' : list A) : subsequence l l' -> subsequence (x :: l) (x :: l')
| sub_drop (x : A) (l l' : list A) : subsequence l l' -> subsequence l (x :: l').

(** The example table as the dashboard holds it, the dates parsed. *)
Definition example_parsed : DataFrame := mkDataFrame COLUMNS
  [ [VStr "A"; VTimestamp (mkDate 2024 1 1); VInt 5; VStr "first"];
    [VStr "A"; VTimestamp (mkDate 2024 1 2); VInt 9; VStr "second"];
    [VStr "B"; VTimestamp (mkDate 2024 1 1); VInt 3; VStr "third"] ].

(** ** Tables the dashboard is modelled on *)

(** A row whose Name the model determines and whose Date is a YYYY-MM-DD
    text or missing. *)
Definition chartable (r : list value) : Prop :=
  pd.determined (nth 0 r VNaN) = true
  /\ exists x, pd.to_datetime_cell (nth 1 r VNaN) = Ok x.

(** All users, or the user the select box shows first. *)
Definition default_view (ui : sidebar) : Prop :=
  match view ui with
  | AllUsers => True
  | SelectUser choice => choice = 0
  end.

(** A submitted form whose name and note are plain text, whose Scale is the
    slider's and whose date a timestamp can hold. *)
Definition plain_form (f : form) : Prop :=
  submit_button f = true
  /\ Text.is_text (user_name f) = true
  /\ Text.is_text (notes f) = true
  /\ slider_ok f
  /\ Date.valid (rating_date f) = true.

(** ** The script: session state, navigation and main *)

Module st.

(** [st.session_state], of which app.py keeps the one key [page]. *)
Record session_state : Type := mkSession {
  page : option string        (* None: 'page' not in st.session_state *)
}.

End st.

(** What the widgets hold when the script runs. *)
Record widgets : Type := mkWidgets {
  input_data_button : bool;       (* st.button("Input Data") *)
  view_analytics_button : bool;   (* st.button("View Analytics") *)
  rating_form : form;
  side : sidebar
}.

Inductive screen : Type :=
| InputScreen (messages : list message)
| AnalyticsScreen (shown : page).

(** How one run of the script ends: [st.rerun()] was called, or the page
    was drawn. *)
Inductive run : Type :=
| Rerun (s : st.session_state)
| Shown (s : st.session_state) (fs : filesystem) (out : screen).

(** Lines 12-14. *)
Definition initialize (s : st.session_state) : st.session_state :=
  match st.page s with
  | None => st.mkSession (Some "Input")
  | Some _ => s
  end.

(** [Some s]: a button was clicked and [st.rerun()] stops the run, the
    session state being [s]; [None]: the run goes on. *)
Definition create_navigation (w : widgets) (s : st.session_state)
    : option st.session_state :=
  if input_data_button w then Some (st.mkSession (Some "Input"))
  else if view_analytics_button w then Some (st.mkSession (Some "Analytics"))
  else None.

Section Script.

Variable argsort : Series -> list nat.

Definition main (w : widgets) (s : st.session_state) (fs : filesystem)
    : outcome run :=
  match create_navigation w s with
  | Some s' => Ok (Rerun s')
  | None =>
      match st.page s with
      | Some name =>
          if String.eqb name "Input" then
            x <- input_page (rating_form w) fs ;;
            Ok (Shown s (fst x) (InputScreen (snd x)))
          else
            p <- analytics_page argsort (side w) fs ;;
            Ok (Shown s fs (AnalyticsScreen p))
      | None => Unmodelled      (* an AttributeError; the script sets the key first *)
      end
  end.

(** One run of app.py from its first line. *)
Definition script (w : widgets) (s : st.session_state) (fs : filesystem)
    : outcome run :=
  main w (initialize s) fs.

(** A button is pressed for one run only: the run that [st.rerun()] starts
    finds every button released, the other widgets as they were. *)
Definition release (w : widgets) : widgets :=
  mkWidgets false false
    (mkForm (user_name (rating_form w)) (rating_date (rating_form w))
       (rating_scale (rating_form w)) (notes (rating_form w)) false)
    (mkSidebar (view (side w)) false).

(** Streamlit runs the script again for as long as it calls [st.rerun()];
    [fuel] bounds the runs, and [Rerun] is the answer when it is used up. *)
Fixpoint script_runner (fuel : nat) (w : widgets) (s : st.session_state)
    (fs : filesystem) : outcome run :=
  match fuel with
  | 0 => Ok (Rerun s)
  | S fuel' =>
      r <- script w s fs ;;
      match r with
      | Rerun s' => script_runner fuel' (release w) s' fs
      | Shown _ _ _ => Ok r
      end
  end.

End Script.

(** The page a run ends on: the one whose button is clicked, else the one of
    the session state, else the input page. *)
Definition target (w : widgets) (s : st.session_state) : string :=
  if input_data_button w then "Input"
  else if view_analytics_button w then "Analytics"
  else match st.page s with
       | Some name => name
       | None => "Input"
       end.

Definition clicked (w : widgets) : bool :=
  input_data_button w || view_analytics_button w.

(** The lines on file, none when there is no file. *)
Definition lines_of (fs : filesystem) : list (list field) :=
  match fs with
  | Some file => lines file
  | None => []
  end.

(** The line that a submitted form is written as. *)
Definition record_line (f : form) : list field :=
  [ FText (user_name f); FText (Date.isoformat (rating_date f));
    FText (Text.str_of_int (rating_scale f)); FText (notes f) ].

(** The Scale values of the rows of one name, in the order of the rows. *)
Definition scales_of (k : value) (m : list (list value)) : list Z :=
  map (fun r => pd.int_of (nth 2 r VNaN))
      (filter (fun r => value_eqb k (nth 0 r VNaN)) m).

(** A number in the slider's range. *)
Definition in_scale (z : Z) : Prop := (1 <= z <= 10)%Z.

(** * Properties *)

(** ** Lists and matrices *)

Section Matrices.

Context {A B : Type}.

Lemma mapi_from_length (k : nat) (g : nat -> A -> B) (l : list A) :
  length (mapi_from k g l) = length l.
Proof.
  revert k; induction l as [|x l IH]; intros k; simpl; [reflexivity|].
  now rewrite IH.
Qed.

Lemma mapi_from_nth (k : nat) (g : nat -> A -> B) (l : list A) (j : nat) (dA : A) (dB : B) :
  j < length l ->
  nth j (mapi_from k g l) dB = g (k + j) (nth j l dA).
Proof.
  revert k j; induction l as [|x l IH]; intros k j Hj; simpl in *; [lia|].
  destruct j as [|j].
  - now rewrite Nat.add_0_r.
  - rewrite IH by lia. f_equal. lia.
Qed.

Lemma column_at_length (d : A) (j : nat) (m : list (list A)) :
  length (column_at d j m) = length m.
Proof. apply length_map. Qed.


Lemma column_at_In (d : A) (j : nat) (m : list (list A)) (r : list A) :
  In r m -> In (nth j r d) (column_at d j m).
Proof. intros H. unfold column_at. now apply (in_map (fun r0 => nth j r0 d)). Qed.


Lemma map_with_column_rectangular (d : A) (f : list A -> A -> B) (n : nat)
    (m : list (list A)) :
  rectangular n m -> rectangular n (map_with_column d f m).
Proof.
  unfold rectangular, map_with_column. intros H.
  apply Forall_map. eapply Forall_impl; [|exact H].
  intros r Hr. now rewrite mapi_from_length.
Qed.

(** The column of a mapped matrix is the mapped column. *)
Lemma column_at_map_with_column (dA : A) (dB : B) (f : list A -> A -> B)
    (n j : nat) (m : list (list A)) :
  rectangular n m -> j < n ->
  column_at dB j (map_with_column dA f m)
  = map (f (column_at dA j m)) (column_at dA j m).
Proof.
  intros Hm Hj. unfold column_at at 1 3. unfold map_with_column.
  rewrite !map_map. apply map_ext_in. intros r Hr.
  unfold rectangular in Hm. rewrite Forall_forall in Hm.
  rewrite (mapi_from_nth _ _ _ _ dA) by (rewrite (Hm r Hr); exact Hj).
  reflexivity.
Qed.

End Matrices.

Lemma mapi_from_id {A : Type} (k : nat) (g : nat -> A -> A) (l : list A) (d : A) :
  (forall j, j < length l -> g (k + j) (nth j l d) = nth j l d) ->
  mapi_from k g l = l.
Proof.
  revert k; induction l as [|x l IH]; intros k H; simpl; [reflexivity|].
  f_equal.
  - specialize (H 0). simpl in H. rewrite Nat.add_0_r in H. apply H. lia.
  - apply IH. intros j Hj. specialize (H (S j)). simpl in H.
    replace (S k + j) with (k + S j) by lia. apply H. lia.
Qed.

(** A cell map that fixes every cell of every column fixes the matrix. *)
Lemma map_with_column_id {A : Type} (d : A) (f : list A -> A -> A) (n : nat)
    (m : list (list A)) :
  rectangular n m ->
  (forall j x, j < n -> In x (column_at d j m) -> f (column_at d j m) x = x) ->
  map_with_column d f m = m.
Proof.
  intros Hm H. unfold map_with_column.
  rewrite <- (map_id m) at 2. apply map_ext_in. intros r Hr.
  unfold rectangular in Hm. rewrite Forall_forall in Hm.
  apply (mapi_from_id 0 _ r d). intros j Hj. simpl.
  apply H; [now rewrite <- (Hm r Hr)|now apply column_at_In].
Qed.

Lemma column_at_map_rows {A B : Type} (dA : A) (dB : B) (g : A -> B) (j : nat)
    (m : list (list A)) :
  g dA = dB ->
  column_at dB j (map (map g) m) = map g (column_at dA j m).
Proof.
  intros Hd. unfold column_at. rewrite !map_map. apply map_ext. intros r.
  rewrite <- Hd. apply map_nth.
Qed.

(** ** Text and dates *)

Module TextFacts.

Import Text.

Lemma digit_class (c : ascii) :
  is_digit c = true ->
  is_space c = false /\ is_sign c = false /\ lower c = c.
Proof.
  destruct c as [[|] [|] [|] [|] [|] [|] [|] [|]];
    intros H; vm_compute in H; try discriminate H;
    repeat split; reflexivity.
Qed.

Lemma uint_char_digit (c : ascii) (u u' : Decimal.uint) :
  uint_of_char c (Some u) = Some u' -> is_digit c = true.
Proof.
  intros H. apply uint_of_char_spec in H.
  repeat (destruct H as [[-> _]|H]; [reflexivity|]).
  destruct H as [-> _]. reflexivity.
Qed.

Lemma uint_digits (s : string) (u : Decimal.uint) :
  NilEmpty.uint_of_string s = Some u -> skip is_digit s = EmptyString.
Proof.
  revert u; induction s as [|c s IH]; intros u H; simpl in *; [reflexivity|].
  destruct (NilEmpty.uint_of_string s) as [u'|] eqn:E; [|discriminate H].
  rewrite (uint_char_digit _ _ _ H). now apply (IH u').
Qed.

(** An int64 literal has the shape of a number. *)
Lemma int_literal_number_shaped (s : string) (d : Decimal.signed_int) :
  NilZero.int_of_string s = Some d -> number_shaped s = true.
Proof.
  destruct s as [|a s]; [discriminate|].
  unfold NilZero.int_of_string. destruct (Ascii.eqb_spec a "-") as [->|Ha].
  - destruct s as [|c s]; [discriminate|]. unfold NilZero.uint_of_string.
    destruct (NilEmpty.uint_of_string (String c s)) as [u|] eqn:E; [|discriminate].
    intros _. unfold number_shaped.
    change (skip is_space (String "-" (String c s))) with (String "-" (String c s)).
    change (skip_one is_sign (String "-" (String c s))) with (String c s).
    now rewrite (uint_digits _ _ E).
  - unfold NilZero.uint_of_string.
    destruct (NilEmpty.uint_of_string (String a s)) as [u|] eqn:E; [|discriminate].
    intros _. unfold number_shaped.
    assert (Hd : is_digit a = true).
    { simpl in E. destruct (NilEmpty.uint_of_string s); [|discriminate E].
      now apply uint_char_digit in E. }
    destruct (digit_class a Hd) as (Hsp & Hsg & _).
    replace (skip is_space (String a s)) with (String a s)
      by (simpl; now rewrite Hsp).
    replace (skip_one is_sign (String a s)) with (String a s)
      by (simpl; now rewrite Hsg).
    now rewrite (uint_digits _ _ E).
Qed.

Lemma is_na_In (s : string) : is_na s = true -> In s STR_NA_VALUES.
Proof.
  unfold is_na. rewrite existsb_exists. intros [x [Hin Heq]].
  apply String.eqb_eq in Heq. now subst.
Qed.

Lemma na_not_int (s : string) :
  is_na s = true -> NilZero.int_of_string s = None.
Proof.
  intros H. apply is_na_In in H. simpl in H.
  repeat (destruct H as [<-|H]; [reflexivity|]). contradiction.
Qed.



Lemma is_text_not_na (s : string) : is_text s = true -> is_na s = false.
Proof.
  unfold is_text. intros H. apply andb_prop in H as [H _].
  apply andb_prop in H as [H _]. apply andb_prop in H as [H _].
  now apply negb_true_iff.
Qed.

Lemma is_text_not_int (s : string) : is_text s = true -> int_of_str s = None.
Proof.
  unfold is_text, int_of_str. intros H. apply andb_prop in H as [H _].
  apply andb_prop in H as [H _]. apply andb_prop in H as [_ H].
  apply negb_true_iff in H.
  destruct (NilZero.int_of_string s) as [d|] eqn:E; [|reflexivity].
  apply int_literal_number_shaped in E. congruence.
Qed.

Lemma to_int_proper (z : Z) :
  Z.to_int z <> Decimal.Pos Decimal.Nil /\ Z.to_int z <> Decimal.Neg Decimal.Nil.
Proof.
  destruct z; simpl; split; intros [=];
    now apply (DecimalPos.Unsigned.to_uint_nonnil p).
Qed.

Lemma int_literal_of_int (z : Z) :
  NilZero.int_of_string (str_of_int z) = Some (Z.to_int z).
Proof.
  unfold str_of_int. destruct (to_int_proper z). now apply NilZero.isi.
Qed.

(** Reading back the printed integer. *)
Lemma int_of_str_of_int (z : Z) :
  in_int64 z = true -> int_of_str (str_of_int z) = Some z.
Proof.
  intros H. unfold int_of_str.
  now rewrite int_literal_of_int, DecimalZ.of_to, H.
Qed.

Lemma str_of_int_not_na (z : Z) : is_na (str_of_int z) = false.
Proof.
  destruct (is_na (str_of_int z)) eqn:E; [|reflexivity].
  apply na_not_int in E. rewrite int_literal_of_int in E. discriminate.
Qed.

End TextFacts.

Module DateFacts.

Import Text Date.

Lemma is_digit_cases (c : ascii) : is_digit c = true -> In c DIGITS.
Proof.
  destruct c as [[|] [|] [|] [|] [|] [|] [|] [|]];
    intros H; vm_compute in H; try discriminate H; simpl; tauto.
Qed.

Lemma digit_val_spec (c : ascii) :
  is_digit c = true ->
  (digit_val c < 10)%N /\ ascii_of_N (48 + digit_val c) = c.
Proof.
  intros H. apply is_digit_cases in H. simpl in H.
  repeat (destruct H as [<-|H]; [split; [reflexivity|reflexivity]|]).
  contradiction.
Qed.

Lemma digit_spec (n : N) :
  is_digit (digit n) = true /\ digit_val (digit n) = (n mod 10)%N.
Proof.
  unfold digit. assert (H : (n mod 10 < 10)%N) by (apply N.mod_lt; lia).
  destruct (n mod 10)%N as [|p]; [split; reflexivity|].
  do 4 (try (destruct p as [p|p|]; try lia; try (split; reflexivity))).
Qed.

Lemma digit_of_val (c : ascii) (q : N) :
  is_digit c = true -> (q mod 10)%N = digit_val c -> digit q = c.
Proof.
  intros Hc Hq. unfold digit. rewrite Hq. now apply digit_val_spec.
Qed.

Ltac euclid := zify; Z.to_euclidean_division_equations; lia.

Lemma four_digits_val (c1 c2 c3 c4 : ascii) :
  is_digit c1 = true -> is_digit c2 = true ->
  is_digit c3 = true -> is_digit c4 = true ->
  four_digits (1000 * digit_val c1 + 100 * digit_val c2
               + 10 * digit_val c3 + digit_val c4)
  = String c1 (String c2 (String c3 (String c4 EmptyString))).
Proof.
  intros H1 H2 H3 H4. unfold four_digits.
  destruct (digit_val_spec c1 H1) as [B1 _], (digit_val_spec c2 H2) as [B2 _],
    (digit_val_spec c3 H3) as [B3 _], (digit_val_spec c4 H4) as [B4 _].
  repeat f_equal; apply digit_of_val; trivial; euclid.
Qed.

Lemma two_digits_val (c1 c2 : ascii) :
  is_digit c1 = true -> is_digit c2 = true ->
  two_digits (10 * digit_val c1 + digit_val c2)
  = String c1 (String c2 EmptyString).
Proof.
  intros H1 H2. unfold two_digits.
  destruct (digit_val_spec c1 H1) as [B1 _], (digit_val_spec c2 H2) as [B2 _].
  repeat f_equal; apply digit_of_val; trivial; euclid.
Qed.

(** Printing a parsed date gives the text that was parsed. *)
Lemma isoformat_parse (s : string) (d : date) :
  parse_iso s = Some d -> isoformat d = s.
Proof.
  destruct s as [|y1 [|y2 [|y3 [|y4 [|h1 [|m1 [|m2 [|h2 [|d1 [|d2 [|x s]]]]]]]]]]];
    try discriminate.
  unfold parse_iso.
  destruct (forallb is_digit [y1; y2; y3; y4; m1; m2; d1; d2]) eqn:Hd;
    [|discriminate].
  destruct (Ascii.eqb_spec h1 hyphen) as [->|]; [|discriminate].
  destruct (Ascii.eqb_spec h2 hyphen) as [->|]; [|discriminate].
  cbn [andb]. cbv zeta.
  repeat match goal with
         | |- (if ?b then _ else _) = _ -> _ => destruct b
         end; try discriminate.
  intros E.
  assert (E' := f_equal (fun o => match o with Some x => x | None => d end) E).
  cbv beta iota in E'. subst d. clear E.
  simpl in Hd. repeat (apply andb_prop in Hd as [? Hd]).
  unfold isoformat. cbn [year month day].
  rewrite four_digits_val, !two_digits_val by assumption.
  reflexivity.
Qed.

Lemma parse_isoformat (d : date) :
  valid d = true -> parse_iso (isoformat d) = Some d.
Proof.
  intros Hv. destruct d as [y m dd].
  assert (Hb : (y < 10000 /\ m < 100 /\ dd < 100)%N).
  { unfold valid in Hv. cbn [year month day] in Hv.
    rewrite !andb_true_iff, !N.leb_le in Hv.
    assert (days_in_month y m <= 31)%N.
    { unfold days_in_month.
      repeat match goal with
             | |- context [match ?x with _ => _ end] => destruct x
             | |- context [if ?x then _ else _] => destruct x
             end; lia. }
    lia. }
  destruct Hb as (Hy & Hm & Hdd).
  unfold isoformat, four_digits, two_digits. cbn [year month day append].
  unfold parse_iso.
  simpl forallb.
  rewrite !(proj1 (digit_spec _)). simpl andb.
  rewrite !(proj2 (digit_spec _)).
  replace (1000 * ((y / 1000) mod 10) + 100 * ((y / 100) mod 10)
           + 10 * ((y / 10) mod 10) + y mod 10)%N with y by euclid.
  replace (10 * ((m / 10) mod 10) + m mod 10)%N with m by euclid.
  replace (10 * ((dd / 10) mod 10) + dd mod 10)%N with dd by euclid.
  cbv zeta. now rewrite Hv.
Qed.

Section Skipping.

Variables (p : ascii -> bool) (c : ascii) (s : string).

Lemma skip_stop : p c = false -> skip p (String c s) = String c s.
Proof. intros H. simpl. now rewrite H. Qed.

Lemma skip_step : p c = true -> skip p (String c s) = skip p s.
Proof. intros H. simpl. now rewrite H. Qed.

Lemma skip_one_stop : p c = false -> skip_one p (String c s) = String c s.
Proof. intros H. simpl. now rewrite H. Qed.

End Skipping.

(** Four digits and a hyphen start no number, no missing value and no
    boolean: a date is read as text. *)
Lemma date_shape_is_text (c1 c2 c3 c4 : ascii) (rest : string) :
  is_digit c1 = true -> is_digit c2 = true ->
  is_digit c3 = true -> is_digit c4 = true ->
  is_text (String c1 (String c2 (String c3 (String c4 (String "-" rest))))) = true.
Proof.
  intros H1 H2 H3 H4.
  assert (Hn : number_shaped
                 (String c1 (String c2 (String c3 (String c4 (String "-" rest)))))
               = false).
  { unfold number_shaped.
    destruct (TextFacts.digit_class c1 H1) as (Hsp & Hsg & _).
    rewrite (skip_stop _ _ _ Hsp), (skip_one_stop _ _ _ Hsg).
    rewrite (skip_step _ _ _ H1), (skip_step _ _ _ H2),
      (skip_step _ _ _ H3), (skip_step _ _ _ H4).
    reflexivity. }
  unfold is_text. rewrite Hn.
  apply is_digit_cases in H1, H2. simpl in H1, H2.
  repeat (destruct H1 as [<-|H1];
          [repeat (destruct H2 as [<-|H2]; [reflexivity|]); contradiction|]).
  contradiction.
Qed.

Lemma isoformat_is_text (d : date) : is_text (isoformat d) = true.
Proof.
  unfold isoformat, four_digits. simpl append.
  apply date_shape_is_text; apply digit_spec.
Qed.

End DateFacts.

(** ** Writing a frame and reading it back *)

Lemma forallb_false_In {A : Type} (p : A -> bool) (l : list A) (x : A) :
  In x l -> p x = false -> forallb p l = false.
Proof.
  intros Hin Hp. destruct (forallb p l) eqn:E; [|reflexivity].
  rewrite forallb_forall in E. rewrite (E x Hin) in Hp. discriminate.
Qed.

Lemma mapi_from_map {A B C : Type} (k : nat) (g : nat -> B -> C) (f : A -> B)
    (l : list A) :
  mapi_from k g (map f l) = mapi_from k (fun j x => g j (f x)) l.
Proof.
  revert k; induction l as [|x l IH]; intros k; simpl; [reflexivity|].
  now rewrite IH.
Qed.

(** Reading cell by cell what was printed cell by cell. *)
Lemma read_printed_matrix {A B : Type} (dA : A) (dB : B) (f : A -> B)
    (g : list B -> B -> A) (n : nat) (m : list (list A)) :
  f dA = dB ->
  rectangular n m ->
  (forall j x, j < n -> In x (column_at dA j m) ->
               g (map f (column_at dA j m)) (f x) = x) ->
  map_with_column dB g (map (map f) m) = m.
Proof.
  intros Hd Hm H. unfold map_with_column. rewrite map_map.
  rewrite <- (map_id m) at 2. apply map_ext_in. intros r Hr.
  rewrite mapi_from_map. apply (mapi_from_id 0 _ r dA). intros j Hj. simpl.
  rewrite (column_at_map_rows dA dB f j m Hd).
  unfold rectangular in Hm. rewrite Forall_forall in Hm.
  apply H; [now rewrite <- (Hm r Hr)|now apply column_at_In].
Qed.

Module CsvFacts.

Import pd.

Lemma convert_empty (dt : dtype) : convert dt (FText EmptyString) = VNaN.
Proof. reflexivity. Qed.

Lemma is_int_field_printed (v : value) :
  is_int64 v = true -> is_int_field (print_cell v) = true.
Proof.
  destruct v; try discriminate. simpl. intros H.
  now rewrite TextFacts.int_of_str_of_int.
Qed.

Lemma read_cell_printed (col : Series) (v : value) :
  stable_column col = true -> In v col ->
  read_cell (map print_cell col) (print_cell v) = v.
Proof.
  unfold stable_column, read_cell, infer_dtype. intros Hs Hin.
  apply orb_prop in Hs as [Hs|Hs]; [apply orb_prop in Hs as [Hs|Hs]|].
  - (* int64 *)
    assert (Hf : forallb is_int_field (map print_cell col) = true).
    { rewrite forallb_forall in *. intros f Hf. apply in_map_iff in Hf.
      destruct Hf as [u [<- Hu]]. apply is_int_field_printed. now apply Hs. }
    rewrite Hf. rewrite forallb_forall in Hs. specialize (Hs v Hin).
    destruct v; try discriminate. simpl in *.
    now rewrite TextFacts.str_of_int_not_na, TextFacts.int_of_str_of_int.
  - (* object *)
    apply andb_prop in Hs as [Hk Ht].
    apply existsb_exists in Ht as [w [Hw Htw]].
    destruct w as [s| | | | |]; try discriminate. simpl in Htw.
    assert (Hf : forallb is_int_field (map print_cell col) = false).
    { apply (forallb_false_In _ _ (print_cell (VStr s))).
      - now apply in_map.
      - simpl. now rewrite TextFacts.is_text_not_int. }
    assert (Ho : existsb is_text_field (map print_cell col) = true).
    { apply existsb_exists. exists (print_cell (VStr s)). split.
      - now apply in_map.
      - exact Htw. }
    rewrite Hf, Ho. rewrite forallb_forall in Hk. specialize (Hk v Hin).
    destruct v; try discriminate; simpl in *; [|reflexivity].
    apply negb_true_iff in Hk. now rewrite Hk.
  - (* missing values only *)
    rewrite forallb_forall in Hs. specialize (Hs v Hin).
    destruct v; try discriminate. apply convert_empty.
Qed.

Lemma to_csv_lines_ok (df : DataFrame) :
  rectangular (length (columns df)) (rows df) ->
  forallb (fun l => Nat.eqb (length l) (length (header (to_csv df))))
          (lines (to_csv df)) = true.
Proof.
  intros Hr. simpl. rewrite forallb_forall. intros l Hl.
  apply in_map_iff in Hl as [r [<- Hin]]. rewrite length_map.
  unfold rectangular in Hr. rewrite Forall_forall in Hr.
  rewrite (Hr r Hin). apply Nat.eqb_refl.
Qed.

(** A well-formed frame of stable columns is read back as it was written. *)
Lemma read_to_csv_stable (df : DataFrame) :
  well_formed df ->
  (forall j, j < length (columns df) ->
             stable_column (column_at VNaN j (rows df)) = true) ->
  read_csv (to_csv df) = Ok df.
Proof.
  intros [Hh Hr] Hs. unfold read_csv.
  rewrite (to_csv_lines_ok df Hr). simpl header. rewrite Hh. simpl.
  destruct df as [cols rws]. simpl in *. do 2 f_equal.
  apply (read_printed_matrix VNaN _ print_cell read_cell (length cols));
    [reflexivity|exact Hr|].
  intros j x Hj Hx. apply read_cell_printed; [now apply Hs|exact Hx].
Qed.

Lemma read_csv_columns (file : csv_file) (df : DataFrame) :
  read_csv file = Ok df ->
  columns df = header file
  /\ rows df = map_with_column (FText EmptyString) read_cell (lines file)
  /\ header_ok (header file) = true
  /\ rectangular (length (header file)) (lines file).
Proof.
  unfold read_csv.
  destruct (header_ok (header file)) eqn:Hh; [|discriminate].
  destruct (forallb _ (lines file)) eqn:Hl; [|discriminate].
  simpl. intros [= <-]. repeat split; trivial.
  unfold rectangular. apply Forall_forall. intros l Hin.
  rewrite forallb_forall in Hl. now apply Nat.eqb_eq, Hl.
Qed.

Lemma read_csv_well_formed (file : csv_file) (df : DataFrame) :
  read_csv file = Ok df -> well_formed df.
Proof.
  intros H. apply read_csv_columns in H as (Hc & Hrows & Hh & Hr).
  unfold well_formed. rewrite Hc, Hrows. split; [exact Hh|].
  now apply map_with_column_rectangular.
Qed.

End CsvFacts.

(** ** The store *)

(** C4: when no persisted file exists, [load_data] returns (it neither raises
    nor is left open) the empty table whose columns are exactly Name, Date,
    Scale, Note. *)
Theorem load_data_missing_file :
  exists df,
    load_data None = Ok df
    /\ columns df = ["Name"; "Date"; "Scale"; "Note"]
    /\ rows df = []
    /\ pd.empty df = true.
Proof.
  exists (pd.DataFrame_columns COLUMNS). repeat split.
Qed.

(** C5: a submission with the empty name shows the validation error and
    writes nothing: the file is after the submission what it was before. *)
Theorem empty_name_rejected (d : date) (scale : Z) (note : string)
    (fs : filesystem) :
  input_page (mkForm EmptyString d scale note true) fs
  = Ok (fs, [st_error "Please enter your name."]).
Proof. reflexivity. Qed.

Lemma index_of_lt (name : string) (names : list string) (j : nat) :
  index_of name names = Some j -> j < length names.
Proof.
  revert j; induction names as [|n names IH]; intros j; simpl; [discriminate|].
  destruct (String.eqb n name).
  - intros [= <-]. lia.
  - destruct (index_of name names) as [k|]; [|discriminate].
    simpl. intros [= <-]. specialize (IH k eq_refl). lia.
Qed.

(** C9: a Note that is the empty string is, after [save_data] and
    [load_data], the missing value NaN; the table read back is not the table
    written. *)
Theorem empty_note_read_back_missing (df : DataFrame) (fs : filesystem)
    (i j : nat) (row : list value) :
  well_formed df ->
  index_of "Note" (columns df) = Some j ->
  nth_error (rows df) i = Some row ->
  nth j row VNaN = VStr EmptyString ->
  exists df' row',
    load_data (save_data df fs) = Ok df'
    /\ nth_error (rows df') i = Some row'
    /\ nth j row' VNaN = VNaN
    /\ df' <> df.
Proof.
  intros [Hh Hr] Hj Hi Hcell.
  set (g := fun k x => pd.read_cell
                (column_at (FText EmptyString) k (lines (pd.to_csv df))) x).
  exists (mkDataFrame (columns df)
            (map_with_column (FText EmptyString) pd.read_cell
               (lines (pd.to_csv df)))).
  exists (mapi_from 0 g (map pd.print_cell row)).
  assert (Hlen : j < length row).
  { apply index_of_lt in Hj. unfold rectangular in Hr.
    rewrite Forall_forall in Hr. rewrite (Hr row); [exact Hj|].
    now apply nth_error_In in Hi. }
  assert (Hcell' : nth j (mapi_from 0 g (map pd.print_cell row)) VNaN = VNaN).
  { rewrite (mapi_from_nth _ _ _ _ (FText EmptyString)) by now rewrite length_map.
    simpl. unfold g.
    change (FText EmptyString) with (pd.print_cell VNaN) at 2.
    rewrite map_nth, Hcell. apply CsvFacts.convert_empty. }
  assert (Hi' : nth_error (map_with_column (FText EmptyString) pd.read_cell
                             (lines (pd.to_csv df))) i
                = Some (mapi_from 0 g (map pd.print_cell row))).
  { unfold map_with_column. simpl lines at 2.
    rewrite !nth_error_map, Hi. reflexivity. }
  repeat split.
  - simpl. unfold pd.read_csv.
    rewrite (CsvFacts.to_csv_lines_ok df Hr). simpl header. now rewrite Hh.
  - exact Hi'.
  - exact Hcell'.
  - intros E. apply (f_equal rows) in E. cbn [rows] in E.
    rewrite <- E, Hi' in Hi. injection Hi as Hrow. rewrite Hrow in Hcell'. congruence.
Qed.

Lemma empty_note_read_back_missing_witness :
  exists df' row',
    load_data (save_data (new_entry (mkForm "Al" (mkDate 2024 1 5) 5 EmptyString true)) None)
    = Ok df'
    /\ nth_error (rows df') 0 = Some row'
    /\ nth 3 row' VNaN = VNaN
    /\ df' <> new_entry (mkForm "Al" (mkDate 2024 1 5) 5 EmptyString true).
Proof.
  apply (empty_note_read_back_missing _ None 0 3
           [VStr "Al"; VStr "2024-01-05"; VInt 5; VStr EmptyString]).
  - split; [reflexivity|]. repeat constructor.
  - reflexivity.
  - reflexivity.
  - reflexivity.
Defined.

(** *** Tables of ratings survive the file *)

Lemma column_forallb (p : value -> bool) (j : nat) (m : list (list value)) :
  Forall (fun r => p (nth j r VNaN) = true) m ->
  forallb p (column_at VNaN j m) = true.
Proof.
  intros H. unfold column_at. rewrite forallb_forall. intros x Hx.
  apply in_map_iff in Hx as [r [<- Hr]]. rewrite Forall_forall in H.
  now apply H.
Qed.

Lemma rating_row_inv (r : list value) :
  rating_row r = true ->
  exists n d s c,
    r = [n; d; s; c]
    /\ kept_str n = true /\ kept_str d = true
    /\ is_int64 s = true /\ kept_str c = true.
Proof.
  destruct r as [|n [|d [|s [|c [|x r]]]]]; try discriminate. simpl.
  rewrite !andb_true_iff. intros [[[Hn Hd] Hs] Hc].
  now exists n, d, s, c.
Qed.

Section RatingRows.

Variable m : list (list value).
Hypothesis rating_rows : Forall (fun r => rating_row r = true) m.

Lemma rating_rows_rectangular : rectangular 4 m.
Proof.
  unfold rectangular. eapply Forall_impl; [|exact rating_rows].
  intros r Hr. apply rating_row_inv in Hr as [n [d [s [c [-> _]]]]].
  reflexivity.
Qed.

Lemma rating_rows_text_columns (j : nat) :
  j = 0 \/ j = 1 \/ j = 3 ->
  forallb kept_str (column_at VNaN j m) = true.
Proof.
  intros Hj. apply column_forallb. eapply Forall_impl; [|exact rating_rows].
  intros r Hr.
  apply rating_row_inv in Hr as [n [d [s [c [-> [Hn [Hd [Hs Hc]]]]]]]].
  destruct Hj as [ -> | [ -> | -> ] ]; assumption.
Qed.

Lemma rating_rows_scale_column :
  forallb is_int64 (column_at VNaN 2 m) = true.
Proof.
  apply column_forallb. eapply Forall_impl; [|exact rating_rows].
  intros r Hr. now apply rating_row_inv in Hr as [n [d [s [c [-> [_ [_ [Hs _]]]]]]]].
Qed.

(** Joining such rows turns no integer into a float. *)
Lemma rating_rows_upcast : map_with_column VNaN pd.upcast m = m.
Proof.
  apply (map_with_column_id VNaN pd.upcast 4); [apply rating_rows_rectangular|].
  intros j x Hj Hx.
  assert (Hcases : j = 2 \/ (j = 0 \/ j = 1 \/ j = 3)) by lia.
  destruct Hcases as [ -> | Hj'].
  - pose proof rating_rows_scale_column as Hs.
    destruct x; try reflexivity. simpl.
    replace (existsb pd.is_open (column_at VNaN 2 m)) with false; [reflexivity|].
    symmetry. apply not_true_is_false. intros Ho.
    apply existsb_exists in Ho as [v [Hv Hopen]].
    rewrite forallb_forall in Hs. specialize (Hs v Hv).
    destruct v; discriminate.
  - pose proof (rating_rows_text_columns j Hj') as Hk.
    rewrite forallb_forall in Hk. specialize (Hk x Hx).
    destruct x; try reflexivity. discriminate.
Qed.

Lemma rating_rows_stable (r0 : list value) (j : nat) :
  In r0 m -> text_row r0 = true -> j < 4 ->
  stable_column (column_at VNaN j m) = true.
Proof.
  intros Hin Ht Hj. unfold stable_column.
  assert (Hcases : j = 2 \/ (j = 0 \/ j = 1 \/ j = 3)) by lia.
  destruct Hcases as [ -> | Hj'].
  - now rewrite rating_rows_scale_column.
  - rewrite (rating_rows_text_columns j Hj').
    replace (existsb is_text_value (column_at VNaN j m)) with true;
      [simpl; now rewrite orb_true_r|].
    symmetry. apply existsb_exists. exists (nth j r0 VNaN). split.
    + now apply column_at_In.
    + destruct r0 as [|n [|d [|s [|c [|x r]]]]]; try discriminate.
      simpl in Ht. rewrite !andb_true_iff in Ht. destruct Ht as [[Hn Hd] Hc].
      destruct Hj' as [ -> | [ -> | -> ] ]; assumption.
Qed.

(** Such a table, holding one row of plain text, is read back as written. *)
Lemma rating_rows_read_back (r0 : list value) :
  In r0 m -> text_row r0 = true ->
  pd.read_csv (pd.to_csv (mkDataFrame COLUMNS m)) = Ok (mkDataFrame COLUMNS m).
Proof.
  intros Hin Ht. apply CsvFacts.read_to_csv_stable.
  - split; [reflexivity|apply rating_rows_rectangular].
  - intros j Hj. now apply (rating_rows_stable r0).
Qed.

End RatingRows.

Lemma is_text_nonempty (s : string) :
  Text.is_text s = true -> Text.is_empty s = false.
Proof.
  intros H. apply TextFacts.is_text_not_na in H.
  destruct s; [discriminate H|reflexivity].
Qed.

Lemma slider_in_int64 (f : form) :
  slider_ok f -> Text.in_int64 (rating_scale f) = true.
Proof.
  unfold slider_ok, Text.in_int64, Text.INT64_MIN, Text.INT64_MAX. intros H.
  apply andb_true_iff. split; apply Z.leb_le; lia.
Qed.

Lemma record_rating_row (f : form) :
  Text.is_text (user_name f) = true -> Text.is_text (notes f) = true ->
  slider_ok f ->
  rating_row (record f) = true /\ text_row (record f) = true.
Proof.
  intros Hn Hc Hs. unfold record, rating_row, text_row. simpl.
  rewrite Hn, Hc, DateFacts.isoformat_is_text, (slider_in_int64 f Hs).
  rewrite (TextFacts.is_text_not_na _ Hn), (TextFacts.is_text_not_na _ Hc).
  rewrite (TextFacts.is_text_not_na _ (DateFacts.isoformat_is_text _)).
  now split.
Qed.

(** The input page appends: a table of ratings and a record of plain text
    are written as the table with the record at its end, and that file is
    read back as written. *)
Lemma input_page_appends (fs : filesystem) (t : DataFrame) (f : form) :
  load_data fs = Ok t ->
  columns t = COLUMNS ->
  Forall (fun r => rating_row r = true) (rows t) ->
  submit_button f = true ->
  Text.is_text (user_name f) = true ->
  Text.is_text (notes f) = true ->
  slider_ok f ->
  let appended := mkDataFrame COLUMNS (rows t ++ [record f]) in
  input_page f fs
  = Ok (Some (pd.to_csv appended),
        [st_success "Your rating has been recorded successfully!"])
  /\ pd.read_csv (pd.to_csv appended) = Ok appended.
Proof.
  intros Hload Hcols Hrows Hsub Hname Hnote Hscale appended.
  destruct (record_rating_row f Hname Hnote Hscale) as [Hrr Htr].
  assert (Hall : Forall (fun r => rating_row r = true) (rows t ++ [record f])).
  { apply Forall_app. split; [exact Hrows|]. now constructor. }
  split.
  - unfold input_page. rewrite Hsub, (is_text_nonempty _ Hname), Hload.
    simpl bind. unfold pd.concat. rewrite Hcols.
    change (columns (new_entry f)) with COLUMNS.
    change (rows (new_entry f)) with [record f].
    change (list_eqb String.eqb COLUMNS COLUMNS) with true. cbv iota.
    simpl bind. now rewrite (rating_rows_upcast _ Hall).
  - apply (rating_rows_read_back _ Hall (record f)).
    + apply in_or_app. right. now left.
    + exact Htr.
Qed.




(** *** Every Scale on file is between 1 and 10 *)

Lemma scale_column_is_int (col : list field) :
  Forall scale_field col -> forallb pd.is_int_field col = true.
Proof.
  intros H. rewrite forallb_forall. intros x Hx. rewrite Forall_forall in H.
  destruct (H x Hx) as [z [-> Hz]]. simpl.
  rewrite TextFacts.int_of_str_of_int; [reflexivity|].
  unfold Text.in_int64, Text.INT64_MIN, Text.INT64_MAX.
  apply andb_true_iff. split; apply Z.leb_le; lia.
Qed.

Lemma read_scale_field (col : list field) (x : field) :
  Forall scale_field col -> scale_field x ->
  scale_cell (pd.read_cell col x).
Proof.
  intros Hcol [z [-> Hz]]. exists z. split; [|exact Hz].
  unfold pd.read_cell, pd.infer_dtype. rewrite (scale_column_is_int col Hcol).
  simpl. rewrite TextFacts.str_of_int_not_na, TextFacts.int_of_str_of_int;
    [reflexivity|].
  unfold Text.in_int64, Text.INT64_MIN, Text.INT64_MAX.
  apply andb_true_iff. split; apply Z.leb_le; lia.
Qed.

Lemma column_Forall {A : Type} (P : A -> Prop) (d : A) (j : nat)
    (m : list (list A)) :
  Forall (fun r => P (nth j r d)) m -> Forall P (column_at d j m).
Proof.
  intros H. unfold column_at. apply Forall_map. exact H.
Qed.

Lemma load_ratings_file (fs : filesystem) :
  ratings_file fs ->
  exists df,
    load_data fs = Ok df
    /\ columns df = COLUMNS
    /\ Forall (fun r => length r = 4 /\ scale_cell (nth 2 r VNaN)) (rows df).
Proof.
  destruct fs as [file|]; simpl.
  - intros [Hh Hl]. destruct file as [h ls]. simpl in *. subst h.
    exists (mkDataFrame COLUMNS
              (map_with_column (FText EmptyString) pd.read_cell ls)).
    assert (Hcol : Forall scale_field (column_at (FText EmptyString) 2 ls)).
    { apply column_Forall. eapply Forall_impl; [|exact Hl]. now intros l [_ H]. }
    repeat split.
    + unfold pd.read_csv. simpl header. simpl lines.
      replace (forallb _ ls) with true; [reflexivity|].
      symmetry. apply forallb_forall. intros l Hin.
      rewrite Forall_forall in Hl. destruct (Hl l Hin) as [-> _]. reflexivity.
    + simpl. unfold map_with_column. apply Forall_map.
      eapply Forall_impl; [|exact Hl]. intros l [Hlen Hsc]. split.
      * now rewrite mapi_from_length.
      * rewrite (mapi_from_nth _ _ _ _ (FText EmptyString)) by lia. simpl.
        now apply read_scale_field.
  - intros _. exists (pd.DataFrame_columns COLUMNS). repeat split. constructor.
Qed.

Lemma scale_column_upcast (col : Series) (x : value) :
  Forall scale_cell col -> scale_cell x -> pd.upcast col x = x.
Proof.
  intros Hcol [z [-> _]]. simpl.
  replace (existsb pd.is_open col) with false; [reflexivity|].
  symmetry. apply not_true_is_false. intros Ho.
  apply existsb_exists in Ho as [v [Hv Hopen]].
  rewrite Forall_forall in Hcol. destruct (Hcol v Hv) as [z' [-> _]].
  discriminate.
Qed.

Lemma record_scale (f : form) :
  slider_ok f -> length (record f) = 4 /\ scale_cell (nth 2 (record f) VNaN).
Proof.
  intros H. split; [reflexivity|]. now exists (rating_scale f).
Qed.

(** One run of the input page keeps the file a file of ratings. *)
Lemma input_page_ratings_file (f : form) (fs : filesystem) :
  ratings_file fs -> slider_ok f ->
  exists fs' msg, input_page f fs = Ok (fs', msg) /\ ratings_file fs'.
Proof.
  intros Hfs Hf. unfold input_page.
  destruct (submit_button f); [|now exists fs, []].
  destruct (Text.is_empty (user_name f)); [now eexists fs, _|].
  destruct (load_ratings_file fs Hfs) as [df [Hload [Hcols Hrows]]].
  rewrite Hload. simpl bind. unfold pd.concat. rewrite Hcols.
  change (columns (new_entry f)) with COLUMNS.
  change (rows (new_entry f)) with [record f].
  change (list_eqb String.eqb COLUMNS COLUMNS) with true. cbv iota.
  simpl bind. eexists. eexists. split; [reflexivity|].
  simpl. split; [reflexivity|].
  set (m := rows df ++ [record f]).
  assert (Hm : Forall (fun r => length r = 4 /\ scale_cell (nth 2 r VNaN)) m).
  { apply Forall_app. split; [exact Hrows|]. constructor; [|constructor].
    now apply record_scale. }
  assert (Hcol : Forall scale_cell (column_at VNaN 2 m)).
  { apply column_Forall. eapply Forall_impl; [|exact Hm]. now intros r [_ H]. }
  unfold map_with_column. rewrite map_map. apply Forall_map.
  eapply Forall_impl; [|exact Hm]. intros r [Hlen Hsc]. split.
  - now rewrite length_map, mapi_from_length.
  - change (FText EmptyString) with (pd.print_cell VNaN). rewrite map_nth.
    rewrite (mapi_from_nth _ _ _ _ VNaN) by lia. simpl.
    rewrite (scale_column_upcast _ _ Hcol Hsc).
    destruct Hsc as [z [-> Hz]]. now exists z.
Qed.

Lemma submissions_ratings_file (forms : list form) (fs : filesystem) :
  ratings_file fs -> Forall slider_ok forms ->
  exists fs', submissions fs forms = Ok fs' /\ ratings_file fs'.
Proof.
  revert fs; induction forms as [|f forms IH]; intros fs Hfs Hforms; simpl.
  - now exists fs.
  - inversion Hforms as [|? ? Hf Hrest]; subst.
    destruct (input_page_ratings_file f fs Hfs Hf) as [fs1 [msg [Hrun Hfs1]]].
    rewrite Hrun. simpl bind. now apply IH.
Qed.



(** ** Sorting by date *)

Module SortFacts.

Import pd.

Lemma date_leb_iff (a b : date) :
  Date.leb a b = true <->
  (year a < year b
   \/ (year a = year b
       /\ (month a < month b \/ (month a = month b /\ day a <= day b))))%N.
Proof.
  unfold Date.leb.
  rewrite !orb_true_iff, !andb_true_iff, !orb_true_iff, !andb_true_iff.
  rewrite !N.ltb_lt, !N.eqb_eq, N.leb_le. reflexivity.
Qed.

Lemma date_leb_trans (a b c : date) :
  Date.leb a b = true -> Date.leb b c = true -> Date.leb a c = true.
Proof. rewrite !date_leb_iff. lia. Qed.

Lemma date_leb_total (a b : date) :
  Date.leb a b = false -> Date.leb b a = true.
Proof.
  intros H. apply not_true_iff_false in H. rewrite date_leb_iff in *. lia.
Qed.

Lemma key_order_trans (u v w : value) :
  key_order u v -> key_order v w -> key_order u w.
Proof.
  unfold key_order.
  destruct u, v, w; simpl; try reflexivity; try discriminate.
  apply date_leb_trans.
Qed.

Lemma key_le_total (u v : value) : key_le u v = false -> key_le v u = true.
Proof.
  destruct u, v; simpl; try reflexivity; try discriminate.
  apply date_leb_total.
Qed.

(** *** Reordering by positions *)

Lemma take_seq {A : Type} (d : A) (l : list A) : take d (seq 0 (length l)) l = l.
Proof.
  unfold take. induction l as [|x l IH]; [reflexivity|].
  simpl. f_equal. rewrite <- seq_shift, map_map. exact IH.
Qed.

Lemma take_permutation {A : Type} (d : A) (idx : list nat) (l : list A) :
  Permutation idx (seq 0 (length l)) -> Permutation (take d idx l) l.
Proof.
  intros H. rewrite <- (take_seq d l) at 2. unfold take.
  now apply Permutation_map.
Qed.

Lemma permutation_in_range (idx : list nat) (n i : nat) :
  Permutation idx (seq 0 n) -> In i idx -> i < n.
Proof.
  intros H Hi. apply (Permutation_in _ H) in Hi. apply in_seq in Hi. lia.
Qed.

Lemma take_map {A B : Type} (dA : A) (dB : B) (f : A -> B) (idx : list nat)
    (l : list A) :
  (forall i, In i idx -> i < length l) ->
  take dB idx (map f l) = map f (take dA idx l).
Proof.
  intros H. unfold take. rewrite map_map. apply map_ext_in. intros i Hi.
  rewrite (nth_indep _ dB (f dA)) by (rewrite length_map; now apply H).
  apply map_nth.
Qed.

Lemma column_at_take (j : nat) (idx : list nat) (m : list (list value)) :
  Permutation idx (seq 0 (length m)) ->
  column_at VNaN j (take [] idx m) = take VNaT idx (column_at VNaN j m).
Proof.
  intros H. unfold column_at at 2.
  rewrite (take_map [] VNaT)
    by (intros i Hi; now apply (permutation_in_range idx _ i H)).
  reflexivity.
Qed.

(** *** Insertion of positions by key *)

Section Insertion.

Variable keys : Series.

Lemma insert_index_permutation (i : nat) (idx : list nat) :
  Permutation (insert_index keys i idx) (i :: idx).
Proof.
  induction idx as [|j idx IH]; simpl; [reflexivity|].
  destruct (key_le (nth i keys VNaT) (nth j keys VNaT)); [reflexivity|].
  rewrite IH. apply perm_swap.
Qed.

Lemma insert_index_head (a i : nat) (idx : list nat) :
  (position_order keys) a i -> HdRel (position_order keys) a idx ->
  HdRel (position_order keys) a (insert_index keys i idx).
Proof.
  intros Hai Hhd. destruct idx as [|j idx]; simpl; [now constructor|].
  destruct (key_le (nth i keys VNaT) (nth j keys VNaT)).
  - now constructor.
  - inversion Hhd; subst. now constructor.
Qed.

Lemma insert_index_sorted (i : nat) (idx : list nat) :
  Sorted (position_order keys) idx -> Sorted (position_order keys) (insert_index keys i idx).
Proof.
  induction idx as [|j idx IH]; intros Hs; simpl.
  - repeat constructor.
  - destruct (key_le (nth i keys VNaT) (nth j keys VNaT)) eqn:E.
    + constructor; [exact Hs|]. now constructor.
    + inversion Hs; subst. constructor; [now apply IH|].
      apply insert_index_head; [|assumption].
      now apply key_le_total.
Qed.

Lemma insertion_argsort_permutation (start : list nat) :
  Permutation (insertion_argsort start keys) start.
Proof.
  unfold insertion_argsort. induction start as [|i start IH]; simpl.
  - reflexivity.
  - rewrite insert_index_permutation. now constructor.
Qed.

Lemma insertion_argsort_sorted (start : list nat) :
  Sorted (position_order keys) (insertion_argsort start keys).
Proof.
  unfold insertion_argsort. induction start as [|i start IH]; simpl.
  - constructor.
  - now apply insert_index_sorted.
Qed.

Lemma sorted_positions_keys (idx : list nat) :
  Sorted (position_order keys) idx ->
  Sorted key_order (take VNaT idx keys).
Proof.
  unfold take. induction 1 as [|i idx Hs IH Hhd]; simpl; constructor.
  - exact IH.
  - destruct Hhd; simpl; now constructor.
Qed.

(** Insertion from any order of the positions is within the contract. *)
Lemma insertion_argsort_is_argsort (start : list nat) :
  Permutation start (seq 0 (length keys)) ->
  is_argsort keys (insertion_argsort start keys).
Proof.
  intros H. split.
  - now rewrite insertion_argsort_permutation.
  - apply sorted_positions_keys, insertion_argsort_sorted.
Qed.

End Insertion.

Lemma mirrored_permutation (l : list nat) : Permutation (mirrored l) l.
Proof.
  destruct l as [|first rest]; [reflexivity|]. unfold mirrored.
  destruct (17 <=? length rest)%nat; [|reflexivity].
  constructor.
  apply Permutation_trans
    with (firstn (length rest - 2) rest ++ skipn (length rest - 2) rest).
  - apply Permutation_app_tail. symmetry. apply Permutation_rev.
  - now rewrite firstn_skipn.
Qed.

Lemma stable_argsort_contract : argsort_contract stable_argsort.
Proof.
  intros keys. now apply insertion_argsort_is_argsort.
Qed.

Lemma partitioning_argsort_contract : argsort_contract partitioning_argsort.
Proof.
  intros keys. apply insertion_argsort_is_argsort, mirrored_permutation.
Qed.

(** *** What is kept of an ascending series *)

Lemma select_In {A : Type} (l : list A) (mask : list bool) (x : A) :
  In x (select l mask) -> In x l.
Proof.
  unfold select. intros H. apply in_map_iff in H as [[y b] [<- Hy]].
  apply filter_In in Hy as [Hy _]. now apply in_combine_l in Hy.
Qed.

Lemma select_cons {A : Type} (x : A) (l : list A) (b : bool) (mask : list bool) :
  select (x :: l) (b :: mask)
  = if b then x :: select l mask else select l mask.
Proof. unfold select. simpl. now destruct b. Qed.

Lemma select_map {A B : Type} (f : A -> B) (l : list A) (mask : list bool) :
  select (map f l) mask = map f (select l mask).
Proof.
  revert mask; induction l as [|x l IH]; intros [|b mask]; try reflexivity.
  simpl map. rewrite !select_cons, IH. now destruct b.
Qed.

Lemma select_strongly_sorted {A : Type} (R : A -> A -> Prop) (l : list A)
    (mask : list bool) :
  StronglySorted R l -> StronglySorted R (select l mask).
Proof.
  intros Hs. revert mask. induction Hs as [|x l Hs IH Hx]; intros [|b mask];
    try constructor.
  rewrite select_cons. destruct b; [|apply IH].
  constructor; [apply IH|]. rewrite Forall_forall in *. intros y Hy.
  apply Hx. now apply select_In in Hy.
Qed.

Lemma column_at_select (j : nat) (m : list (list value)) (mask : list bool) :
  column_at VNaN j (select m mask) = select (column_at VNaN j m) mask.
Proof. unfold column_at. symmetry. apply select_map. Qed.

End SortFacts.

(** ** The analytics page, step by step *)

Ltac bind_inv H :=
  match type of H with
  | bind ?m _ = Ok _ =>
      let x := fresh "x" in
      let E := fresh "E" in
      destruct m as [x| |] eqn:E;
      [cbn [bind] in H; cbv beta in H|discriminate H|discriminate H]
  end.

Module PageFacts.

Import pd.

Lemma traverse_Forall2 {A B : Type} (f : A -> outcome B) (l : list A)
    (ys : list B) :
  traverse f l = Ok ys -> Forall2 (fun x y => f x = Ok y) l ys.
Proof.
  revert ys; induction l as [|x l IH]; intros ys H; simpl in H.
  - injection H as <-. constructor.
  - bind_inv H. bind_inv H. injection H as <-. constructor; [exact E|].
    now apply IH.
Qed.

Lemma traverse_In {A B : Type} (f : A -> outcome B) (l : list A)
    (ys : list B) (y : B) :
  traverse f l = Ok ys -> In y ys -> exists x, In x l /\ f x = Ok y.
Proof.
  intros H. apply traverse_Forall2 in H. induction H as [|x y' l ys Hxy H IH].
  - intros [].
  - intros [<-|Hy].
    + exists x. split; [now left|exact Hxy].
    + destruct (IH Hy) as [x' [Hx' Hf]]. exists x'. split; [now right|exact Hf].
Qed.

Lemma map_fst_combine {A B : Type} (l1 : list A) (l2 : list B) :
  length l1 = length l2 -> map fst (combine l1 l2) = l1.
Proof.
  revert l2; induction l1 as [|x l1 IH]; intros [|y l2] H; simpl in *;
    try reflexivity; try discriminate.
  f_equal. apply IH. lia.
Qed.

(** *** Assigning a column *)


Lemma replace_nth_nth {A : Type} (j : nat) (l : list A) (x d : A) :
  j < length l -> nth j (replace_nth j l x) d = x.
Proof.
  revert j; induction l as [|y l IH]; intros [|j] H; simpl in *;
    try lia; try reflexivity.
  apply IH. lia.
Qed.

Lemma replace_nth_map {A B : Type} (f : A -> B) (j : nat) (l : list A) (x : A) :
  map f (replace_nth j l x) = replace_nth j (map f l) (f x).
Proof.
  revert j; induction l as [|y l IH]; intros [|j]; simpl; try reflexivity.
  now rewrite IH.
Qed.

Lemma replace_nth_same {A : Type} (j : nat) (l : list A) (d : A) :
  replace_nth j l (nth j l d) = l.
Proof.
  revert j; induction l as [|y l IH]; intros [|j]; simpl; try reflexivity.
  now rewrite IH.
Qed.



Lemma Forall2_column (Q : value -> value -> Prop) (j : nat)
    (m : list (list value)) (s : Series) :
  Forall2 Q (column_at VNaN j m) s ->
  Forall2 (fun r x => Q (nth j r VNaN) x) m s.
Proof.
  unfold column_at. revert s; induction m as [|r m IH]; intros s H;
    inversion H; subst; constructor; auto.
Qed.

Lemma Forall2_length_eq {A B : Type} (P : A -> B -> Prop) (l1 : list A)
    (l2 : list B) :
  Forall2 P l1 l2 -> length l1 = length l2.
Proof. induction 1; simpl; congruence. Qed.

End PageFacts.

Section DateOrder.

Import pd.

Variable argsort : Series -> list nat.
Hypothesis argsort_ok : argsort_contract argsort.

Lemma set_column_length (j : nat) (m : list (list value)) (s : Series) :
  length s = length m -> length (set_column j m s) = length m.
Proof.
  intros H. unfold set_column. rewrite length_map, length_combine. lia.
Qed.

Lemma column_set_column (n j : nat) (m : list (list value)) (s : Series) :
  rectangular n m -> j < n -> length s = length m ->
  column_at VNaN j (set_column j m s) = s.
Proof.
  intros Hm Hj. revert s. unfold set_column, column_at.
  induction Hm as [|r m Hr Hm IH]; intros [|x s] Hlen; simpl in *;
    try reflexivity; try discriminate.
  rewrite PageFacts.replace_nth_nth by lia. f_equal. apply IH. lia.
Qed.

Lemma load_data_well_formed (fs : filesystem) (t : DataFrame) :
  load_data fs = Ok t -> well_formed t.
Proof.
  destruct fs as [file|]; simpl.
  - apply CsvFacts.read_csv_well_formed.
  - intros [= <-]. split; [reflexivity|constructor].
Qed.

(** Lines 94-96 leave the table in ascending order of its dates: a
    reordering of the loaded rows, each date parsed. *)
Lemma sorted_by_date_inv (t df : DataFrame) :
  well_formed t ->
  sorted_by_date argsort t = Ok df ->
  exists j parsed idx,
    index_of "Date" (columns t) = Some j
    /\ Forall2 (fun r x => to_datetime_cell (nth j r VNaN) = Ok x) (rows t) parsed
    /\ Permutation idx (seq 0 (length (rows t)))
    /\ columns df = columns t
    /\ rows df = take [] idx (set_column j (rows t) parsed)
    /\ column_at VNaN j (rows df) = take VNaT idx parsed
    /\ ascending (column_at VNaN j (rows df)).
Proof.
  intros [Hh Hr] H. unfold sorted_by_date in H.
  bind_inv H. unfold getitem in E.
  destruct (index_of "Date" (columns t)) as [j|] eqn:Hj; [|discriminate E].
  injection E as <-.
  bind_inv H. rename x into parsed.
  pose proof (PageFacts.traverse_Forall2 _ _ _ E) as Hparsed.
  pose proof (PageFacts.Forall2_length_eq _ _ _ Hparsed) as Hlen.
  rewrite column_at_length in Hlen.
  bind_inv H. unfold setitem in E0. rewrite Hj in E0.
  rewrite <- Hlen, Nat.eqb_refl in E0. injection E0 as <-.
  unfold sort_values, getitem in H. cbn [columns rows] in H. rewrite Hj in H.
  cbn [bind] in H. cbv beta in H. injection H as <-. cbn [columns rows].
  assert (Hkeys : column_at VNaN j (set_column j (rows t) parsed) = parsed).
  { apply (column_set_column (length (columns t))); trivial.
    - now apply index_of_lt in Hj.
    - now symmetry. }
  rewrite Hkeys. destruct (argsort_ok parsed) as [Hperm Hsorted].
  assert (Hperm' : Permutation (argsort parsed)
                     (seq 0 (length (set_column j (rows t) parsed)))).
  { rewrite set_column_length by now symmetry. now rewrite Hlen. }
  exists j, parsed, (argsort parsed). repeat split; trivial.
  - now apply (PageFacts.Forall2_column (fun v x => to_datetime_cell v = Ok x)).
  - now rewrite Hlen.
  - now rewrite SortFacts.column_at_take, Hkeys.
  - rewrite SortFacts.column_at_take, Hkeys by exact Hperm'.
    unfold ascending. apply Sorted_StronglySorted; [|exact Hsorted].
    intros u v w. apply SortFacts.key_order_trans.
Qed.

(** What a run that shows the dashboard has computed. *)
Lemma analytics_page_inv (ui : sidebar) (fs : filesystem) (d : dashboard) :
  analytics_page argsort ui fs = Ok (Dashboard d) ->
  exists t df names mask,
    load_data fs = Ok t
    /\ pd.empty t = false
    /\ sorted_by_date argsort t = Ok df
    /\ getitem df "Name" = Ok names
    /\ isin names (selected_users d) = Ok mask
    /\ download d = (if download_clicked ui then Some (to_csv df) else None)
    /\ traverse (chart_series (getitem_mask df mask)) (selected_users d)
       = Ok (chart d)
    /\ getitem_labels (getitem_mask df mask) COLUMNS = Ok (data_table d)
    /\ (avg_rating d = None
        \/ avg_rating d
           = Some (groupby_mean (getitem_mask df mask) "Name" "Scale"))
    /\ (max_rating d = None
        \/ max_rating d
           = Some (groupby_max (getitem_mask df mask) "Name" "Scale")).
Proof.
  intros H. unfold analytics_page in H.
  bind_inv H. rename x into t.
  destruct (pd.empty t) eqn:Hempty; [discriminate H|].
  bind_inv H. rename x into df.
  bind_inv H. rename x into names.
  bind_inv H. rename x into user_names.
  bind_inv H. rename x into selected.
  bind_inv H. rename x into mask.
  bind_inv H. rename x into points.
  bind_inv H. rename x into table.
  injection H as <-. cbn [selected_users download chart data_table avg_rating max_rating].
  exists t, df, names, mask. repeat split; trivial;
    destruct (negb (pd.empty (getitem_mask df mask))); simpl; auto.
Qed.

End DateOrder.

(** ** The chart and the table of the dashboard *)

(** C2, as amended: for every persisted table and every selected user, the
    points plotted for that user ascend by date (missing dates last).  The
    order among points of one date is the argsort's and is not claimed. *)
Theorem chart_series_ascending (argsort : Series -> list nat) (ui : sidebar)
    (fs : filesystem) (d : dashboard) (user : value)
    (points : list (value * value)) :
  pd.argsort_contract argsort ->
  analytics_page argsort ui fs = Ok (Dashboard d) ->
  In (user, points) (chart d) ->
  ascending (map fst points).
Proof.
  intros Hargsort Hpage Hin.
  apply analytics_page_inv in Hpage
    as (t & df & names & mask & Hload & _ & Hsorted & _ & _ & _ & Hchart & _).
  apply load_data_well_formed in Hload.
  destruct (sorted_by_date_inv argsort Hargsort t df Hload Hsorted)
    as (j & parsed & idx & Hj & _ & _ & Hcols & _ & _ & Hasc).
  destruct (PageFacts.traverse_In _ _ _ _ Hchart Hin) as [u [_ Hu]].
  unfold chart_series in Hu.
  bind_inv Hu. bind_inv Hu. bind_inv Hu. bind_inv Hu.
  injection Hu as _ <-.
  unfold pd.getitem in E1, E2. cbn [columns rows pd.getitem_mask] in E1, E2.
  rewrite Hcols, Hj in E1. injection E1 as <-.
  destruct (index_of "Scale" (columns df)); [|discriminate E2].
  injection E2 as <-.
  rewrite PageFacts.map_fst_combine by now rewrite !column_at_length.
  rewrite !SortFacts.column_at_select.
  now do 2 apply SortFacts.select_strongly_sorted.
Qed.

Lemma chart_series_ascending_witness :
  analytics_page stable_argsort (mkSidebar AllUsers false) (Some example_file)
  = Ok (Dashboard example_dashboard)
  /\ ascending [VTimestamp (mkDate 2024 1 1); VTimestamp (mkDate 2024 1 2)].
Proof.
  split; [reflexivity|].
  apply (chart_series_ascending stable_argsort (mkSidebar AllUsers false)
           (Some example_file) example_dashboard (VStr "A")
           [(VTimestamp (mkDate 2024 1 1), VInt 5);
            (VTimestamp (mkDate 2024 1 2), VInt 9)]).
  - exact SortFacts.stable_argsort_contract.
  - reflexivity.
  - now left.
Defined.

(** C2 as stated fails in its second half.  [partitioning_argsort] is within
    what is known of the default argsort, and under it eighteen points of one
    user and one day are plotted in another order than they were entered. *)
Lemma equal_dates_reordered :
  pd.argsort_contract partitioning_argsort
  /\ exists t entered d points,
       load_data (Some same_day_file) = Ok t
       /\ pd.getitem t "Scale" = Ok entered
       /\ analytics_page partitioning_argsort (mkSidebar AllUsers false)
            (Some same_day_file) = Ok (Dashboard d)
       /\ chart d = [(VStr "A", points)]
       /\ map fst points = repeat (VTimestamp (mkDate 2024 1 1)) 18
       /\ map snd points
          = map VInt [1; 6; 5; 4; 3; 2; 1; 10; 9; 8; 7; 6; 5; 4; 3; 2; 7; 8]%Z
       /\ map snd points <> entered.
Proof.
  split; [exact SortFacts.partitioning_argsort_contract|].
  eexists. eexists. eexists. eexists.
  split; [vm_compute; reflexivity|].
  split; [vm_compute; reflexivity|].
  split; [vm_compute; reflexivity|].
  split; [reflexivity|].
  split; [reflexivity|].
  split; [reflexivity|].
  discriminate.
Qed.

Lemma indices_of_COLUMNS (names : list string) (js : list nat) :
  pd.indices_of COLUMNS names = Ok js ->
  exists j0 j1 j2 j3,
    js = [j0; j1; j2; j3] /\ index_of "Date" names = Some j1.
Proof.
  unfold COLUMNS. simpl.
  destruct (index_of "Name" names) as [j0|]; [|discriminate].
  destruct (index_of "Date" names) as [j1|]; [|discriminate].
  destruct (index_of "Scale" names) as [j2|]; [|discriminate].
  destruct (index_of "Note" names) as [j3|]; [|discriminate].
  simpl. intros [= <-]. now exists j0, j1, j2, j3.
Qed.

(** C10: the dashboard sorts the whole loaded table by date and filters
    afterwards.  The sorted table is a reordering of the loaded rows with
    every date parsed and its dates ascend; the export is that table; the
    table shown and the two aggregates are computed from its rows of the
    selected users, and the dates of the table shown ascend. *)
Theorem dashboard_in_date_order (argsort : Series -> list nat) (ui : sidebar)
    (fs : filesystem) (d : dashboard) :
  pd.argsort_contract argsort ->
  analytics_page argsort ui fs = Ok (Dashboard d) ->
  exists t df j parsed idx dates names mask shown,
    load_data fs = Ok t
    /\ sorted_by_date argsort t = Ok df
    /\ index_of "Date" (columns t) = Some j
    /\ Permutation idx (seq 0 (length (rows t)))
    /\ rows df = pd.take [] idx (pd.set_column j (rows t) parsed)
    /\ pd.getitem df "Date" = Ok dates /\ ascending dates
    /\ download d = (if download_clicked ui then Some (pd.to_csv df) else None)
    /\ pd.getitem df "Name" = Ok names
    /\ pd.isin names (selected_users d) = Ok mask
    /\ pd.getitem_labels (pd.getitem_mask df mask) COLUMNS = Ok (data_table d)
    /\ (avg_rating d = None
        \/ avg_rating d
           = Some (pd.groupby_mean (pd.getitem_mask df mask) "Name" "Scale"))
    /\ (max_rating d = None
        \/ max_rating d
           = Some (pd.groupby_max (pd.getitem_mask df mask) "Name" "Scale"))
    /\ pd.getitem (data_table d) "Date" = Ok shown /\ ascending shown.
Proof.
  intros Hargsort Hpage.
  apply analytics_page_inv in Hpage
    as (t & df & names & mask & Hload & _ & Hsorted & Hnames & Hmask & Hdown
        & _ & Htable & Havg & Hmax).
  pose proof (load_data_well_formed _ _ Hload) as Hwf.
  destruct (sorted_by_date_inv argsort Hargsort t df Hwf Hsorted)
    as (j & parsed & idx & Hj & _ & Hperm & Hcols & Hrows & _ & Hasc).
  assert (Hdates : pd.getitem df "Date" = Ok (column_at VNaN j (rows df))).
  { unfold pd.getitem. now rewrite Hcols, Hj. }
  unfold pd.getitem_labels in Htable. bind_inv Htable. injection Htable as <-.
  cbn [columns pd.getitem_mask] in E.
  destruct (indices_of_COLUMNS _ _ E) as (j0 & j1 & j2 & j3 & -> & Hj1).
  rewrite Hcols, Hj in Hj1. injection Hj1 as <-.
  exists t, df, j, parsed, idx, (column_at VNaN j (rows df)), names, mask,
    (pd.select (column_at VNaN j (rows df)) mask).
  repeat split; trivial.
  - unfold pd.getitem_labels. cbn [columns pd.getitem_mask]. now rewrite E.
  - unfold pd.getitem. cbn [columns rows pd.getitem_mask]. simpl index_of.
    f_equal. rewrite <- SortFacts.column_at_select. unfold column_at.
    rewrite map_map. reflexivity.
  - now apply SortFacts.select_strongly_sorted.
Qed.

(** Entered late, early, between; shown early, between, late. *)
Lemma dashboard_in_date_order_witness :
  (exists t, load_data (Some unordered_file) = Ok t
             /\ pd.getitem t "Note" = Ok [VStr "late"; VStr "early"; VStr "between"])
  /\ (exists d shown,
        analytics_page stable_argsort (mkSidebar AllUsers true)
          (Some unordered_file) = Ok (Dashboard d)
        /\ pd.getitem (data_table d) "Note"
           = Ok [VStr "early"; VStr "between"; VStr "late"]
        /\ pd.getitem (data_table d) "Date" = Ok shown
        /\ ascending shown).
Proof.
  split.
  - eexists. split; reflexivity.
  - destruct (dashboard_in_date_order stable_argsort (mkSidebar AllUsers true)
                (Some unordered_file)
                (mkDashboard
                   [VStr "B"; VStr "A"]
                   (Some (mkCsv COLUMNS
                      [ [FText "B"; FText "2024-01-01"; FText "3"; FText "early"];
                        [FText "A"; FText "2024-02-01"; FText "9"; FText "between"];
                        [FText "A"; FText "2024-03-01"; FText "5"; FText "late"] ]))
                   [ (VStr "B", [ (VTimestamp (mkDate 2024 1 1), VInt 3) ]);
                     (VStr "A", [ (VTimestamp (mkDate 2024 2 1), VInt 9);
                                  (VTimestamp (mkDate 2024 3 1), VInt 5) ]) ]
                   (mkDataFrame COLUMNS
                      [ [VStr "B"; VTimestamp (mkDate 2024 1 1); VInt 3; VStr "early"];
                        [VStr "A"; VTimestamp (mkDate 2024 2 1); VInt 9; VStr "between"];
                        [VStr "A"; VTimestamp (mkDate 2024 3 1); VInt 5; VStr "late"] ])
                   (Some (Ok [(VStr "A", 7%Q); (VStr "B", 3%Q)]))
                   (Some (Ok [(VStr "A", 9%Z); (VStr "B", 3%Z)])))
                SortFacts.stable_argsort_contract eq_refl)
      as (t & df & j & parsed & idx & dates & names & mask & shown & H).
    eexists. exists shown. split; [reflexivity|]. split; [reflexivity|].
    split; apply H.
Defined.

(** ** The export *)

Module ExportFacts.

Import pd.

Lemma int_of_str_range (s : string) (z : Z) :
  Text.int_of_str s = Some z -> Text.in_int64 z = true.
Proof.
  unfold Text.int_of_str. destruct (NilZero.int_of_string s); [|discriminate].
  destruct (Text.in_int64 (Z.of_int s0)) eqn:E; [|discriminate].
  now intros [= <-].
Qed.

Lemma int_literal_not_na (s : string) (z : Z) :
  Text.int_of_str s = Some z -> Text.is_na s = false.
Proof.
  intros H. destruct (Text.is_na s) eqn:E; [|reflexivity].
  apply TextFacts.na_not_int in E. unfold Text.int_of_str in H.
  rewrite E in H. discriminate.
Qed.

(** A column that was read and holds no undetermined cell is stable. *)
Lemma read_column_stable (fields : list field) :
  forallb determined (map (read_cell fields) fields) = true ->
  stable_column (map (read_cell fields) fields) = true.
Proof.
  unfold read_cell, infer_dtype, stable_column. intros Hd.
  destruct (forallb is_int_field fields) eqn:Hint.
  - match goal with
    | |- forallb is_int64 ?l || _ || _ = true =>
        assert (H : forallb is_int64 l = true); [|now rewrite H]
    end.
    rewrite forallb_forall in *. intros v Hv.
    apply in_map_iff in Hv as [f [<- Hf]]. specialize (Hint f Hf).
    destruct f as [s|]; [|discriminate]. simpl in *.
    destruct (Text.int_of_str s) as [z|] eqn:E; [|discriminate].
    rewrite (int_literal_not_na s z E). simpl.
    now apply (int_of_str_range s).
  - destruct (existsb is_text_field fields) eqn:Htext.
    + match goal with
      | |- _ || forallb kept_str ?l && existsb is_text_value ?l || _ = true =>
          assert (H1 : forallb kept_str l = true);
          [|assert (H2 : existsb is_text_value l = true);
            [|rewrite H1, H2; simpl; now rewrite orb_true_r]]
      end.
      * rewrite forallb_forall in *. intros v Hv.
        specialize (Hd v Hv). apply in_map_iff in Hv as [f [<- Hf]].
        destruct f as [s|]; [|discriminate]. simpl in *.
        destruct (Text.is_na s) eqn:E; simpl; [reflexivity|now rewrite E].
      * apply existsb_exists in Htext as [f [Hf Ht]].
        apply existsb_exists. exists (convert object f). split.
        -- now apply (in_map (fun f => convert object f)).
        -- destruct f as [s|]; [|discriminate]. simpl in *.
           now rewrite (TextFacts.is_text_not_na s Ht).
    + match goal with
      | |- _ || _ || forallb is_nan ?l = true =>
          assert (H : forallb is_nan l = true); [|now rewrite H, orb_true_r]
      end.
      rewrite forallb_forall in *. intros v Hv.
      specialize (Hd v Hv). apply in_map_iff in Hv as [f [<- Hf]].
      destruct f as [s|]; [|discriminate]. simpl in *.
      destruct (Text.is_na s); [reflexivity|discriminate].
Qed.

Lemma convert_loaded (dt : dtype) (f : field) : loaded (convert dt f) = true.
Proof.
  destruct f as [s|]; [|reflexivity]. simpl.
  destruct (Text.is_na s); [reflexivity|].
  destruct dt; try reflexivity. now destruct (Text.int_of_str s).
Qed.

Lemma load_data_loaded (fs : filesystem) (t : DataFrame) :
  load_data fs = Ok t -> Forall (Forall (fun v => loaded v = true)) (rows t).
Proof.
  destruct fs as [file|]; simpl.
  - intros H. apply CsvFacts.read_csv_columns in H as (_ & -> & _ & _).
    unfold map_with_column. apply Forall_map, Forall_forall. intros l _.
    generalize 0. induction l as [|f l IH]; intros k; simpl; constructor.
    + apply convert_loaded.
    + apply IH.
  - intros [= <-]. constructor.
Qed.

Lemma load_data_stable (fs : filesystem) (t : DataFrame) (j : nat) :
  load_data fs = Ok t -> determined_table t -> j < length (columns t) ->
  stable_column (column_at VNaN j (rows t)) = true.
Proof.
  destruct fs as [file|]; simpl.
  - intros H Hd Hj. pose proof (CsvFacts.read_csv_well_formed _ _ H) as [_ Hrect].
    apply CsvFacts.read_csv_columns in H as (Hc & Hrows & _ & Hr).
    rewrite Hc in *.
    assert (Hcol : column_at VNaN j (rows t)
                   = map (read_cell (column_at (FText EmptyString) j (lines file)))
                         (column_at (FText EmptyString) j (lines file))).
    { rewrite Hrows.
      now apply (column_at_map_with_column _ _ _ (length (header file))). }
    rewrite Hcol. apply read_column_stable. rewrite <- Hcol.
    apply column_forallb. unfold determined_table in Hd.
    unfold rectangular in Hrect. rewrite Forall_forall in *. intros r Hin.
    specialize (Hd r Hin). rewrite Forall_forall in Hd. apply Hd.
    apply nth_In. now rewrite (Hrect r Hin).
  - intros [= <-] _ _. reflexivity.
Qed.

(** *** Stability does not depend on the order of the rows *)

Lemma forallb_permutation {A : Type} (p : A -> bool) (l l' : list A) :
  Permutation l l' -> forallb p l = forallb p l'.
Proof.
  induction 1 as [|x l l' H IH|x y l|l l' l'' H1 IH1 H2 IH2]; simpl.
  - reflexivity.
  - now rewrite IH.
  - now destruct (p x), (p y).
  - congruence.
Qed.

Lemma existsb_permutation {A : Type} (p : A -> bool) (l l' : list A) :
  Permutation l l' -> existsb p l = existsb p l'.
Proof.
  induction 1 as [|x l l' H IH|x y l|l l' l'' H1 IH1 H2 IH2]; simpl.
  - reflexivity.
  - now rewrite IH.
  - now destruct (p x), (p y).
  - congruence.
Qed.

Lemma stable_column_permutation (col col' : Series) :
  Permutation col col' -> stable_column col = stable_column col'.
Proof.
  intros H. unfold stable_column.
  now rewrite (forallb_permutation is_int64 _ _ H),
    (forallb_permutation kept_str _ _ H),
    (existsb_permutation is_text_value _ _ H),
    (forallb_permutation is_nan _ _ H).
Qed.

(** *** Printing a parsed date *)

Lemma print_date_text (v : value) : print_cell (date_text v) = print_cell v.
Proof. now destruct v. Qed.

Lemma date_text_parsed (v x : value) :
  loaded v = true -> to_datetime_cell v = Ok x -> date_text x = v.
Proof.
  destruct v as [s| | | | |]; simpl; try discriminate.
  - destruct (Date.parse_iso s) as [d|] eqn:E; [|discriminate].
    intros _ [= <-]. simpl. now rewrite (DateFacts.isoformat_parse s d E).
  - now intros _ [= <-].
Qed.

Lemma date_text_loaded (r : list value) :
  Forall (fun v => loaded v = true) r -> map date_text r = r.
Proof.
  induction 1 as [|v r Hv H IH]; simpl; [reflexivity|].
  rewrite IH. f_equal. now destruct v.
Qed.

Lemma date_text_set_column (j : nat) (m : list (list value)) (parsed : Series) :
  Forall (Forall (fun v => loaded v = true)) m ->
  Forall2 (fun r x => to_datetime_cell (nth j r VNaN) = Ok x) m parsed ->
  map (map date_text) (set_column j m parsed) = m.
Proof.
  intros Hm H. unfold set_column. induction H as [|r x m s Hrx H IH]; simpl.
  - reflexivity.
  - inversion Hm as [|? ? Hr Hm']; subst. rewrite (IH Hm'). f_equal.
    rewrite PageFacts.replace_nth_map, (date_text_loaded r Hr).
    rewrite (date_text_parsed (nth j r VNaN) x); [apply PageFacts.replace_nth_same| |exact Hrx].
    destruct (Nat.lt_ge_cases j (length r)) as [Hlt|Hge].
    + rewrite Forall_forall in Hr. apply Hr. now apply nth_In.
    + now rewrite nth_overflow.
Qed.

End ExportFacts.

Lemma take_rectangular (n : nat) (idx : list nat) (m : list (list value)) :
  rectangular n m -> Permutation idx (seq 0 (length m)) ->
  rectangular n (pd.take [] idx m).
Proof.
  intros Hm Hperm. unfold rectangular, pd.take in *. apply Forall_map.
  apply Forall_forall. intros i Hi. rewrite Forall_forall in Hm. apply Hm.
  apply nth_In. now apply (SortFacts.permutation_in_range idx _ i Hperm).
Qed.

(** C3, as amended: for a persisted table all of whose cells the model
    determines, the CSV that the dashboard exports is read back by
    [read_csv] as the table the dashboard holds (the whole table, in date
    order, the columns in their order), with every date as its YYYY-MM-DD
    text where the dashboard holds a timestamp, and NaN where it holds a
    missing date; its rows are the loaded rows, reordered. *)
Theorem export_read_back (argsort : Series -> list nat) (ui : sidebar)
    (fs : filesystem) (t : DataFrame) (d : dashboard) (file : csv_file) :
  pd.argsort_contract argsort ->
  load_data fs = Ok t ->
  determined_table t ->
  analytics_page argsort ui fs = Ok (Dashboard d) ->
  download d = Some file ->
  exists df,
    sorted_by_date argsort t = Ok df
    /\ file = pd.to_csv df
    /\ pd.read_csv file = Ok (dates_as_text df)
    /\ columns (dates_as_text df) = columns t
    /\ Permutation (rows (dates_as_text df)) (rows t).
Proof.
  intros Hargsort Hload Hdet Hpage Hfile.
  apply analytics_page_inv in Hpage
    as (t' & df & names & mask & Hload' & _ & Hsorted & _ & _ & Hdown & _).
  rewrite Hload in Hload'. injection Hload' as <-.
  rewrite Hfile in Hdown.
  destruct (download_clicked ui); [injection Hdown as ->|discriminate Hdown].
  pose proof (load_data_well_formed _ _ Hload) as [Hh Hrect].
  destruct (sorted_by_date_inv argsort Hargsort t df (conj Hh Hrect) Hsorted)
    as (j & parsed & idx & Hj & Hparsed & Hperm & Hcols & Hrows & _ & _).
  pose proof (PageFacts.Forall2_length_eq _ _ _ Hparsed) as Hlen.
  assert (Hperm1 : Permutation idx
                     (seq 0 (length (pd.set_column j (rows t) parsed)))).
  { rewrite set_column_length by now symmetry. exact Hperm. }
  assert (Htext : rows (dates_as_text df) = pd.take [] idx (rows t)).
  { unfold dates_as_text. cbn [rows]. rewrite Hrows.
    rewrite <- (SortFacts.take_map [] [] (map date_text))
      by (intros i Hi; now apply (SortFacts.permutation_in_range idx _ i Hperm1)).
    rewrite ExportFacts.date_text_set_column; trivial.
    now apply (ExportFacts.load_data_loaded fs). }
  assert (Hsame : pd.to_csv df = pd.to_csv (dates_as_text df)).
  { unfold pd.to_csv, dates_as_text. cbn [columns rows]. f_equal.
    rewrite map_map. apply map_ext. intros r. rewrite map_map.
    apply map_ext. intros v. symmetry. apply ExportFacts.print_date_text. }
  exists df. repeat split; trivial.
  - rewrite Hsame. apply CsvFacts.read_to_csv_stable.
    + split; cbn [columns dates_as_text]; rewrite Hcols; [exact Hh|].
      fold (rows (dates_as_text df)). rewrite Htext.
      now apply take_rectangular.
    + cbn [columns dates_as_text]. fold (rows (dates_as_text df)).
      rewrite Hcols, Htext. intros k Hk.
      rewrite SortFacts.column_at_take by exact Hperm.
      rewrite (ExportFacts.stable_column_permutation _ (column_at VNaN k (rows t))).
      * now apply (ExportFacts.load_data_stable fs).
      * apply SortFacts.take_permutation. now rewrite column_at_length.
  - rewrite Htext. now apply SortFacts.take_permutation.
Qed.

Lemma export_read_back_witness :
  exists df,
    sorted_by_date stable_argsort one_rating_table = Ok df
    /\ one_rating_file = pd.to_csv df
    /\ pd.read_csv one_rating_file = Ok (dates_as_text df)
    /\ columns (dates_as_text df) = columns one_rating_table
    /\ Permutation (rows (dates_as_text df)) (rows one_rating_table).
Proof.
  destruct (export_read_back stable_argsort (mkSidebar AllUsers true)
              (Some one_rating_file) one_rating_table
              (mkDashboard [VStr "Bo"] (Some one_rating_file)
                 [(VStr "Bo", [(VTimestamp (mkDate 2024 1 3), VInt 7)])]
                 (mkDataFrame COLUMNS
                    [[VStr "Bo"; VTimestamp (mkDate 2024 1 3); VInt 7;
                      VStr "fine"]])
                 (Some (Ok [(VStr "Bo", 7%Q)]))
                 (Some (Ok [(VStr "Bo", 7%Z)])))
              one_rating_file
              SortFacts.stable_argsort_contract eq_refl)
    as [df H].
  - repeat constructor.
  - reflexivity.
  - reflexivity.
  - now exists df.
Defined.

(** C3 as stated fails on every table with a date: the dashboard holds
    timestamps under Date, the export prints them as text, and [read_csv]
    hands the text back. *)
Lemma export_dates_are_text :
  exists d df df',
    analytics_page stable_argsort (mkSidebar AllUsers true) (Some one_rating_file)
    = Ok (Dashboard d)
    /\ sorted_by_date stable_argsort one_rating_table = Ok df
    /\ rows df = [[VStr "Bo"; VTimestamp (mkDate 2024 1 3); VInt 7; VStr "fine"]]
    /\ download d = Some (pd.to_csv df)
    /\ pd.read_csv (pd.to_csv df) = Ok df'
    /\ rows df' = [[VStr "Bo"; VStr "2024-01-03"; VInt 7; VStr "fine"]]
    /\ df' <> df.
Proof.
  eexists. eexists. eexists.
  split; [reflexivity|]. split; [reflexivity|]. split; [reflexivity|].
  split; [reflexivity|]. split; [reflexivity|]. split; [reflexivity|].
  discriminate.
Qed.

(** ** Filter and aggregates *)

Lemma select_map_filter {A : Type} (p : A -> bool) (l : list A) :
  pd.select l (map p l) = filter p l.
Proof.
  induction l as [|x l IH]; [reflexivity|].
  simpl map. rewrite SortFacts.select_cons. simpl. rewrite IH.
  now destruct (p x).
Qed.

Lemma filter_subsequence {A : Type} (p : A -> bool) (l : list A) :
  subsequence (filter p l) l.
Proof.
  induction l as [|x l IH]; simpl; [constructor|].
  destruct (p x); now constructor.
Qed.

(** C7: the rows kept by the filter of line 115 are exactly the rows whose
    Name is among the selected users, in the order they have in the table
    filtered; on the example table and the set {A} they are the two records
    of A, in their order. *)
Theorem filter_by_users :
  (forall (df : DataFrame) (names : Series) (users : list value)
          (mask : list bool),
      pd.getitem df "Name" = Ok names ->
      pd.isin names users = Ok mask ->
      exists j,
        index_of "Name" (columns df) = Some j
        /\ columns (pd.getitem_mask df mask) = columns df
        /\ rows (pd.getitem_mask df mask)
           = filter (identity_in users j) (rows df)
        /\ subsequence (rows (pd.getitem_mask df mask)) (rows df))
  /\ (exists names mask,
        pd.getitem example_parsed "Name" = Ok names
        /\ pd.isin names [VStr "A"] = Ok mask
        /\ pd.getitem_mask example_parsed mask
           = mkDataFrame COLUMNS
               [ [VStr "A"; VTimestamp (mkDate 2024 1 1); VInt 5; VStr "first"];
                 [VStr "A"; VTimestamp (mkDate 2024 1 2); VInt 9; VStr "second"] ]).
Proof.
  split.
  - intros df names users mask Hnames Hmask. unfold pd.getitem in Hnames.
    destruct (index_of "Name" (columns df)) as [j|]; [|discriminate Hnames].
    injection Hnames as <-. unfold pd.isin in Hmask.
    destruct (_ && _); [|discriminate Hmask]. injection Hmask as <-.
    assert (Hrows : rows (pd.getitem_mask df
                            (map (fun v => existsb (value_eqb v) users)
                                 (column_at VNaN j (rows df))))
                    = filter (identity_in users j) (rows df)).
    { cbn [rows pd.getitem_mask]. unfold column_at. rewrite map_map.
      apply (select_map_filter (identity_in users j)). }
    exists j. repeat split; trivial.
    rewrite Hrows. apply filter_subsequence.
  - eexists. eexists. repeat split.
Qed.

Lemma filter_by_users_witness :
  exists j,
    index_of "Name" (columns example_parsed) = Some j
    /\ columns (pd.getitem_mask example_parsed [false; false; true])
       = columns example_parsed
    /\ rows (pd.getitem_mask example_parsed [false; false; true])
       = filter (identity_in [VStr "B"] j) (rows example_parsed)
    /\ subsequence (rows (pd.getitem_mask example_parsed [false; false; true]))
                   (rows example_parsed).
Proof.
  apply (proj1 filter_by_users example_parsed
           [VStr "A"; VStr "A"; VStr "B"] [VStr "B"] [false; false; true]).
  - reflexivity.
  - reflexivity.
Defined.

Lemma three_positions (idx : list nat) :
  Permutation idx [0; 1; 2] ->
  In idx [[0; 1; 2]; [0; 2; 1]; [1; 0; 2]; [1; 2; 0]; [2; 0; 1]; [2; 1; 0]].
Proof.
  intros H. pose proof (Permutation_length H) as Hlen.
  assert (Hnd : NoDup idx).
  { apply (Permutation_NoDup (Permutation_sym H)). repeat constructor; simpl; lia. }
  assert (Hin : forall i, In i idx -> i = 0 \/ i = 1 \/ i = 2).
  { intros i Hi. apply (Permutation_in _ H) in Hi. simpl in Hi. lia. }
  destruct idx as [|a [|b [|c [|x idx]]]]; try discriminate Hlen.
  destruct (Hin a) as [ -> | [ -> | -> ] ]; [now left| | |];
    (destruct (Hin b) as [ -> | [ -> | -> ] ]; [right; now left| | |]);
    (destruct (Hin c) as [ -> | [ -> | -> ] ]; [right; right; now left| | |]);
    try (exfalso; inversion Hnd as [|? ? Hn1 Hnd1]; subst;
         inversion Hnd1 as [|? ? Hn2 Hnd2]; subst; simpl in *; tauto);
    simpl; tauto.
Qed.

Lemma sorted_head {A : Type} (R : A -> A -> Prop) (a b : A) (l : list A) :
  Sorted R (a :: b :: l) -> R a b /\ Sorted R (b :: l).
Proof.
  intros H. inversion H as [|? ? Hs Hhd]; subst.
  inversion Hhd; subst. now split.
Qed.

(** Under the contract, the example is sorted in one of two ways. *)
Lemma example_argsort (argsort : Series -> list nat) :
  pd.argsort_contract argsort ->
  let keys := [ VTimestamp (mkDate 2024 1 1); VTimestamp (mkDate 2024 1 2);
                VTimestamp (mkDate 2024 1 1) ] in
  argsort keys = [0; 2; 1] \/ argsort keys = [2; 0; 1].
Proof.
  intros H keys. destruct (H keys) as [Hperm Hsorted].
  apply three_positions in Hperm. simpl in Hperm.
  destruct Hperm as [E|[E|[E|[E|[E|[E|[]]]]]]]; rewrite <- E in *; auto;
    exfalso; unfold pd.take in Hsorted; simpl in Hsorted;
    apply sorted_head in Hsorted as [H1 Hsorted];
    try discriminate H1;
    apply sorted_head in Hsorted as [H2 _]; discriminate H2.
Qed.

(** C6: over the records (A, day 1, 5), (A, day 2, 9), (B, day 1, 3) the
    mean of A is 7, the mean of B is 3, the maximum of A is 9 and the maximum
    of B is 3: for the aggregation itself, and for the two tables of the
    dashboard whatever order the sort leaves equal dates in. *)
Theorem example_aggregates :
  pd.groupby_mean example_parsed "Name" "Scale"
  = Ok [(VStr "A", 7%Q); (VStr "B", 3%Q)]
  /\ pd.groupby_max example_parsed "Name" "Scale"
     = Ok [(VStr "A", 9%Z); (VStr "B", 3%Z)]
  /\ (forall argsort : Series -> list nat,
        pd.argsort_contract argsort ->
        exists d,
          analytics_page argsort (mkSidebar AllUsers false) (Some example_file)
          = Ok (Dashboard d)
          /\ avg_rating d = Some (Ok [(VStr "A", 7%Q); (VStr "B", 3%Q)])
          /\ max_rating d = Some (Ok [(VStr "A", 9%Z); (VStr "B", 3%Z)])).
Proof.
  split; [reflexivity|]. split; [reflexivity|].
  intros argsort Hargsort.
  assert (Hs : sorted_by_date argsort example_table
               = Ok (mkDataFrame COLUMNS
                       (pd.take []
                          (argsort [ VTimestamp (mkDate 2024 1 1);
                                     VTimestamp (mkDate 2024 1 2);
                                     VTimestamp (mkDate 2024 1 1) ])
                          (rows example_parsed)))) by reflexivity.
  unfold analytics_page.
  change (load_data (Some example_file)) with (Ok example_table).
  cbn [bind]. change (pd.empty example_table) with false. cbv iota.
  rewrite Hs.
  destruct (example_argsort argsort Hargsort) as [E|E]; rewrite E;
    eexists; repeat split.
Qed.

Lemma example_aggregates_witness :
  exists d,
    analytics_page partitioning_argsort (mkSidebar AllUsers false)
      (Some example_file) = Ok (Dashboard d)
    /\ avg_rating d = Some (Ok [(VStr "A", 7%Q); (VStr "B", 3%Q)])
    /\ max_rating d = Some (Ok [(VStr "A", 9%Z); (VStr "B", 3%Z)]).
Proof.
  apply (proj2 (proj2 example_aggregates) partitioning_argsort).
  exact SortFacts.partitioning_argsort_contract.
Defined.

(** ** The dashboard renders *)

Section Rendering.

Import pd.

Variable argsort : Series -> list nat.
Hypothesis argsort_ok : argsort_contract argsort.

Lemma traverse_total {A B : Type} (f : A -> outcome B) (l : list A) :
  Forall (fun x => exists y, f x = Ok y) l -> exists ys, traverse f l = Ok ys.
Proof.
  induction 1 as [|x l [y Hy] H [ys IH]]; simpl.
  - now exists [].
  - rewrite Hy, IH. simpl. now exists (y :: ys).
Qed.

Lemma distinct_values_In (s : Series) (v : value) :
  In v (distinct_values s) -> In v s.
Proof.
  revert v; induction s as [|u s IH]; intros v; simpl; [tauto|].
  intros [->|H]; [now left|]. right. apply IH.
  now apply filter_In in H as [H _].
Qed.

Lemma replace_nth_other {A : Type} (j k : nat) (l : list A) (x d : A) :
  j <> k -> nth k (replace_nth j l x) d = nth k l d.
Proof.
  revert j k; induction l as [|y l IH]; intros [|j] [|k] H; simpl;
    try reflexivity; try lia.
  apply IH. lia.
Qed.

Lemma set_column_In (j : nat) (m : list (list value)) (s : Series)
    (r' : list value) :
  In r' (set_column j m s) -> exists r x, In r m /\ r' = replace_nth j r x.
Proof.
  unfold set_column. intros H. apply in_map_iff in H as [[r x] [<- H]].
  exists r, x. split; [|reflexivity]. now apply in_combine_l in H.
Qed.

Lemma take_In {A : Type} (d : A) (idx : list nat) (l : list A) (x : A) :
  Permutation idx (seq 0 (length l)) -> In x (take d idx l) -> In x l.
Proof.
  intros Hperm H. unfold take in H. apply in_map_iff in H as [i [<- Hi]].
  apply nth_In. now apply (SortFacts.permutation_in_range idx _ i Hperm).
Qed.

(** On a table of the four labels with at least one row, every row
    chartable, the page shows the dashboard under every argsort of the
    contract, for all users and for the first user of the select box. *)
Lemma dashboard_renders (ui : sidebar) (fs : filesystem) (t : DataFrame) :
  load_data fs = Ok t ->
  columns t = COLUMNS ->
  rows t <> [] ->
  Forall chartable (rows t) ->
  default_view ui ->
  exists d, analytics_page argsort ui fs = Ok (Dashboard d).
Proof.
  intros Hload Hcols Hrows Hchart Hview.
  pose proof (load_data_well_formed _ _ Hload) as [_ Hrect].
  rewrite Hcols in Hrect. change (length COLUMNS) with 4 in Hrect.
  unfold analytics_page. rewrite Hload. cbn [bind].
  replace (pd.empty t) with false
    by (unfold pd.empty; rewrite Hcols; destruct (rows t); [congruence|reflexivity]).
  (* lines 94-96 *)
  destruct (traverse_total to_datetime_cell (column_at VNaN 1 (rows t)))
    as [parsed Hparsed].
  { apply column_Forall. eapply Forall_impl; [|exact Hchart]. now intros r [_ H]. }
  pose proof (PageFacts.Forall2_length_eq _ _ _
                (PageFacts.traverse_Forall2 _ _ _ Hparsed)) as Hlen.
  rewrite column_at_length in Hlen.
  set (m := set_column 1 (rows t) parsed).
  assert (Hm : length m = length (rows t))
    by (apply set_column_length; now symmetry).
  assert (Hkeys : column_at VNaN 1 m = parsed)
    by (apply (column_set_column 4); trivial; [lia|now symmetry]).
  destruct (argsort_ok parsed) as [Hperm _].
  assert (Hperm' : Permutation (argsort parsed) (seq 0 (length m)))
    by now rewrite Hm, Hlen.
  set (df := mkDataFrame COLUMNS (take [] (argsort parsed) m)).
  assert (Hsorted : sorted_by_date argsort t = Ok df).
  { unfold sorted_by_date, getitem. rewrite Hcols. simpl index_of.
    cbn [bind]. unfold to_datetime. rewrite Hparsed. cbn [bind].
    unfold setitem. rewrite Hcols. simpl index_of.
    rewrite <- Hlen, Nat.eqb_refl. cbn [bind].
    unfold sort_values, getitem. cbn [columns rows]. simpl index_of.
    cbn [bind]. fold m. now rewrite Hkeys. }
  rewrite Hsorted. cbn [bind].
  (* the names are determined *)
  assert (Hdet : forallb determined (column_at VNaN 0 (rows df)) = true).
  { apply column_forallb. apply Forall_forall. intros r' Hr'.
    apply (take_In [] _ _ _ Hperm') in Hr'.
    apply set_column_In in Hr' as [r [x [Hr ->]]].
    rewrite replace_nth_other by lia.
    rewrite Forall_forall in Hchart. now apply Hchart. }
  assert (Hne : column_at VNaN 0 (rows df) <> []).
  { intros E. apply (f_equal (@length value)) in E.
    rewrite column_at_length in E. cbn [rows df] in E. unfold take in E.
    rewrite length_map, (Permutation_length Hperm'), length_seq, Hm in E.
    destruct (rows t); [congruence|discriminate E]. }
  change (getitem df "Name") with (Ok (column_at VNaN 0 (rows df))).
  cbn [bind]. unfold unique. rewrite Hdet. cbn [bind].
  set (names := column_at VNaN 0 (rows df)) in *.
  assert (Hsel : exists selected,
             match view ui with
             | AllUsers => Ok (distinct_values names)
             | SelectUser choice =>
                 match nth_error (distinct_values names) choice with
                 | Some selected_user => Ok [selected_user]
                 | None => Unmodelled
                 end
             end = Ok selected
             /\ forallb determined selected = true).
  { rewrite forallb_forall in Hdet. unfold default_view in Hview.
    destruct (view ui) as [|choice].
    - exists (distinct_values names). split; [reflexivity|].
      apply forallb_forall. intros v Hv. now apply Hdet, distinct_values_In.
    - subst choice. destruct names as [|v names'] eqn:E; [congruence|].
      exists [v]. split; [reflexivity|]. simpl. rewrite (Hdet v); [reflexivity|].
      now left. }
  destruct Hsel as [selected [-> Hseldet]]. cbn [bind].
  unfold isin. rewrite Hdet, Hseldet. cbn [andb bind].
  set (mask := map (fun v => existsb (value_eqb v) selected) names).
  (* the chart *)
  destruct (traverse_total (chart_series (getitem_mask df mask)) selected)
    as [points Hpoints].
  { apply Forall_forall. intros u Hu. unfold chart_series.
    change (getitem (getitem_mask df mask) "Name")
      with (Ok (column_at VNaN 0 (select (rows df) mask))).
    cbn [bind]. unfold eq.
    replace (forallb determined (column_at VNaN 0 (select (rows df) mask)))
      with true.
    - rewrite forallb_forall in Hseldet. rewrite (Hseldet u Hu). cbn [andb bind].
      eexists. reflexivity.
    - symmetry. rewrite SortFacts.column_at_select. apply forallb_forall.
      intros v Hv. apply SortFacts.select_In in Hv.
      rewrite forallb_forall in Hdet. now apply Hdet. }
  rewrite Hpoints. cbn [bind].
  change (getitem_labels (getitem_mask df mask) COLUMNS)
    with (Ok (mkDataFrame COLUMNS
                (map (fun r => map (fun j => nth j r VNaN) [0; 1; 2; 3])
                     (select (rows df) mask)))).
  cbn [bind]. eexists. reflexivity.
Qed.

End Rendering.

(** ** From the form to the dashboard *)

Lemma plain_record (f : form) :
  plain_form f -> rating_row (record f) = true /\ chartable (record f).
Proof.
  intros (_ & Hname & Hnote & Hscale & Hdate). split.
  - now apply record_rating_row.
  - split; [reflexivity|]. exists (VTimestamp (rating_date f)).
    change (nth 1 (record f) VNaN) with (VStr (Date.isoformat (rating_date f))).
    unfold pd.to_datetime_cell. now rewrite DateFacts.parse_isoformat.
Qed.

(** Plain forms submitted one after the other are on file in that order. *)
Lemma submissions_append (forms : list form) (fs : filesystem) (t : DataFrame) :
  load_data fs = Ok t ->
  columns t = COLUMNS ->
  Forall (fun r => rating_row r = true) (rows t) ->
  Forall plain_form forms ->
  exists fs',
    submissions fs forms = Ok fs'
    /\ load_data fs' = Ok (mkDataFrame COLUMNS (rows t ++ map record forms)).
Proof.
  revert fs t; induction forms as [|f forms IH];
    intros fs t Hload Hcols Hrows Hforms; simpl.
  - exists fs. split; [reflexivity|]. rewrite app_nil_r, <- Hcols.
    now destruct t.
  - inversion Hforms as [|? ? Hf Hrest]; subst.
    pose proof Hf as (Hsub & Hname & Hnote & Hscale & _).
    destruct (input_page_appends fs t f Hload Hcols Hrows Hsub Hname Hnote Hscale)
      as [Hrun Hread].
    rewrite Hrun. cbn [bind fst].
    destruct (IH (Some (pd.to_csv (mkDataFrame COLUMNS (rows t ++ [record f]))))
                _ Hread eq_refl) as [fs' [Hruns Hload']]; trivial.
    + cbn [rows]. apply Forall_app. split; [exact Hrows|].
      constructor; [|constructor]. now apply plain_record.
    + exists fs'. split; [exact Hruns|]. cbn [rows] in Hload'.
      now rewrite <- app_assoc in Hload'.
Qed.



(** * The script, the store and the dashboard *)

(** ** Navigation *)

Section ScriptFacts.

Variable argsort : Series -> list nat.

Lemma clicked_released (w : widgets) : clicked (release w) = false.
Proof. reflexivity. Qed.

Lemma initialize_page (s : st.session_state) :
  exists name, st.page (initialize s) = Some name.
Proof.
  unfold initialize. destruct (st.page s) as [name|] eqn:E.
  - now exists name.
  - now exists "Input".
Qed.

Lemma initialize_set (name : string) :
  initialize (st.mkSession (Some name)) = st.mkSession (Some name).
Proof. reflexivity. Qed.

(** A run with no navigation button clicked draws a page or fails; it does
    not ask for another run, and it keeps the session state it set up. *)
Lemma script_not_clicked (w : widgets) (s : st.session_state) (fs : filesystem)
    (r : run) :
  clicked w = false ->
  script argsort w s fs = Ok r ->
  exists fs' out,
    r = Shown (initialize s) fs' out
    /\ st.page (initialize s) = Some (target w s).
Proof.
  unfold clicked, script, main, create_navigation, target. intros Hc H.
  apply orb_false_elim in Hc as [Hc1 Hc2]. rewrite Hc1, Hc2 in H |- *.
  assert (Hpage : st.page (initialize s)
                  = Some match st.page s with
                         | Some name => name
                         | None => "Input"
                         end)
    by (unfold initialize; destruct (st.page s) eqn:E; [exact E|reflexivity]).
  rewrite Hpage in *. cbv beta iota in H.
  destruct (String.eqb _ "Input").
  - bind_inv H. injection H as <-. now eexists _, _.
  - bind_inv H. injection H as <-. now eexists _, _.
Qed.

Lemma script_clicked (w : widgets) (s : st.session_state) (fs : filesystem) :
  clicked w = true ->
  script argsort w s fs = Ok (Rerun (st.mkSession (Some (target w s)))).
Proof.
  unfold clicked, script, main, create_navigation, target. intros Hc.
  destruct (input_data_button w); [reflexivity|].
  destruct (view_analytics_button w); [reflexivity|discriminate Hc].
Qed.

Lemma target_released (w : widgets) (name : string) :
  target (release w) (st.mkSession (Some name)) = name.
Proof. reflexivity. Qed.

(** Two runs are enough: whatever is clicked and whatever the session holds,
    the runner does not end on a pending rerun once it may run twice, more
    fuel changes nothing, and a page that is drawn is the page whose button
    was clicked, else the page of the session state, else the input page;
    the session state remembers it. *)
Theorem navigation_settles (n : nat) (w : widgets) (s : st.session_state)
    (fs : filesystem) :
  script_runner argsort (2 + n) w s fs = script_runner argsort 2 w s fs
  /\ (forall r, script_runner argsort 2 w s fs = Ok r ->
        exists s' fs' out,
          r = Shown s' fs' out /\ st.page s' = Some (target w s)).
Proof.
  destruct (clicked w) eqn:Hc.
  - assert (Hrun : forall k,
              script_runner argsort (2 + k) w s fs
              = script argsort (release w) (st.mkSession (Some (target w s))) fs).
    { intros k. cbn [script_runner Nat.add]. rewrite (script_clicked w s fs Hc).
      cbn [bind].
      destruct (script argsort (release w) _ fs) as [r| |] eqn:E; try reflexivity.
      destruct (script_not_clicked _ _ _ _ (clicked_released w) E) as (fs' & out & -> & _).
      reflexivity. }
    split.
    + change 2 with (2 + 0) at 2. now rewrite (Hrun n), (Hrun 0).
    + intros r Hr. change 2 with (2 + 0) in Hr. rewrite (Hrun 0) in Hr.
      destruct (script_not_clicked _ _ _ _ (clicked_released w) Hr) as (fs' & out & -> & Hp).
      rewrite target_released in Hp. now eexists _, _, _.
  - assert (Hrun : forall k,
              script_runner argsort (1 + k) w s fs = script argsort w s fs).
    { intros k. cbn [script_runner Nat.add].
      destruct (script argsort w s fs) as [r| |] eqn:E; try reflexivity.
      destruct (script_not_clicked _ _ _ _ Hc E) as (fs' & out & -> & _).
      reflexivity. }
    split.
    + change (2 + n) with (1 + (1 + n)). change 2 with (1 + 1).
      now rewrite (Hrun (1 + n)), (Hrun 1).
    + intros r Hr. change 2 with (1 + 1) in Hr. rewrite (Hrun 1) in Hr.
      destruct (script_not_clicked _ _ _ _ Hc Hr) as (fs' & out & -> & Hp).
      now eexists _, _, _.
Qed.

(** The file changes only through the form: if the runner draws a page over
    another file than it started from, no navigation button was clicked, the
    page is the input page, its submit button was pressed and the name is
    not empty. *)
Theorem only_a_submission_writes (fuel : nat) (w : widgets)
    (s s' : st.session_state) (fs fs' : filesystem) (out : screen) :
  script_runner argsort fuel w s fs = Ok (Shown s' fs' out) ->
  fs' <> fs ->
  clicked w = false
  /\ target w s = "Input"
  /\ submit_button (rating_form w) = true
  /\ Text.is_empty (user_name (rating_form w)) = false.
Proof.
  assert (Hone : forall v t r,
            clicked v = false ->
            script argsort v t fs = Ok r ->
            forall t' out', r = Shown t' fs' out' -> fs' <> fs ->
            target v t = "Input"
            /\ submit_button (rating_form v) = true
            /\ Text.is_empty (user_name (rating_form v)) = false).
  { intros v t r Hc Hr t' out' -> Hfs.
    destruct (script_not_clicked _ _ _ _ Hc Hr) as (fs1 & out1 & E & Hp).
    unfold script, main in Hr. unfold clicked in Hc.
    apply orb_false_elim in Hc as [Hc1 Hc2].
    unfold create_navigation in Hr. rewrite Hc1, Hc2, Hp in Hr.
    destruct (String.eqb (target v t) "Input") eqn:Ht.
    - apply String.eqb_eq in Ht. split; [exact Ht|].
      unfold input_page in Hr.
      destruct (submit_button (rating_form v)).
      + destruct (Text.is_empty (user_name (rating_form v))); [|now split].
        cbn [bind fst] in Hr. injection Hr as _ Hfs' _. congruence.
      + cbn [bind fst] in Hr. injection Hr as _ Hfs' _. congruence.
    - bind_inv Hr. injection Hr as _ Hfs' _. congruence. }
  intros Hrun Hfs. destruct fuel as [|fuel]; [discriminate Hrun|].
  cbn [script_runner] in Hrun. bind_inv Hrun.
  destruct (clicked w) eqn:Hc.
  - exfalso. rewrite (script_clicked w s fs Hc) in E. injection E as <-.
    destruct fuel as [|fuel]; [discriminate Hrun|].
    cbn [script_runner] in Hrun. bind_inv Hrun.
    destruct (script_not_clicked _ _ _ _ (clicked_released w) E) as (fs1 & out1 & -> & _).
    injection Hrun as ? ? ?; subst.
    destruct (Hone _ _ _ (clicked_released w) E _ _ eq_refl Hfs) as (_ & Hsub & _).
    discriminate Hsub.
  - split; [reflexivity|].
    destruct (script_not_clicked _ _ _ _ Hc E) as (fs1 & out1 & -> & _).
    injection Hrun as ? ? ?; subst. now apply (Hone w s _ Hc E _ _ eq_refl).
Qed.

End ScriptFacts.

Lemma navigation_settles_witness :
  exists s' fs' out,
    Shown (st.mkSession (Some "Analytics")) (Some one_rating_file)
      (AnalyticsScreen
         (Dashboard
            (mkDashboard [VStr "Bo"] None
               [(VStr "Bo", [(VTimestamp (mkDate 2024 1 3), VInt 7)])]
               (mkDataFrame COLUMNS
                  [[VStr "Bo"; VTimestamp (mkDate 2024 1 3); VInt 7; VStr "fine"]])
               (Some (Ok [(VStr "Bo", 7%Q)]))
               (Some (Ok [(VStr "Bo", 7%Z)])))))
    = Shown s' fs' out
    /\ st.page s'
       = Some (target
                 (mkWidgets false true
                    (mkForm "Al" (mkDate 2024 1 5) 5 "ok" true)
                    (mkSidebar AllUsers true))
                 (st.mkSession None)).
Proof.
  apply (proj2 (navigation_settles stable_argsort 0
                  (mkWidgets false true
                     (mkForm "Al" (mkDate 2024 1 5) 5 "ok" true)
                     (mkSidebar AllUsers true))
                  (st.mkSession None) (Some one_rating_file))).
  reflexivity.
Defined.

Lemma only_a_submission_writes_witness :
  clicked (mkWidgets false false (mkForm "Al" (mkDate 2024 1 5) 5 "ok" true)
             (mkSidebar AllUsers false)) = false
  /\ target (mkWidgets false false (mkForm "Al" (mkDate 2024 1 5) 5 "ok" true)
               (mkSidebar AllUsers false)) (st.mkSession None) = "Input"
  /\ submit_button (mkForm "Al" (mkDate 2024 1 5) 5 "ok" true) = true
  /\ Text.is_empty (user_name (mkForm "Al" (mkDate 2024 1 5) 5 "ok" true)) = false.
Proof.
  apply (only_a_submission_writes stable_argsort 1
           (mkWidgets false false (mkForm "Al" (mkDate 2024 1 5) 5 "ok" true)
              (mkSidebar AllUsers false))
           (st.mkSession None) (st.mkSession (Some "Input")) None
           (Some (mkCsv COLUMNS [record_line (mkForm "Al" (mkDate 2024 1 5) 5 "ok" true)]))
           (InputScreen [st_success "Your rating has been recorded successfully!"])).
  - reflexivity.
  - discriminate.
Defined.

(** ** What a submission leaves on file *)

Lemma map_with_column_length_rows {A B : Type} (d : A) (f : list A -> A -> B)
    (m : list (list A)) :
  length (map_with_column d f m) = length m.
Proof. apply length_map. Qed.

Lemma load_data_lines (fs : filesystem) (t : DataFrame) :
  load_data fs = Ok t -> length (rows t) = length (lines_of fs).
Proof.
  destruct fs as [file|]; simpl.
  - intros H. apply CsvFacts.read_csv_columns in H as (_ & -> & _).
    apply length_map.
  - now intros [= <-].
Qed.

(** What [input_page] writes on a file of ratings when the form is
    submitted with a name: the lines of before, read and printed again, and
    the form's line after them. *)
Lemma input_page_writes (f : form) (fs : filesystem) :
  ratings_file fs -> slider_ok f ->
  submit_button f = true ->
  Text.is_empty (user_name f) = false ->
  exists file',
    input_page f fs
    = Ok (Some file', [st_success "Your rating has been recorded successfully!"])
    /\ header file' = COLUMNS
    /\ ratings_file (Some file')
    /\ length (lines file') = S (length (lines_of fs))
    /\ nth_error (lines file') (length (lines_of fs)) = Some (record_line f).
Proof.
  intros Hfs Hf Hsub Hname.
  destruct (input_page_ratings_file f fs Hfs Hf) as (fs' & msg & Hrun & Hfs').
  destruct (load_ratings_file fs Hfs) as (df & Hload & Hcols & Hrows).
  pose proof (load_data_lines fs df Hload) as Hlen.
  unfold input_page in Hrun |- *. rewrite Hsub, Hname, Hload in *.
  cbn [bind] in Hrun |- *. unfold pd.concat in Hrun |- *. rewrite Hcols in *.
  change (columns (new_entry f)) with COLUMNS in *.
  change (rows (new_entry f)) with [record f] in *.
  change (list_eqb String.eqb COLUMNS COLUMNS) with true in *.
  cbv iota in Hrun |- *. cbn [bind] in Hrun |- *.
  injection Hrun as <- _. eexists. split; [reflexivity|].
  split; [reflexivity|]. split; [exact Hfs'|].
  cbn [lines pd.to_csv save_data rows].
  split.
  - rewrite length_map, map_with_column_length_rows, length_app. simpl. lia.
  - unfold map_with_column. rewrite !nth_error_map, <- Hlen.
    rewrite nth_error_app2, Nat.sub_diag by lia. cbn [nth_error option_map].
    assert (Hcol : Forall scale_cell
                     (column_at VNaN 2 (rows df ++ [record f]))).
    { apply column_Forall. apply Forall_app. split.
      - eapply Forall_impl; [|exact Hrows]. now intros r [_ H].
      - constructor; [|constructor]. now exists (rating_scale f). }
    set (m := rows df ++ [record f]) in *.
    unfold record, record_line. cbn [mapi_from map pd.print_cell pd.upcast].
    replace (existsb pd.is_open (column_at VNaN 2 m)) with false;
      [reflexivity|].
    symmetry. apply not_true_is_false. intros Ho.
    apply existsb_exists in Ho as [v [Hv Hopen]].
    rewrite Forall_forall in Hcol. destruct (Hcol v Hv) as [z' [-> _]].
    discriminate.
Qed.

(** Saving a table that was loaded, all its cells determined, and loading
    again gives the same table: what [read_csv] has made of a file is what it
    makes of the file [to_csv] writes from it. *)
Theorem reload_is_stable (fs fs0 : filesystem) (t : DataFrame) :
  load_data fs = Ok t ->
  determined_table t ->
  load_data (save_data t fs0) = Ok t.
Proof.
  intros Hload Hdet. simpl. apply CsvFacts.read_to_csv_stable.
  - now apply (load_data_well_formed fs).
  - intros j Hj. now apply (ExportFacts.load_data_stable fs).
Qed.

Lemma reload_is_stable_witness :
  load_data (save_data (mkDataFrame COLUMNS
                          [[VStr "Al"; VStr "2024-01-05"; VInt 5; VNaN];
                           [VStr "7"; VStr "2024-01-06"; VInt 10; VNaN]])
                       None)
  = Ok (mkDataFrame COLUMNS
          [[VStr "Al"; VStr "2024-01-05"; VInt 5; VNaN];
           [VStr "7"; VStr "2024-01-06"; VInt 10; VNaN]]).
Proof.
  apply (reload_is_stable
           (Some (mkCsv COLUMNS
                    [[FText "Al"; FText "2024-01-05"; FText "5"; FText EmptyString];
                     [FText "7"; FText "2024-01-06"; FText "10"; FText "NA"]]))).
  - reflexivity.
  - repeat constructor.
Defined.





(** The date goes into the file as text (line 70) and the dashboard parses
    the text (line 95): for every date a timestamp can hold, parsing the
    Date column of the form's entry gives that date back. *)
Theorem entered_date_is_parsed_back (f : form) :
  Date.valid (rating_date f) = true ->
  exists dates,
    pd.getitem (new_entry f) "Date" = Ok dates
    /\ pd.to_datetime dates = Ok [VTimestamp (rating_date f)].
Proof.
  intros Hv. exists [VStr (Date.isoformat (rating_date f))].
  split; [reflexivity|]. unfold pd.to_datetime. cbn [pd.traverse].
  unfold pd.to_datetime_cell. now rewrite DateFacts.parse_isoformat.
Qed.

Lemma entered_date_is_parsed_back_witness :
  exists dates,
    pd.getitem (new_entry (mkForm "Al" (mkDate 2024 2 29) 5 "leap" true)) "Date"
    = Ok dates
    /\ pd.to_datetime dates = Ok [VTimestamp (mkDate 2024 2 29)].
Proof.
  apply (entered_date_is_parsed_back
           (mkForm "Al" (mkDate 2024 2 29) 5 "leap" true)).
  reflexivity.
Defined.

(** ** The users, the chart and the table *)

Lemma value_eqb_eq (u v : value) : value_eqb u v = true <-> u = v.
Proof.
  destruct u as [a|a| |a| |], v as [b|b| |b| |]; simpl;
    try (split; [discriminate|congruence]); try tauto.
  - rewrite String.eqb_eq. split; congruence.
  - rewrite Z.eqb_eq. split; congruence.
  - destruct a as [y m dd], b as [y' m' dd']. cbn [year month day].
    rewrite !andb_true_iff, !N.eqb_eq. split.
    + now intros [[-> ->] ->].
    + intros [= -> -> ->]. tauto.
Qed.

Lemma value_eqb_refl (v : value) : value_eqb v v = true.
Proof. now apply value_eqb_eq. Qed.

Lemma distinct_values_complete (s : Series) (v : value) :
  In v s -> In v (pd.distinct_values s).
Proof.
  induction s as [|u s IH]; simpl; [tauto|].
  intros [->|H]; [now left|].
  destruct (value_eqb u v) eqn:E.
  - left. now apply value_eqb_eq.
  - right. apply filter_In. split; [now apply IH|]. now rewrite E.
Qed.

Lemma distinct_values_NoDup (s : Series) : NoDup (pd.distinct_values s).
Proof.
  induction s as [|u s IH]; simpl; constructor.
  - intros H. apply filter_In in H as [_ H].
    now rewrite value_eqb_refl in H.
  - now apply NoDup_filter.
Qed.

Lemma filter_permutation {A : Type} (p : A -> bool) (l l' : list A) :
  Permutation l l' -> Permutation (filter p l) (filter p l').
Proof.
  induction 1 as [|x l l' H IH|x y l|l l' l'' H IH H' IH']; simpl.
  - constructor.
  - destruct (p x); [now constructor|exact IH].
  - destruct (p x), (p y); try reflexivity. apply perm_swap.
  - now transitivity (filter p l').
Qed.

Lemma filter_map_commute {A B : Type} (f : A -> B) (p : B -> bool) (l : list A) :
  filter p (map f l) = map f (filter (fun x => p (f x)) l).
Proof.
  induction l as [|x l IH]; simpl; [reflexivity|].
  rewrite IH. now destruct (p (f x)).
Qed.

Lemma combine_map {A B C : Type} (f : A -> B) (g : A -> C) (l : list A) :
  combine (map f l) (map g l) = map (fun x => (f x, g x)) l.
Proof. induction l as [|x l IH]; simpl; [reflexivity|now rewrite IH]. Qed.

Lemma indices_of_four (names : list string) (js : list nat) :
  pd.indices_of COLUMNS names = Ok js ->
  exists j0 j1 j2 j3,
    js = [j0; j1; j2; j3]
    /\ index_of "Name" names = Some j0 /\ index_of "Date" names = Some j1
    /\ index_of "Scale" names = Some j2 /\ index_of "Note" names = Some j3.
Proof.
  unfold COLUMNS. simpl.
  destruct (index_of "Name" names) as [j0|]; [|discriminate].
  destruct (index_of "Date" names) as [j1|]; [|discriminate].
  destruct (index_of "Scale" names) as [j2|]; [|discriminate].
  destruct (index_of "Note" names) as [j3|]; [|discriminate].
  simpl. intros [= <-]. now exists j0, j1, j2, j3.
Qed.

Section DashboardFacts.

Import pd.

Variable argsort : Series -> list nat.
Hypothesis argsort_ok : argsort_contract argsort.

(** Lines 94-96 on a loaded table: the rows reordered, and nothing but the
    dates changed, each into the timestamp that prints as its text. *)
Lemma sorted_by_date_rows (fs : filesystem) (t df : DataFrame) :
  load_data fs = Ok t ->
  sorted_by_date argsort t = Ok df ->
  exists idx,
    Permutation idx (seq 0 (length (rows t)))
    /\ columns df = columns t
    /\ map (map date_text) (rows df) = take [] idx (rows t).
Proof.
  intros Hload Hsorted.
  pose proof (load_data_well_formed _ _ Hload) as Hwf.
  destruct (sorted_by_date_inv argsort argsort_ok t df Hwf Hsorted)
    as (j & parsed & idx & Hj & Hparsed & Hperm & Hcols & Hrows & _ & _).
  pose proof (PageFacts.Forall2_length_eq _ _ _ Hparsed) as Hlen.
  assert (Hperm1 : Permutation idx (seq 0 (length (set_column j (rows t) parsed)))).
  { rewrite set_column_length by now symmetry. exact Hperm. }
  exists idx. repeat split; trivial. rewrite Hrows.
  rewrite <- (SortFacts.take_map [] [] (map date_text))
    by (intros i Hi; now apply (SortFacts.permutation_in_range idx _ i Hperm1)).
  rewrite ExportFacts.date_text_set_column; trivial.
  now apply (ExportFacts.load_data_loaded fs).
Qed.

(** What a run that shows the dashboard has computed, the filter written
    out: the users are the distinct names or the one picked, the rows shown
    are the rows of the sorted table whose Name is among them, and the
    chart, the table and the statistics are made of those rows. *)
Lemma dashboard_parts (ui : sidebar) (fs : filesystem) (d : dashboard) :
  analytics_page argsort ui fs = Ok (Dashboard d) ->
  exists t df j0 j1 j2 j3,
    load_data fs = Ok t
    /\ rows t <> []
    /\ sorted_by_date argsort t = Ok df
    /\ indices_of COLUMNS (columns df) = Ok [j0; j1; j2; j3]
    /\ forallb determined (column_at VNaN j0 (rows df)) = true
    /\ match view ui with
       | AllUsers =>
           selected_users d = distinct_values (column_at VNaN j0 (rows df))
       | SelectUser choice =>
           nth_error (distinct_values (column_at VNaN j0 (rows df))) choice
           = Some (hd VNaN (selected_users d))
           /\ selected_users d = [hd VNaN (selected_users d)]
       end
    /\ let shown :=
         mkDataFrame (columns df)
           (filter (identity_in (selected_users d) j0) (rows df)) in
       traverse (chart_series shown) (selected_users d) = Ok (chart d)
       /\ data_table d
          = mkDataFrame COLUMNS
              (map (fun r => map (fun j => nth j r VNaN) [j0; j1; j2; j3])
                   (rows shown))
       /\ avg_rating d
          = (if empty shown then None
             else Some (groupby_mean shown "Name" "Scale"))
       /\ max_rating d
          = (if empty shown then None
             else Some (groupby_max shown "Name" "Scale")).
Proof.
  intros H. unfold analytics_page in H.
  bind_inv H. rename x into t.
  destruct (pd.empty t) eqn:Hempty; [discriminate H|].
  bind_inv H. rename x into df.
  bind_inv H. rename x into names.
  bind_inv H. rename x into user_names.
  bind_inv H. rename x into selected.
  bind_inv H. rename x into mask.
  bind_inv H. rename x into points.
  bind_inv H. rename x into table.
  injection H as <-.
  cbn [selected_users download chart data_table avg_rating max_rating].
  unfold getitem_labels in E6. bind_inv E6. injection E6 as <-.
  cbn [columns getitem_mask] in E7.
  destruct (indices_of_four _ _ E7) as (j0 & j1 & j2 & j3 & -> & Hj0 & _).
  unfold getitem in E1. rewrite Hj0 in E1. injection E1 as <-.
  unfold unique in E2.
  destruct (forallb determined (column_at VNaN j0 (rows df))) eqn:Hdet;
    [|discriminate E2].
  injection E2 as <-.
  unfold isin in E4. rewrite Hdet in E4.
  destruct (forallb determined selected); [|discriminate E4].
  injection E4 as <-.
  assert (Hmask : getitem_mask df
                    (map (fun v => existsb (value_eqb v) selected)
                         (column_at VNaN j0 (rows df)))
                  = mkDataFrame (columns df)
                      (filter (identity_in selected j0) (rows df))).
  { unfold getitem_mask. f_equal. unfold column_at. rewrite map_map.
    apply (select_map_filter (identity_in selected j0)). }
  rewrite Hmask in *.
  exists t, df, j0, j1, j2, j3. repeat split; trivial.
  - intros Hnil. unfold pd.empty in Hempty. rewrite Hnil in Hempty.
    discriminate Hempty.
  - destruct (view ui) as [|choice].
    + now injection E3 as <-.
    + destruct (nth_error _ choice) as [u|]; [|discriminate E3].
      injection E3 as <-. now split.
  - cbn [rows]. do 2 f_equal. unfold column_at. rewrite map_map.
    apply (select_map_filter (identity_in selected j0)).
  - now destruct (empty (mkDataFrame _ _)).
  - now destruct (empty (mkDataFrame _ _)).
Qed.

End DashboardFacts.

(** The users of a dashboard are names of its sorted table, none twice. *)
Lemma selected_among_names (ui : sidebar) (names : Series) (selected : list value) :
  match view ui with
  | AllUsers => selected = pd.distinct_values names
  | SelectUser choice =>
      nth_error (pd.distinct_values names) choice = Some (hd VNaN selected)
      /\ selected = [hd VNaN selected]
  end ->
  NoDup selected
  /\ (forall u, In u selected -> In u names)
  /\ (names <> [] -> selected <> []).
Proof.
  destruct (view ui) as [|choice].
  - intros ->. repeat split.
    + apply distinct_values_NoDup.
    + intros u. apply distinct_values_In.
    + destruct names; [congruence|discriminate].
  - intros [Hnth ->]. repeat split.
    + constructor; [intros []|constructor].
    + intros u [<-|[]]. apply distinct_values_In. now apply nth_error_In in Hnth.
    + discriminate.
Qed.

Lemma chart_series_user (filtered_df : DataFrame) (user : value)
    (series : value * list (value * value)) :
  chart_series filtered_df user = Ok series -> fst series = user.
Proof.
  unfold chart_series. intros H.
  bind_inv H. bind_inv H. bind_inv H. bind_inv H. now injection H as <-.
Qed.

(** Every selected user has a row in the table shown. *)
Lemma selected_user_shown (argsort : Series -> list nat) (ui : sidebar)
    (fs : filesystem) (d : dashboard) (u : value) :
  analytics_page argsort ui fs = Ok (Dashboard d) ->
  In u (selected_users d) ->
  exists r, In r (rows (data_table d)) /\ nth 0 r VNaN = u.
Proof.
  intros Hpage Hu.
  destruct (dashboard_parts argsort ui fs d Hpage)
    as (t & df & j0 & j1 & j2 & j3 & _ & _ & _ & _ & _ & Hsel & _ & Htable & _).
  destruct (selected_among_names ui _ _ Hsel) as (_ & Hnames & _).
  cbn [rows] in Htable. rewrite Htable. cbn [rows].
  apply Hnames in Hu as Hin. unfold column_at in Hin.
  apply in_map_iff in Hin as [r [Hr Hin]].
  exists (map (fun j => nth j r VNaN) [j0; j1; j2; j3]).
  split; [|exact Hr].
  apply (in_map (fun r0 => map (fun j => nth j r0 VNaN) [j0; j1; j2; j3])).
  apply filter_In. split; [exact Hin|].
  unfold identity_in. apply existsb_exists. exists u.
  split; [exact Hu|]. rewrite Hr. apply value_eqb_refl.
Qed.

(** The chart has one series per selected user, in their order and no user
    twice, and the selected users are exactly the names in the table
    shown. *)
Theorem names_shown_are_the_selected (argsort : Series -> list nat)
    (ui : sidebar) (fs : filesystem) (d : dashboard) :
  analytics_page argsort ui fs = Ok (Dashboard d) ->
  NoDup (selected_users d)
  /\ map fst (chart d) = selected_users d
  /\ (forall u, In u (selected_users d)
                <-> exists r, In r (rows (data_table d)) /\ nth 0 r VNaN = u).
Proof.
  intros Hpage.
  destruct (dashboard_parts argsort ui fs d Hpage)
    as (t & df & j0 & j1 & j2 & j3 & _ & _ & _ & _ & _ & Hsel & Hchart & Htable & _).
  destruct (selected_among_names ui _ _ Hsel) as (Hnodup & _ & _).
  split; [exact Hnodup|]. split.
  - apply PageFacts.traverse_Forall2 in Hchart.
    induction Hchart as [|u series us ss Hu _ IH]; [reflexivity|].
    simpl. now rewrite IH, (chart_series_user _ _ _ Hu).
  - intros u. split.
    + now apply (selected_user_shown argsort ui fs).
    + cbn [rows] in Htable. rewrite Htable. cbn [rows].
      intros [r [Hr <-]]. apply in_map_iff in Hr as [r' [<- Hr']].
      apply filter_In in Hr' as [_ Hr']. unfold identity_in in Hr'.
      apply existsb_exists in Hr' as [x [Hx Heq]].
      apply value_eqb_eq in Heq. cbn [map nth]. now rewrite Heq.
Qed.

Lemma names_shown_are_the_selected_witness :
  NoDup [VStr "A"; VStr "B"]
  /\ map fst (chart example_dashboard) = [VStr "A"; VStr "B"]
  /\ (forall u, In u [VStr "A"; VStr "B"]
                <-> exists r, In r (rows (data_table example_dashboard))
                              /\ nth 0 r VNaN = u).
Proof.
  apply (names_shown_are_the_selected stable_argsort (mkSidebar AllUsers false)
           (Some example_file) example_dashboard).
  reflexivity.
Defined.

(** The chart is drawn from the rows of the table shown: the points of a
    user are the Date and the Scale of the rows shown whose Name equals the
    user, in the table's order.  No Name equals the missing value, so the
    series of a missing name has no point, though its rows are in the
    table. *)
Theorem chart_reads_the_table_shown (argsort : Series -> list nat)
    (ui : sidebar) (fs : filesystem) (d : dashboard) (u : value)
    (points : list (value * value)) :
  analytics_page argsort ui fs = Ok (Dashboard d) ->
  In (u, points) (chart d) ->
  In u (selected_users d)
  /\ points = map (fun r => (nth 1 r VNaN, nth 2 r VNaN))
                (filter (fun r => pd.eq_scalar (nth 0 r VNaN) u)
                        (rows (data_table d)))
  /\ (u = VNaN -> points = []).
Proof.
  intros Hpage Hin.
  destruct (dashboard_parts argsort ui fs d Hpage)
    as (t & df & j0 & j1 & j2 & j3 & _ & _ & _ & Hjs & _ & _ & Hchart & Htable & _).
  destruct (indices_of_four _ _ Hjs) as (? & ? & ? & ? & [= <- <- <- <-] & Hj0 & Hj1 & Hj2 & _).
  destruct (PageFacts.traverse_In _ _ _ _ Hchart Hin) as [x [Hx Hseries]].
  assert (Hpoints : x = u
            /\ points = map (fun r => (nth 1 r VNaN, nth 2 r VNaN))
                          (filter (fun r => pd.eq_scalar (nth 0 r VNaN) x)
                                  (rows (data_table d)))).
  { unfold chart_series, pd.getitem in Hseries.
    cbn [columns rows pd.getitem_mask] in Hseries. rewrite Hj0, Hj1, Hj2 in Hseries.
    cbn [bind] in Hseries. cbv beta in Hseries.
    bind_inv Hseries. unfold pd.eq in E.
    destruct (_ && _); [|discriminate E]. injection E as <-.
    injection Hseries as Hu <-. split; [exact Hu|].
    rewrite Htable. cbn [rows].
    rewrite filter_map_commute, map_map. cbn [map nth].
    unfold column_at. rewrite !map_map.
    rewrite (select_map_filter (fun r => pd.eq_scalar (nth j0 r VNaN) x)).
    apply combine_map. }
  destruct Hpoints as [-> Hpoints]. repeat split; trivial.
  intros ->. rewrite Hpoints. clear.
  induction (rows (data_table d)) as [|r m IH]; [reflexivity|].
  simpl. now replace (pd.eq_scalar (nth 0 r VNaN) VNaN) with false
    by now destruct (nth 0 r VNaN).
Qed.

Lemma chart_reads_the_table_shown_witness :
  In (VStr "A") (selected_users example_dashboard)
  /\ [ (VTimestamp (mkDate 2024 1 1), VInt 5);
       (VTimestamp (mkDate 2024 1 2), VInt 9) ]
     = map (fun r => (nth 1 r VNaN, nth 2 r VNaN))
         (filter (fun r => pd.eq_scalar (nth 0 r VNaN) (VStr "A"))
                 (rows (data_table example_dashboard)))
  /\ (VStr "A" = VNaN ->
      [ (VTimestamp (mkDate 2024 1 1), VInt 5);
        (VTimestamp (mkDate 2024 1 2), VInt 9) ] = []).
Proof.
  apply (chart_reads_the_table_shown stable_argsort (mkSidebar AllUsers false)
           (Some example_file) example_dashboard).
  - reflexivity.
  - left. reflexivity.
Defined.

Lemma loaded_date_text (v : value) : loaded v = true -> date_text v = v.
Proof. now destruct v. Qed.

Lemma map_filter_invariant {A : Type} (f : A -> A) (p : A -> bool) (l : list A) :
  (forall x, In x l -> p (f x) = p x) ->
  map f (filter p l) = filter p (map f l).
Proof.
  induction l as [|x l IH]; intros H; simpl; [reflexivity|].
  rewrite (H x (or_introl eq_refl)).
  destruct (p x); simpl; rewrite IH; trivial; intros y Hy; apply H; now right.
Qed.

Lemma four_cells (r : list value) :
  length r = 4 -> map (fun j => nth j r VNaN) [0; 1; 2; 3] = r.
Proof.
  destruct r as [|a [|b [|c [|e [|x r]]]]]; try discriminate. reflexivity.
Qed.

Section ShownRows.

Import pd.

Variable argsort : Series -> list nat.
Hypothesis argsort_ok : argsort_contract argsort.

(** Sorting by date touches the dates only: every row of the sorted table
    is a loaded row but for its date. *)
Lemma sorted_rows_cells (fs : filesystem) (t df : DataFrame) :
  load_data fs = Ok t ->
  sorted_by_date argsort t = Ok df ->
  exists j,
    index_of "Date" (columns t) = Some j
    /\ length (rows df) = length (rows t)
    /\ Forall (fun r => exists r0,
                 In r0 (rows t)
                 /\ forall k, k <> j ->
                      nth k r VNaN = nth k r0 VNaN
                      /\ date_text (nth k r VNaN) = nth k r VNaN)
              (rows df).
Proof.
  intros Hload Hsorted.
  pose proof (load_data_well_formed _ _ Hload) as Hwf.
  pose proof (ExportFacts.load_data_loaded _ _ Hload) as Hloaded.
  destruct (sorted_by_date_inv argsort argsort_ok t df Hwf Hsorted)
    as (j & parsed & idx & Hj & Hparsed & Hperm & Hcols & Hrows & _ & _).
  pose proof (PageFacts.Forall2_length_eq _ _ _ Hparsed) as Hlen.
  assert (Hperm1 : Permutation idx (seq 0 (length (set_column j (rows t) parsed)))).
  { rewrite set_column_length by now symmetry. exact Hperm. }
  exists j. split; [exact Hj|]. split.
  - rewrite Hrows. unfold take.
    now rewrite length_map, (Permutation_length Hperm), length_seq.
  - apply Forall_forall. intros r Hr. rewrite Hrows in Hr.
    apply (take_In [] _ _ _ Hperm1) in Hr.
    apply set_column_In in Hr as [r0 [x [Hr0 ->]]].
    exists r0. split; [exact Hr0|]. intros k Hk.
    rewrite replace_nth_other by congruence. split; [reflexivity|].
    apply loaded_date_text.
    rewrite Forall_forall in Hloaded. specialize (Hloaded r0 Hr0).
    destruct (Nat.lt_ge_cases k (length r0)) as [Hlt|Hge].
    + rewrite Forall_forall in Hloaded. apply Hloaded. now apply nth_In.
    + now rewrite nth_overflow.
Qed.

End ShownRows.

(** Where the dashboard is drawn there is a selected user and the table
    shown has a row. *)
Lemma table_shown_not_empty (argsort : Series -> list nat) (ui : sidebar)
    (fs : filesystem) (d : dashboard) :
  pd.argsort_contract argsort ->
  analytics_page argsort ui fs = Ok (Dashboard d) ->
  selected_users d <> [] /\ rows (data_table d) <> [].
Proof.
  intros Hargsort Hpage.
  destruct (dashboard_parts argsort ui fs d Hpage)
    as (t & df & j0 & j1 & j2 & j3 & Hload & Hne & Hsorted & _ & _ & Hsel & _).
  destruct (selected_among_names ui _ _ Hsel) as (_ & _ & Hsome).
  destruct (sorted_rows_cells argsort Hargsort fs t df Hload Hsorted)
    as (_ & _ & Hlen & _).
  assert (Husers : selected_users d <> []).
  { apply Hsome. intros E. apply (f_equal (@length value)) in E.
    rewrite column_at_length, Hlen in E. destruct (rows t); [congruence|discriminate E]. }
  split; [exact Husers|].
  destruct (selected_users d) as [|u us] eqn:Eu; [congruence|].
  destruct (selected_user_shown argsort ui fs d u Hpage) as [r [Hr _]].
  { rewrite Eu. now left. }
  intros E. rewrite E in Hr. destruct Hr.
Qed.

(** Line 157 asks whether the filtered table is empty; where the dashboard
    is drawn it never is: there is a selected user, the table shown has a
    row, and both statistics are computed. *)
Theorem statistics_always_shown (argsort : Series -> list nat) (ui : sidebar)
    (fs : filesystem) (d : dashboard) :
  pd.argsort_contract argsort ->
  analytics_page argsort ui fs = Ok (Dashboard d) ->
  selected_users d <> []
  /\ rows (data_table d) <> []
  /\ exists a m, avg_rating d = Some a /\ max_rating d = Some m.
Proof.
  intros Hargsort Hpage.
  destruct (table_shown_not_empty argsort ui fs d Hargsort Hpage)
    as [Husers Hshown].
  destruct (dashboard_parts argsort ui fs d Hpage)
    as (t & df & j0 & j1 & j2 & j3 & Hload & _ & Hsorted & _ & _ & _
        & _ & Htable & Havg & Hmax).
  repeat split; trivial.
  rewrite Htable in Hshown. cbn [rows] in *.
  unfold pd.empty in Havg, Hmax. cbn [rows columns] in Havg, Hmax.
  destruct (filter _ (rows df)) as [|r' m]; [now contradiction Hshown|].
  assert (Hcols : Nat.eqb (length (columns df)) 0 = false).
  { pose proof (load_data_well_formed _ _ Hload) as [Hh _].
    destruct (sorted_by_date_inv argsort Hargsort t df
                (load_data_well_formed _ _ Hload) Hsorted)
      as (_ & _ & _ & _ & _ & _ & -> & _).
    unfold pd.header_ok in Hh. now destruct (columns t). }
  rewrite Hcols in Havg, Hmax. simpl in Havg, Hmax.
  eexists _, _. split; [exact Havg|exact Hmax].
Qed.

Lemma statistics_always_shown_witness :
  selected_users example_dashboard <> []
  /\ rows (data_table example_dashboard) <> []
  /\ exists a m, avg_rating example_dashboard = Some a
                 /\ max_rating example_dashboard = Some m.
Proof.
  apply (statistics_always_shown stable_argsort (mkSidebar AllUsers false)
           (Some example_file) example_dashboard).
  - exact SortFacts.stable_argsort_contract.
  - reflexivity.
Defined.

(** On a file of the four labels, the table shown holds every loaded record
    whose Name is among the selected users, each once and with all its
    cells (the date parsed), and no other row; for all users it holds every
    loaded record. *)
Theorem table_shows_the_selected_records (argsort : Series -> list nat)
    (ui : sidebar) (fs : filesystem) (t : DataFrame) (d : dashboard) :
  pd.argsort_contract argsort ->
  load_data fs = Ok t ->
  columns t = COLUMNS ->
  analytics_page argsort ui fs = Ok (Dashboard d) ->
  columns (data_table d) = COLUMNS
  /\ Permutation (map (map date_text) (rows (data_table d)))
                 (filter (identity_in (selected_users d) 0) (rows t))
  /\ (view ui = AllUsers ->
      Permutation (map (map date_text) (rows (data_table d))) (rows t)).
Proof.
  intros Hargsort Hload Hcols Hpage.
  destruct (dashboard_parts argsort ui fs d Hpage)
    as (t' & df & j0 & j1 & j2 & j3 & Hload' & _ & Hsorted & Hjs & _ & Hsel
        & _ & Htable & _).
  rewrite Hload in Hload'. injection Hload' as <-.
  destruct (sorted_by_date_rows argsort Hargsort fs t df Hload Hsorted)
    as (idx & Hperm & Hcols' & Htext).
  destruct (sorted_rows_cells argsort Hargsort fs t df Hload Hsorted)
    as (j & Hj & _ & Hcells).
  rewrite Hcols in Hj. injection Hj as <-.
  rewrite Hcols', Hcols in Hjs. injection Hjs as <- <- <- <-.
  pose proof (load_data_well_formed _ _ Hload) as [_ Hrect].
  rewrite Hcols in Hrect. change (length COLUMNS) with 4 in Hrect.
  assert (Hfour : Forall (fun r => length r = 4) (rows df)).
  { pose proof (take_rectangular 4 idx (rows t) Hrect Hperm) as H.
    rewrite <- Htext in H. unfold rectangular in H.
    rewrite Forall_map in H. eapply Forall_impl; [|exact H].
    intros r Hr. cbv beta in Hr. now rewrite length_map in Hr. }
  assert (Hname : forall r, In r (rows df) ->
                    nth 0 (map date_text r) VNaN = nth 0 r VNaN).
  { intros r Hr. rewrite Forall_forall in Hcells.
    destruct (Hcells r Hr) as (r0 & _ & H0).
    change VNaN with (date_text VNaN) at 1. rewrite map_nth.
    now apply H0. }
  assert (Hshown : map (map date_text) (rows (data_table d))
                   = filter (identity_in (selected_users d) 0)
                       (pd.take [] idx (rows t))).
  { rewrite Htable. cbn [rows]. rewrite <- Htext.
    rewrite <- map_filter_invariant.
    - f_equal. rewrite <- (map_id (filter _ (rows df))) at 2.
      apply map_ext_in. intros r Hr. apply filter_In in Hr as [Hr _].
      rewrite Forall_forall in Hfour. now apply four_cells, Hfour.
    - intros r Hr. unfold identity_in. now rewrite Hname. }
  assert (Hp : Permutation (pd.take [] idx (rows t)) (rows t))
    by now apply SortFacts.take_permutation.
  rewrite Htable at 1. split; [reflexivity|]. rewrite Hshown. split.
  - now apply filter_permutation.
  - intros Hview. rewrite Hview in Hsel.
    rewrite forallb_filter_id; [exact Hp|].
    apply forallb_forall. intros r0 Hr0. rewrite <- Htext in Hr0.
    apply in_map_iff in Hr0 as [r [<- Hr]].
    unfold identity_in. rewrite (Hname r Hr), Hsel.
    apply existsb_exists. exists (nth 0 r VNaN).
    split; [|apply value_eqb_refl].
    apply distinct_values_complete. now apply column_at_In.
Qed.

Lemma table_shows_the_selected_records_witness :
  columns (data_table example_dashboard) = COLUMNS
  /\ Permutation (map (map date_text) (rows (data_table example_dashboard)))
                 (filter (identity_in (selected_users example_dashboard) 0)
                         (rows example_table))
  /\ (AllUsers = AllUsers ->
      Permutation (map (map date_text) (rows (data_table example_dashboard)))
                  (rows example_table)).
Proof.
  apply (table_shows_the_selected_records stable_argsort (mkSidebar AllUsers false)
           (Some example_file) example_table example_dashboard).
  - exact SortFacts.stable_argsort_contract.
  - reflexivity.
  - reflexivity.
  - reflexivity.
Defined.

(** Line 90: the notice is shown exactly when there is no line of ratings,
    the file missing or holding its header only; the page then draws
    nothing else. *)
Theorem no_ratings_notice (argsort : Series -> list nat) (ui : sidebar)
    (fs : filesystem) (t : DataFrame) :
  load_data fs = Ok t ->
  lines_of fs = []
  <-> analytics_page argsort ui fs
      = Ok (Notice (st_warning
                      "No data available. Please add ratings on the input page.")).
Proof.
  intros Hload. pose proof (load_data_lines _ _ Hload) as Hlen.
  pose proof (load_data_well_formed _ _ Hload) as [Hh _].
  assert (Hempty : pd.empty t = Nat.eqb (length (lines_of fs)) 0).
  { unfold pd.empty. rewrite Hlen. unfold pd.header_ok in Hh.
    destruct (columns t); [discriminate Hh|]. apply orb_false_r. }
  unfold analytics_page. rewrite Hload. cbn [bind]. rewrite Hempty.
  split.
  - now intros ->.
  - destruct (lines_of fs) as [|l ls]; [reflexivity|].
    cbn [length Nat.eqb]. intros H. exfalso.
    repeat bind_inv H. discriminate H.
Qed.

Lemma no_ratings_notice_witness :
  lines_of (Some (mkCsv COLUMNS [])) = []
  <-> analytics_page stable_argsort (mkSidebar (SelectUser 3) true)
        (Some (mkCsv COLUMNS []))
      = Ok (Notice (st_warning
                      "No data available. Please add ratings on the input page.")).
Proof.
  apply (no_ratings_notice stable_argsort (mkSidebar (SelectUser 3) true)
           (Some (mkCsv COLUMNS [])) (mkDataFrame COLUMNS [])).
  reflexivity.
Defined.

(** ** The statistics *)

Module StatFacts.

Import pd.

Lemma sum_bounds (zs : list Z) :
  Forall in_scale zs ->
  (Z.of_nat (length zs) <= sum zs <= 10 * Z.of_nat (length zs))%Z.
Proof.
  unfold in_scale. induction 1 as [|z zs Hz _ IH]; simpl length; simpl sum; lia.
Qed.

Lemma mean_bounds (zs : list Z) :
  zs <> [] -> Forall in_scale zs -> (1 <= mean zs)%Q /\ (mean zs <= 10)%Q.
Proof.
  intros Hne H. pose proof (sum_bounds zs H) as Hsum.
  unfold mean. rewrite !Qred_correct. unfold Qle. cbn [Qnum Qden].
  destruct zs as [|z zs']; [congruence|]. cbn [length] in *.
  rewrite <- Pos.of_nat_succ, Zpos_P_of_succ_nat. lia.
Qed.

Lemma fold_max_bounds (zs : list Z) (z : Z) :
  in_scale z -> Forall in_scale zs -> in_scale (fold_left Z.max zs z).
Proof.
  intros Hz H. revert z Hz. induction H as [|y zs Hy _ IH]; intros z Hz; simpl.
  - exact Hz.
  - apply IH. unfold in_scale in *. lia.
Qed.

Lemma max_bounds (zs : list Z) :
  zs <> [] -> Forall in_scale zs -> in_scale (max zs).
Proof.
  intros Hne H. destruct zs as [|z zs]; [congruence|].
  inversion H; subst. now apply fold_max_bounds.
Qed.

Lemma insert_by_In {A : Type} (le : A -> A -> bool) (x y : A) (l : list A) :
  In y (insert_by le x l) -> y = x \/ In y l.
Proof.
  induction l as [|z l IH]; simpl.
  - intros [<-|[]]. now left.
  - destruct (le x z); simpl.
    + intros [<-|H]; [now left|now right].
    + intros [<-|H]; [right; now left|].
      destruct (IH H) as [->|H']; [now left|right; now right].
Qed.

Lemma sort_by_In {A : Type} (le : A -> A -> bool) (y : A) (l : list A) :
  In y (sort_by le l) -> In y l.
Proof.
  induction l as [|x l IH]; simpl; [tauto|].
  intros H. apply insert_by_In in H as [->|H]; [now left|right; now apply IH].
Qed.

Lemma group_keys_In (k : value) (keys : Series) :
  In k (group_keys keys) -> In k keys.
Proof.
  unfold group_keys. intros H. apply sort_by_In, distinct_values_In in H.
  now apply filter_In in H as [H _].
Qed.

(** The group of a key that occurs is not empty, and holds Scale values
    only. *)
Lemma group_of_bounds {A : Type} (f g : A -> value) (k : value) (m : list A) :
  In k (map f m) ->
  Forall (fun r => exists z, g r = VInt z /\ in_scale z) m ->
  group_of k (map f m) (map g m) <> []
  /\ Forall in_scale (group_of k (map f m) (map g m)).
Proof.
  intros Hk Hm. unfold group_of. rewrite combine_map.
  rewrite filter_map_commute, map_map. cbn [fst snd]. split.
  - apply in_map_iff in Hk as [r [<- Hr]].
    intros E. apply map_eq_nil in E.
    assert (Hin : In r (filter (fun x => value_eqb (f r) (f x)) m)).
    { apply filter_In. split; [exact Hr|apply value_eqb_refl]. }
    rewrite E in Hin. destruct Hin.
  - apply Forall_map, Forall_forall. intros r Hr.
    apply filter_In in Hr as [Hr _]. rewrite Forall_forall in Hm.
    destruct (Hm r Hr) as [z [-> Hz]]. exact Hz.
Qed.

Lemma stable_column_keys (col : Series) :
  stable_column col = true ->
  forallb is_str_or_nan col = true \/ forallb is_int col = true.
Proof.
  unfold stable_column. intros H.
  apply orb_true_iff in H as [H|H]; [apply orb_true_iff in H as [H|H]|].
  - right. rewrite forallb_forall in *. intros v Hv.
    specialize (H v Hv). now destruct v.
  - left. apply andb_true_iff in H as [H _]. rewrite forallb_forall in *.
    intros v Hv. specialize (H v Hv). now destruct v.
  - left. rewrite forallb_forall in *. intros v Hv.
    specialize (H v Hv). now destruct v.
Qed.

(** A column that was loaded and holds no undetermined cell is one of
    integers, or one of strings and missing values. *)
Lemma load_data_column_keys (fs : filesystem) (t : DataFrame) (j : nat) :
  load_data fs = Ok t -> j < length (columns t) ->
  forallb determined (column_at VNaN j (rows t)) = true ->
  forallb is_str_or_nan (column_at VNaN j (rows t)) = true
  \/ forallb is_int (column_at VNaN j (rows t)) = true.
Proof.
  destruct fs as [file|]; simpl.
  - intros H Hj Hd.
    apply CsvFacts.read_csv_columns in H as (Hc & Hrows & _ & Hr).
    rewrite Hc in Hj. rewrite Hrows in *.
    rewrite (column_at_map_with_column _ VNaN _ _ _ _ Hr Hj) in *.
    now apply stable_column_keys, ExportFacts.read_column_stable.
  - intros [= <-] _ _. now left.
Qed.

Lemma group_of_columns (k : value) (m : list (list value)) :
  group_of k (column_at VNaN 0 m) (column_at VNaN 2 m) = scales_of k m.
Proof.
  unfold group_of, scales_of, column_at. rewrite combine_map.
  now rewrite filter_map_commute, map_map.
Qed.

Lemma insert_by_In_inv {A : Type} (le : A -> A -> bool) (x y : A) (l : list A) :
  y = x \/ In y l -> In y (insert_by le x l).
Proof.
  induction l as [|z l IH]; simpl.
  - intros [->|[]]. now left.
  - destruct (le x z); simpl.
    + intros [->|H]; [now left|now right].
    + intros [->|[->|H]]; [right; apply IH; now left|now left|].
      right. apply IH. now right.
Qed.

Lemma sort_by_In_inv {A : Type} (le : A -> A -> bool) (y : A) (l : list A) :
  In y l -> In y (sort_by le l).
Proof.
  induction l as [|x l IH]; simpl; [tauto|].
  intros [->|H]; apply insert_by_In_inv; [now left|right; now apply IH].
Qed.

(** The groups are the keys that are not missing. *)
Lemma group_keys_spec (k : value) (keys : Series) :
  In k (group_keys keys) <-> In k keys /\ is_open k = false.
Proof.
  unfold group_keys. split.
  - intros H. apply sort_by_In, distinct_values_In in H.
    apply filter_In in H as [H Ho]. split; [exact H|].
    now destruct (is_open k).
  - intros [H Ho]. apply sort_by_In_inv, distinct_values_complete.
    apply filter_In. split; [exact H|]. now rewrite Ho.
Qed.

Lemma sum_permutation (l l' : list Z) : Permutation l l' -> sum l = sum l'.
Proof.
  induction 1 as [|x l l' _ IH|x y l|l l' l'' _ IH _ IH']; simpl; lia.
Qed.

Lemma mean_permutation (l l' : list Z) : Permutation l l' -> mean l = mean l'.
Proof.
  intros H. unfold mean.
  now rewrite (sum_permutation _ _ H), (Permutation_length H).
Qed.

Lemma fold_max_spec (zs : list Z) (z : Z) :
  (z <= fold_left Z.max zs z)%Z
  /\ Forall (fun y => (y <= fold_left Z.max zs z)%Z) zs
  /\ (fold_left Z.max zs z = z \/ In (fold_left Z.max zs z) zs).
Proof.
  revert z; induction zs as [|y zs IH]; intros z; simpl.
  - repeat split; [lia|constructor|now left].
  - destruct (IH (Z.max z y)) as (Hz & Hall & Hin). repeat split.
    + lia.
    + constructor; [lia|exact Hall].
    + destruct Hin as [Hin|Hin]; [|right; now right].
      destruct (Z.max_spec z y) as [[_ E]|[_ E]]; rewrite E in *.
      * right. left. now symmetry.
      * now left.
Qed.

(** The maximum of a list that is not empty is one of its numbers, and none
    is greater. *)
Lemma max_spec (zs : list Z) :
  zs <> [] -> In (max zs) zs /\ Forall (fun y => (y <= max zs)%Z) zs.
Proof.
  destruct zs as [|z zs]; [congruence|]. intros _. unfold max.
  destruct (fold_max_spec zs z) as (Hz & Hall & [Hin|Hin]).
  - split; [left; now symmetry|now constructor].
  - split; [now right|now constructor].
Qed.

Lemma max_permutation (l l' : list Z) : Permutation l l' -> max l = max l'.
Proof.
  intros H. destruct l as [|z l].
  - now apply Permutation_nil in H as ->.
  - assert (Hl' : l' <> []).
    { intros ->. apply Permutation_sym, Permutation_nil in H. discriminate H. }
    destruct (max_spec (z :: l)) as [Hin Hall]; [discriminate|].
    destruct (max_spec l' Hl') as [Hin' Hall'].
    rewrite Forall_forall in Hall, Hall'.
    apply (Permutation_in _ H), Hall' in Hin.
    apply (Permutation_in _ (Permutation_sym H)), Hall in Hin'. lia.
Qed.

Lemma filter_filter_implied {A : Type} (p q : A -> bool) (l : list A) :
  (forall x, q x = true -> p x = true) ->
  filter q (filter p l) = filter q l.
Proof.
  intros H. induction l as [|x l IH]; simpl; [reflexivity|].
  destruct (p x) eqn:Ep; simpl; rewrite IH; [reflexivity|].
  destruct (q x) eqn:Eq; [|reflexivity]. rewrite (H x Eq) in Ep. discriminate Ep.
Qed.

End StatFacts.

(** The statistics of a dashboard over a file as [input_page] keeps it:
    [m] is the filtered table, whose rows are the loaded rows of the
    selected users but for their dates. *)
Lemma statistics_parts (argsort : Series -> list nat) (ui : sidebar)
    (fs : filesystem) (d : dashboard) :
  pd.argsort_contract argsort ->
  ratings_file fs ->
  analytics_page argsort ui fs = Ok (Dashboard d) ->
  exists t m,
    load_data fs = Ok t
    /\ Permutation (map (map date_text) m)
         (filter (identity_in (selected_users d) 0) (rows t))
    /\ Forall (fun r => nth 0 (map date_text r) VNaN = nth 0 r VNaN
                        /\ nth 2 (map date_text r) VNaN = nth 2 r VNaN
                        /\ exists z, nth 2 r VNaN = VInt z /\ in_scale z) m
    /\ (forall k, In k (selected_users d) <-> In k (column_at VNaN 0 m))
    /\ forallb pd.is_str_or_nan (column_at VNaN 0 m)
       || forallb pd.is_int (column_at VNaN 0 m) = true
    /\ avg_rating d
       = Some (Ok (map (fun k => (k, pd.mean (scales_of k m)))
                       (pd.group_keys (column_at VNaN 0 m))))
    /\ max_rating d
       = Some (Ok (map (fun k => (k, pd.max (scales_of k m)))
                       (pd.group_keys (column_at VNaN 0 m)))).
Proof.
  intros Hargsort Hfs Hpage.
  destruct (table_shown_not_empty argsort ui fs d Hargsort Hpage) as [_ Hshown].
  destruct (dashboard_parts argsort ui fs d Hpage)
    as (t & df & j0 & j1 & j2 & j3 & Hload & _ & Hsorted & Hjs & Hdet & Hsel
        & _ & Htable & Havg & Hmax).
  destruct (selected_among_names ui _ _ Hsel) as (_ & Hsub & _).
  destruct (load_ratings_file fs Hfs) as (t' & Hload' & Hcols & Hscale).
  rewrite Hload in Hload'. injection Hload' as <-.
  destruct (sorted_by_date_rows argsort Hargsort fs t df Hload Hsorted)
    as (idx & Hperm & Hcols' & Htext).
  destruct (sorted_rows_cells argsort Hargsort fs t df Hload Hsorted)
    as (j & Hj & _ & Hcells).
  rewrite Hcols in Hj. injection Hj as <-.
  rewrite Hcols', Hcols in Hjs. injection Hjs as <- <- <- <-.
  rewrite Forall_forall in Hcells.
  assert (Hcell : forall r k, In r (rows df) -> k <> 1 ->
                    nth k (map date_text r) VNaN = nth k r VNaN).
  { intros r k Hr Hk. destruct (Hcells r Hr) as (r0 & _ & H0).
    change VNaN with (date_text VNaN) at 1. rewrite map_nth. now apply H0. }
  (* the names of the loaded table *)
  assert (Hkeys_t : forallb pd.is_str_or_nan (column_at VNaN 0 (rows t)) = true
                    \/ forallb pd.is_int (column_at VNaN 0 (rows t)) = true).
  { apply (StatFacts.load_data_column_keys fs); trivial.
    - rewrite Hcols. simpl. lia.
    - apply column_forallb, Forall_forall. intros r0 Hr0.
      apply (Permutation_in _ (Permutation_sym
               (SortFacts.take_permutation [] idx (rows t) Hperm))) in Hr0.
      rewrite <- Htext in Hr0. apply in_map_iff in Hr0 as [r [<- Hr]].
      rewrite (Hcell r 0 Hr) by lia.
      rewrite forallb_forall in Hdet. apply Hdet. now apply column_at_In. }
  set (m := filter (identity_in (selected_users d) 0) (rows df)) in *.
  assert (Hm : forall r, In r m ->
                 exists r0, In r0 (rows t)
                            /\ nth 0 r VNaN = nth 0 r0 VNaN
                            /\ nth 2 r VNaN = nth 2 r0 VNaN).
  { intros r Hr. apply filter_In in Hr as [Hr _].
    destruct (Hcells r Hr) as (r0 & Hr0 & H0).
    exists r0. repeat split; trivial; apply H0; lia. }
  assert (Hvals : Forall (fun r => exists z, nth 2 r VNaN = VInt z /\ in_scale z) m).
  { apply Forall_forall. intros r Hr.
    destruct (Hm r Hr) as (r0 & Hr0 & _ & ->).
    rewrite Forall_forall in Hscale. now apply Hscale. }
  assert (Hkeys : forallb pd.is_str_or_nan (column_at VNaN 0 m)
                  || forallb pd.is_int (column_at VNaN 0 m) = true).
  { apply orb_true_iff.
    destruct Hkeys_t as [H|H]; [left|right]; apply column_forallb, Forall_forall;
      intros r Hr; destruct (Hm r Hr) as (r0 & Hr0 & -> & _);
      rewrite forallb_forall in H; apply H; now apply column_at_In. }
  assert (Hints : forallb pd.is_int (column_at VNaN 2 m) = true).
  { apply column_forallb. eapply Forall_impl; [|exact Hvals].
    now intros r [z [-> _]]. }
  assert (Hne : pd.empty (mkDataFrame (columns df) m) = false).
  { unfold pd.empty. cbn [rows columns]. rewrite Hcols', Hcols.
    rewrite Htable in Hshown. cbn [rows] in Hshown.
    destruct m; [now contradiction Hshown|reflexivity]. }
  rewrite Hne in Havg, Hmax.
  unfold pd.groupby_mean, pd.groupby_max, pd.groupby_agg, pd.getitem in Havg, Hmax.
  cbn [rows columns] in Havg, Hmax. rewrite Hcols', Hcols in Havg, Hmax.
  simpl index_of in Havg, Hmax. cbn [bind] in Havg, Hmax.
  rewrite Hkeys, Hints in Havg, Hmax. cbn [andb] in Havg, Hmax.
  exists t, m. split; [exact Hload|]. split; [|split; [|split; [|split; [exact Hkeys|]]]].
  - unfold m. rewrite map_filter_invariant.
    + rewrite Htext. apply filter_permutation.
      now apply SortFacts.take_permutation.
    + intros r Hr. unfold identity_in. now rewrite (Hcell r 0 Hr) by lia.
  - apply Forall_forall. intros r Hr. rewrite Forall_forall in Hvals.
    pose proof (Hvals r Hr) as Hz. apply filter_In in Hr as [Hr _].
    repeat split; trivial; apply Hcell; trivial; lia.
  - intros k. split.
    + intros Hk. apply Hsub in Hk as Hin. unfold column_at in Hin.
      apply in_map_iff in Hin as [r [Hr Hin]]. rewrite <- Hr.
      apply column_at_In, filter_In. split; [exact Hin|].
      unfold identity_in. apply existsb_exists. exists k.
      split; [exact Hk|]. rewrite Hr. apply value_eqb_refl.
    + intros Hk. unfold column_at in Hk. apply in_map_iff in Hk as [r [<- Hr]].
      apply filter_In in Hr as [_ Hr]. unfold identity_in in Hr.
      apply existsb_exists in Hr as [x [Hx Heq]].
      apply value_eqb_eq in Heq. now rewrite Heq.
  - split; [rewrite Havg|rewrite Hmax]; do 2 f_equal; apply map_ext; intros k;
      now rewrite StatFacts.group_of_columns.
Qed.

Lemma scales_of_bounds (k : value) (m : list (list value)) :
  In k (column_at VNaN 0 m) ->
  Forall (fun r => exists z, nth 2 r VNaN = VInt z /\ in_scale z) m ->
  scales_of k m <> [] /\ Forall in_scale (scales_of k m).
Proof.
  intros Hk Hm. rewrite <- StatFacts.group_of_columns.
  now apply (StatFacts.group_of_bounds
               (fun r => nth 0 r VNaN) (fun r => nth 2 r VNaN)).
Qed.

(** On a file as [input_page] keeps it, a dashboard that is drawn shows both
    statistics, computed without an error and over the same names, and
    every average and every maximum lies between 1 and 10. *)
Theorem statistics_between_1_and_10 (argsort : Series -> list nat)
    (ui : sidebar) (fs : filesystem) (d : dashboard) :
  pd.argsort_contract argsort ->
  ratings_file fs ->
  analytics_page argsort ui fs = Ok (Dashboard d) ->
  exists avg mx,
    avg_rating d = Some (Ok avg)
    /\ max_rating d = Some (Ok mx)
    /\ map fst avg = map fst mx
    /\ Forall (fun kq => (1 <= snd kq)%Q /\ (snd kq <= 10)%Q) avg
    /\ Forall (fun kz => in_scale (snd kz)) mx.
Proof.
  intros Hargsort Hfs Hpage.
  destruct (statistics_parts argsort ui fs d Hargsort Hfs Hpage)
    as (t & m & _ & _ & Hcells & _ & _ & Havg & Hmax).
  assert (Hvals : Forall (fun r => exists z, nth 2 r VNaN = VInt z /\ in_scale z) m).
  { eapply Forall_impl; [|exact Hcells]. now intros r (_ & _ & H). }
  eexists _, _. split; [exact Havg|]. split; [exact Hmax|].
  rewrite !map_map. cbn [fst snd]. split; [reflexivity|].
  split; apply Forall_map, Forall_forall; intros k Hk;
    apply StatFacts.group_keys_In in Hk;
    destruct (scales_of_bounds k m Hk Hvals) as [Hgroup Hin]; cbn [snd].
  - now apply StatFacts.mean_bounds.
  - now apply StatFacts.max_bounds.
Qed.


Lemma statistics_between_1_and_10_witness :
  exists avg mx,
    avg_rating example_dashboard = Some (Ok avg)
    /\ max_rating example_dashboard = Some (Ok mx)
    /\ map fst avg = map fst mx
    /\ Forall (fun kq => (1 <= snd kq)%Q /\ (snd kq <= 10)%Q) avg
    /\ Forall (fun kz => in_scale (snd kz)) mx.
Proof.
  apply (statistics_between_1_and_10 stable_argsort (mkSidebar AllUsers false)
           (Some example_file) example_dashboard).
  - exact SortFacts.stable_argsort_contract.
  - split; [reflexivity|].
    constructor; [split; [reflexivity|now exists 5%Z]|].
    constructor; [split; [reflexivity|now exists 9%Z]|].
    constructor; [split; [reflexivity|now exists 3%Z]|].
    constructor.
  - reflexivity.
Defined.


